(** * cudnn-frontend graph nodes: BatchNorm, DBN, Dgrad and Rng

    A shallow embedding of the four node classes of
    [include/cudnn_frontend/cudnn_frontend_node_*.h] and the properties of
    their build lifecycle (validate, infer properties, assign uids, create
    tensors, create operations).

    Tensor descriptors are held through [std::shared_ptr], so several roles
    of one node, and several nodes, may point at the same descriptor.  The
    model keeps them in a store indexed by pointers; a role is an optional
    pointer, [None] being the null pointer. *)

From Stdlib Require Import ZArith Lia.
From stdpp Require Import base option list gmap strings functions.

Set Default Proof Using "Type".

(** ** Outcomes of running a member function

    A C++ member function either returns, runs into undefined behaviour, or
    leaves through an exception. *)

Inductive undefined_behaviour :=
  | NullDeref        (* [->] on an empty shared_ptr *)
  | OutOfBounds      (* [operator[]] of std::vector past its size *)
  | SignedOverflow.  (* int64_t arithmetic leaving the int64_t range *)

Inductive exception :=
  | cudnnException (what : string) (status : Z)
  | out_of_range           (* std::unordered_map::at on a missing key *)
  | bad_optional_access.   (* std::optional::value on an empty optional *)

Inductive result (A : Type) :=
  | Ok (a : A)
  | Undefined (u : undefined_behaviour)
  | Throw (e : exception).
Arguments Ok {A} a.
Arguments Undefined {A} u.
Arguments Throw {A} e.

(** A member function over a state [S] returning an [A]. *)
Definition M (S A : Type) : Type := S -> result (A * S).

#[global] Instance M_ret {S} : MRet (M S) := fun A a s => Ok (a, s).
#[global] Instance M_bind {S} : MBind (M S) := fun A B k m s =>
  match m s with
  | Ok (a, s') => k a s'
  | Undefined u => Undefined u
  | Throw e => Throw e
  end.

Definition undefined {S A} (u : undefined_behaviour) : M S A := fun _ => Undefined u.
Definition throw {S A} (e : exception) : M S A := fun _ => Throw e.

(** [try { body } catch (cudnnException& e) { throw cudnnException(e.what(),
    e.getCudnnStatus()); }]: only [cudnnException] is caught, and it is thrown
    again with the same message and status. *)
Definition try_rethrow {S A} (body : M S A) : M S A := fun s =>
  match body s with
  | Throw (cudnnException what status) => Throw (cudnnException what status)
  | r => r
  end.

(** ** std::vector<int64_t> *)

Definition is_empty (v : list Z) : bool := bool_decide (v = []).

(** [v.resize(n, x)]: truncates, or pads with copies of [x]. *)
Definition resize (v : list Z) (n : nat) (x : Z) : list Z :=
  take n v ++ replicate (n - length v) x.

(** [v[i]] as an rvalue. *)
Definition vec_at {S} (v : list Z) (i : nat) : M S Z :=
  match v !! i with
  | Some x => mret x
  | None => undefined OutOfBounds
  end.

(** [v[i] = x]; the vector after the store. *)
Definition vec_assign {S} (v : list Z) (i : nat) (x : Z) : M S (list Z) :=
  if decide (i < length v) then mret (<[i:=x]> v) else undefined OutOfBounds.

(** [v.data()] read by a callee for [n] elements. *)
Definition vec_data {S} (v : list Z) (n : nat) : M S (list Z) :=
  if decide (n <= length v) then mret (take n v) else undefined OutOfBounds.

(** ** int64_t arithmetic: a result outside the range is undefined. *)

Definition int64_min : Z := - 2 ^ 63.
Definition int64_max : Z := 2 ^ 63 - 1.
Definition in_int64 (z : Z) : bool := bool_decide (int64_min <= z <= int64_max)%Z.

Definition i64 {S} (z : Z) : M S Z :=
  if in_int64 z then mret z else undefined SignedOverflow.

(** ** Status values *)

(** Modelled from the spec: the declaration of [error_code_t] is not among
    the node sources.  The nodes name [OK] and [ATTRIBUTE_NOT_SET]; the third
    code is the specification's failure of the backend to construct a tensor
    (see [create_cudnn_tensor]). *)
Inductive error_code_t := OK | ATTRIBUTE_NOT_SET | BACKEND_CONSTRUCTION_FAILURE.

#[global] Instance error_code_t_eq_dec : EqDecision error_code_t.
Proof. solve_decision. Defined.

Record error_t := mk_error { code : error_code_t; err_msg : string }.

Definition is_bad (e : error_t) : bool := bool_decide (code e ≠ OK).

(** Modelled from the spec: the macro [CHECK_CUDNN_FRONTEND_ERROR] is not
    among the node sources; a failure is propagated at once: the calling
    function returns the status of [x] when it is bad, and goes on with [k]
    otherwise. *)
Definition CHECK_CUDNN_FRONTEND_ERROR {S} (x : M S error_t) (k : M S error_t)
  : M S error_t :=
  retval ← x; if is_bad retval then mret retval else k.

(** ** Tensor descriptors *)

Definition uid_t := Z.
Definition ptr := positive.

(** [std::shared_ptr<Tensor_attributes>]; [None] is the empty pointer. *)
Abbreviation shared_ptr := (option ptr).

(** Modelled from the spec: the element data types, of which the nodes only
    need to tell the unset one from the others. *)
Inductive DataType_t := DT_NOT_SET | HALF | FLOAT | DOUBLE | INT32 | INT64 | BOOLEAN.

#[global] Instance DataType_t_eq_dec : EqDecision DataType_t.
Proof. solve_decision. Defined.

(** Modelled from the spec: the class [Tensor_attributes] is not among the
    node sources.  A descriptor has a shape and a stride (empty when unset),
    an element data type, a virtuality flag and an optional identifier,
    unset until it is assigned; the nodes read them with [get_dim],
    [get_stride], [get_is_virtual] and [get_uid], and write them with
    [set_dim], [set_stride], which store what they are given, and
    [set_uid]. *)
Record Tensor_attributes := mk_tensor {
  dim : list Z;
  stride : list Z;
  data_type : DataType_t;
  is_virtual : bool;
  uid : uid_t;
  uid_assigned : bool
}.

Definition with_dim (d : list Z) (t : Tensor_attributes) : Tensor_attributes :=
  mk_tensor d (stride t) (data_type t) (is_virtual t) (uid t) (uid_assigned t).
Definition with_stride (s : list Z) (t : Tensor_attributes) : Tensor_attributes :=
  mk_tensor (dim t) s (data_type t) (is_virtual t) (uid t) (uid_assigned t).
Definition with_data_type (d : DataType_t) (t : Tensor_attributes) : Tensor_attributes :=
  mk_tensor (dim t) (stride t) d (is_virtual t) (uid t) (uid_assigned t).
Definition with_uid (u : uid_t) (t : Tensor_attributes) : Tensor_attributes :=
  mk_tensor (dim t) (stride t) (data_type t) (is_virtual t) u true.

(** Modelled from the spec: [Tensor_attributes::set_uid] is not among the
    node sources; an identifier is assigned exactly once, after which it is
    immutable, so the setter gives an identifier to a descriptor that has
    none and leaves be one that has. *)
Definition assigned_once (u : uid_t) (t : Tensor_attributes) : Tensor_attributes :=
  if uid_assigned t then t else with_uid u t.

(** Modelled from the spec: [detail::Context] is not among the node sources;
    it carries the graph-wide data-type defaults a node is constructed
    with. *)
Record Context := mk_context {
  io_data_type : DataType_t;
  intermediate_data_type : DataType_t;
  compute_data_type : DataType_t
}.

(** ** The backend *)

(** A backend tensor, as the tensor builder receives it. *)
Inductive Tensor := BackendTensor (a : Tensor_attributes).

(** Modelled from the spec: the forward phase is training or inference, or
    has not been set ([NormFwdPhase_t::NOT_SET] in the node). *)
Inductive NormFwdPhase_t := PHASE_NOT_SET | INFERENCE | TRAINING.

#[global] Instance NormFwdPhase_t_eq_dec : EqDecision NormFwdPhase_t.
Proof. solve_decision. Defined.

(** Modelled from the spec: the distribution kinds, of which the node names
    [BERNOULLI]. *)
Inductive RngDistribution_t := BERNOULLI | UNIFORM | NORMAL.

#[global] Instance RngDistribution_t_eq_dec : EqDecision RngDistribution_t.
Proof. solve_decision. Defined.

(** A [double] or [float] is carried as its IEEE-754 bit pattern; the nodes
    only pass such values on. *)
Definition double := Z.
Definition float := Z.
Definition float_one : float := 0x3F800000%Z.   (* 1.f *)
Definition float_zero : float := 0%Z.            (* 0.f *)

Record RngDesc := mk_RngDesc {
  rng_distribution : RngDistribution_t;
  rng_bernoulli_probability : double
}.

Record ConvDesc := mk_ConvDesc {
  conv_compute_type : DataType_t;
  conv_spatial_dim_count : Z;
  conv_spatial_stride : list Z;
  conv_pre_padding : list Z;
  conv_post_padding : list Z;
  conv_dilation : list Z
}.

(** How an Rng operation gets its seed: [setSeedDesc] and [setOffsetDesc]
    with two tensors, or [setSeed] with a value. *)
Inductive RngSeeding :=
  | SeedTensors (seed offset : Tensor)
  | SeedValue (seed : Z).

(** What an [OperationBuilder] has been given when [build()] is called. *)
Inductive Operation :=
  | OPERATION_NORM_FORWARD (phase : NormFwdPhase_t)
      (x mean inv_variance scale bias prev_running_mean prev_running_var
       next_running_mean next_running_var epsilon momentum y : Tensor)
  | OPERATION_NORM_BACKWARD
      (x dy scale mean inv_variance dscale dbias dx : Tensor)
  | OPERATION_CONVOLUTION_BACKWARD_DATA
      (dx w dy : Tensor) (c : ConvDesc) (alpha beta : float)
  | OPERATION_RNG (y : Tensor) (d : RngDesc) (seeding : RngSeeding).

(** Everything a backend builder's [build()] can be asked to make. *)
Inductive Descriptor :=
  | TensorDescriptor (a : Tensor_attributes)
  | RngDescriptor (d : RngDesc)
  | ConvDescriptor (c : ConvDesc)
  | OperationDescriptor (op : Operation).

(** ** Node state

    What a member function of a node with attributes [A] can reach: the
    node's [options], the descriptors behind its shared pointers, the static
    counter of [ICudnn::create_new_uid], and the [tensors] and [operations]
    the node inherits from [ICudnn]. *)

Abbreviation Heap := (ptr → Tensor_attributes).

Record State (A : Type) := mk_state {
  options : A;
  heap : Heap;
  uid_counter : uid_t;
  tensors : gmap Z Tensor;
  operations : list (Operation * list uid_t)
}.
Arguments mk_state {A}.
Arguments options {A}.
Arguments heap {A}.
Arguments uid_counter {A}.
Arguments tensors {A}.
Arguments operations {A}.

Section Primitives.
Context {A : Type}.

Definition get_options : M (State A) A := fun s => Ok (options s, s).

Definition set_options (o : A) : M (State A) () := fun s =>
  Ok ((), mk_state o (heap s) (uid_counter s) (tensors s) (operations s)).

(** [*p] for reading. *)
Definition deref (p : shared_ptr) : M (State A) Tensor_attributes := fun s =>
  match p with
  | Some q => Ok (heap s q, s)
  | None => Undefined NullDeref
  end.

(** A setter called through [p->]. *)
Definition update (p : shared_ptr) (f : Tensor_attributes → Tensor_attributes)
  : M (State A) () := fun s =>
  match p with
  | Some q =>
      Ok ((), mk_state (options s) (<[q := f (heap s q)]> (heap s))
                (uid_counter s) (tensors s) (operations s))
  | None => Undefined NullDeref
  end.

Definition get_dim (p : shared_ptr) : M (State A) (list Z) :=
  t ← deref p; mret (dim t).

Definition get_stride (p : shared_ptr) : M (State A) (list Z) :=
  t ← deref p; mret (stride t).

Definition get_uid (p : shared_ptr) : M (State A) uid_t :=
  t ← deref p; mret (uid t).

Definition get_is_virtual (p : shared_ptr) : M (State A) bool :=
  t ← deref p; mret (is_virtual t).

Definition set_dim (p : shared_ptr) (d : list Z) : M (State A) () :=
  update p (with_dim d).

Definition set_stride (p : shared_ptr) (d : list Z) : M (State A) () :=
  update p (with_stride d).

Definition set_uid (p : shared_ptr) (u : uid_t) : M (State A) () :=
  update p (assigned_once u).

(** Modelled from the spec: [Tensor_attributes::fill_from_context] is not
    among the node sources; the context carries the graph-wide data-type
    defaults, which a descriptor without a data type inherits. *)
Definition fill_tensor_from_context (context : Context) (t : Tensor_attributes)
  : Tensor_attributes :=
  if decide (data_type t = DT_NOT_SET) then
    with_data_type
      (if is_virtual t then intermediate_data_type context
       else io_data_type context) t
  else t.

Definition tensor_fill_from_context (context : Context) (p : shared_ptr)
  : M (State A) () :=
  match p with
  | Some _ => update p (fill_tensor_from_context context)
  | None => mret ()
  end.

Fixpoint fill_all (context : Context) (roles : list shared_ptr) : M (State A) () :=
  match roles with
  | [] => mret ()
  | p :: rest => tensor_fill_from_context context p;; fill_all context rest
  end.

(** Modelled from the spec: [ICudnn::create_new_uid] is not among the node
    sources; identifiers come from one counter that only grows and is never
    reset. *)
Definition create_new_uid : M (State A) uid_t := fun s =>
  let u := (uid_counter s + 1)%Z in
  Ok (u, mk_state (options s) (heap s) u (tensors s) (operations s)).

(** [tensors.at(uid)] *)
Definition tensors_at (u : uid_t) : M (State A) Tensor := fun s =>
  match tensors s !! u with
  | Some t => Ok (t, s)
  | None => Throw out_of_range
  end.

(** [*(tensors.at(T->get_uid()))] *)
Definition handle (T : shared_ptr) : M (State A) Tensor :=
  u ← get_uid T; tensors_at u.

(** The two arguments [*(tensors.at(T1->get_uid()))] and
    [*(tensors.at(T2->get_uid()))] of one call: C++ evaluates one wholly
    before the other and leaves open which. *)
Definition handle2 (second_first : bool) (T1 T2 : shared_ptr)
  : M (State A) (Tensor * Tensor) :=
  if second_first then b ← handle T2; a ← handle T1; mret (a, b)
  else a ← handle T1; b ← handle T2; mret (a, b).

Definition operations_push_back (op : Operation) (uids : list uid_t)
  : M (State A) () := fun s =>
  Ok ((), mk_state (options s) (heap s) (uid_counter s) (tensors s)
            (operations s ++ [(op, uids)])).

(** The loop every [createOperations] runs over
    [tensors_involved_in_operation]:
    [if (tensor && tensor->get_is_virtual() == false)
       uids_in_operation.push_back(tensor->get_uid());] *)
Fixpoint collect_uids (involved : list shared_ptr) (uids_in_operation : list uid_t)
  : M (State A) (list uid_t) :=
  match involved with
  | [] => mret uids_in_operation
  | tensor :: rest =>
      match tensor with
      | Some _ =>
          v ← get_is_virtual tensor;
          if bool_decide (v = false) then
            u ← get_uid tensor;
            collect_uids rest (uids_in_operation ++ [u])
          else collect_uids rest uids_in_operation
      | None => collect_uids rest uids_in_operation
      end
  end.

Section Backend.
(** The backend builders are outside the nodes: [build_error d] is [None]
    when [build()] accepts [d], and the message and status of the
    [cudnnException] it throws otherwise. *)
Variable build_error : Descriptor → option (string * Z).

Definition build (d : Descriptor) : M (State A) () :=
  match build_error d with
  | None => mret ()
  | Some (what, status) => throw (cudnnException what status)
  end.

(** Modelled from the spec: [create_cudnn_tensor] is not among the node
    sources; for a descriptor with its identifier it asks the tensor factory
    for a backend tensor made of shape, stride, data type, identifier and
    virtuality, registers it under the identifier, and returns the factory's
    rejection as a status. *)
Definition create_cudnn_tensor (props : shared_ptr) : M (State A) error_t :=
  t ← deref props;
  ((fun s =>
      match build_error (TensorDescriptor t) with
      | Some (what, _) => Ok (mk_error BACKEND_CONSTRUCTION_FAILURE what, s)
      | None =>
          Ok (mk_error OK "",
              mk_state (options s) (heap s) (uid_counter s)
                (<[uid t := BackendTensor t]> (tensors s)) (operations s))
      end) : M (State A) error_t).
End Backend.
End Primitives.

(** ** Convolution data gradient: [DgradNode] *)

Module DgradNode.

Record Inputs := mk_inputs { W : shared_ptr; DY : shared_ptr }.
Record Outputs := mk_outputs { DX : shared_ptr }.

(** [Conv_dgrad_attributes]: the roles and [get_padding], [get_stride],
    [get_dilation], [get_compute_data_type]. *)
Record Conv_dgrad_attributes := mk_attributes {
  inputs : Inputs;
  outputs : Outputs;
  padding : list Z;
  conv_stride : list Z;
  dilation : list Z;
  attr_compute_data_type : DataType_t
}.

Abbreviation St := (State Conv_dgrad_attributes).

(** Modelled from the spec: the attributes' [fill_from_context] is not among
    the node sources; the roles that are set and the compute type inherit the
    context's defaults. *)
Definition fill_from_context (context : Context) : M St () :=
  o ← get_options;
  fill_all context
    [W (inputs o);
     DY (inputs o);
     DX (outputs o)];;
  if decide (attr_compute_data_type o = DT_NOT_SET) then
    set_options (mk_attributes (inputs o) (outputs o) (padding o) (conv_stride o)
                   (dilation o) (compute_data_type context))
  else mret ().

(** The loop [for (size_t dim = 2; dim < w_tensor_dim.size(); ++dim)] with
    [n] iterations left; the operands of the right-hand side are evaluated
    from left to right, every int64_t operation checked. *)
Fixpoint infer_spatial (n : nat) (dim_ : nat)
    (w_tensor_dim dy_tensor_dim padding stride dilation : list Z)
    (dx_tensor_dim : list Z) : M St (list Z) :=
  match n with
  | 0 => mret dx_tensor_dim
  | S n' =>
      dy_d ← vec_at dy_tensor_dim dim_;
      a ← i64 (dy_d - 1);
      st ← vec_at stride (dim_ - 2);
      b ← i64 (a * st);
      pd ← vec_at padding (dim_ - 2);
      c ← i64 (2 * pd);
      d ← i64 (b - c);
      e ← i64 (d + 1);
      dl ← vec_at dilation (dim_ - 2);
      w_d ← vec_at w_tensor_dim dim_;
      f ← i64 (w_d - 1);
      g ← i64 (dl * f);
      v ← i64 (e + g);
      dx_tensor_dim ← vec_assign dx_tensor_dim dim_ v;
      infer_spatial n' (S dim_) w_tensor_dim dy_tensor_dim padding stride dilation
        dx_tensor_dim
  end.

Section Infer.
Variable generate_stride : list Z → list Z.

Definition infer_properties_node (context : Context) : M St error_t :=
  fill_from_context context;;
  o ← get_options;
  let DX := DX (outputs o) in
  let W := W (inputs o) in
  let DY := DY (inputs o) in
  w_tensor_dim ← get_dim W;
  dy_tensor_dim ← get_dim DY;
  dx_tensor_dim ← get_dim DX;
  (if is_empty dx_tensor_dim then
     let dx_tensor_dim := resize dx_tensor_dim (length w_tensor_dim) 0 in
     dy0 ← vec_at dy_tensor_dim 0;
     dx_tensor_dim ← vec_assign dx_tensor_dim 0 dy0;
     w1 ← vec_at w_tensor_dim 1;
     dx_tensor_dim ← vec_assign dx_tensor_dim 1 w1;
     dx_tensor_dim ← infer_spatial (length w_tensor_dim - 2) 2 w_tensor_dim
                        dy_tensor_dim (padding o) (conv_stride o) (dilation o)
                        dx_tensor_dim;
     set_dim DX dx_tensor_dim
   else mret ());;
  dx_stride ← get_stride DX;
  (if is_empty dx_stride then
     d ← get_dim DX;
     set_stride DX (generate_stride d)
   else mret ());;
  mret (mk_error OK "").
End Infer.

Definition assign_uids_node : M St error_t :=
  o ← get_options;
  (u ← create_new_uid; set_uid (DY (inputs o)) u);;
  (u ← create_new_uid; set_uid (W (inputs o)) u);;
  (u ← create_new_uid; set_uid (DX (outputs o)) u);;
  mret (mk_error OK "").

Section Backend.
Variable build_error : Descriptor → option (string * Z).

Definition createTensors : M St error_t :=
  o ← get_options;
  CHECK_CUDNN_FRONTEND_ERROR (create_cudnn_tensor build_error (DX (outputs o))) (
  CHECK_CUDNN_FRONTEND_ERROR (create_cudnn_tensor build_error (W (inputs o))) (
  CHECK_CUDNN_FRONTEND_ERROR (create_cudnn_tensor build_error (DY (inputs o))) (
  mret (mk_error OK "")))).

Definition tensors_involved_in_operation (o : Conv_dgrad_attributes)
  : list shared_ptr :=
  [DX (outputs o); W (inputs o); DY (inputs o)].

Definition createOperations : M St error_t :=
  try_rethrow (
    o ← get_options;
    let spatial_dim_count := length (padding o) in
    strides ← vec_data (conv_stride o) spatial_dim_count;
    pre ← vec_data (padding o) spatial_dim_count;
    post ← vec_data (padding o) spatial_dim_count;
    dil ← vec_data (dilation o) spatial_dim_count;
    let dgrad_descriptor :=
      mk_ConvDesc (attr_compute_data_type o) (Z.of_nat spatial_dim_count)
        strides pre post dil in
    build build_error (ConvDescriptor dgrad_descriptor);;
    dx ← handle (DX (outputs o));
    w ← handle (W (inputs o));
    dy ← handle (DY (inputs o));
    let dgrad_operation :=
      OPERATION_CONVOLUTION_BACKWARD_DATA dx w dy dgrad_descriptor
        float_one float_zero in
    build build_error (OperationDescriptor dgrad_operation);;
    uids_in_operation ← collect_uids (tensors_involved_in_operation o) [];
    operations_push_back dgrad_operation uids_in_operation);;
  mret (mk_error OK "").
End Backend.

End DgradNode.

(** ** The inference helpers shared by the normalization nodes

    Both [BatchNormNode] and [DBNNode] define the same lambdas over the
    copy [x_tensor_dim] of the shape of [X]. *)

Section NormInference.
Context {A : Type}.
Variable generate_stride : list Z → list Z.

(** [if (T->get_stride().empty())
      T->set_stride(detail::generate_stride(T->get_dim()));] *)
Definition infer_stride (T : shared_ptr) : M (State A) () :=
  s ← get_stride T;
  if is_empty s then
    d ← get_dim T;
    set_stride T (generate_stride d)
  else mret ().

(** The block for [Y], [DY] and [DX]: the local copy is resized and then
    left unused, the descriptor gets the shape of [X]. *)
Definition infer_like_x (x_tensor_dim : list Z) (T : shared_ptr) : M (State A) () :=
  tensor_dim ← get_dim T;
  (if is_empty tensor_dim then
     let tensor_dim := resize tensor_dim (length x_tensor_dim) 0 in
     set_dim T x_tensor_dim
   else mret ());;
  infer_stride T.

Definition infer_per_channel_tensors (x_tensor_dim : list Z) (T : shared_ptr)
  : M (State A) () :=
  tensor_dim ← get_dim T;
  (if is_empty tensor_dim then
     let tensor_dim := resize tensor_dim (length x_tensor_dim) 1 in
     x1 ← vec_at x_tensor_dim 1;
     tensor_dim ← vec_assign tensor_dim 1 x1;
     set_dim T tensor_dim
   else mret ());;
  infer_stride T.

Definition infer_scalar_tensors (x_tensor_dim : list Z) (T : shared_ptr)
  : M (State A) () :=
  tensor_dim ← get_dim T;
  (if is_empty tensor_dim then
     let tensor_dim := resize tensor_dim (length x_tensor_dim) 1 in
     set_dim T tensor_dim
   else mret ());;
  infer_stride T.
End NormInference.

(** ** Batch normalization forward: [BatchNormNode] *)

Module BatchNormNode.

Record Inputs := mk_inputs {
  X : shared_ptr;
  SCALE : shared_ptr;
  BIAS : shared_ptr;
  PREV_RUNNING_MEAN : shared_ptr;
  PREV_RUNNING_VAR : shared_ptr;
  EPSILON : shared_ptr;
  MOMENTUM : shared_ptr
}.

Record Outputs := mk_outputs {
  Y : shared_ptr;
  MEAN : shared_ptr;
  INV_VARIANCE : shared_ptr;
  NEXT_RUNNING_MEAN : shared_ptr;
  NEXT_RUNNING_VAR : shared_ptr
}.

Record Batchnorm_attributes := mk_attributes {
  inputs : Inputs;
  outputs : Outputs;
  forward_phase : NormFwdPhase_t;
  attr_compute_data_type : DataType_t
}.

Abbreviation St := (State Batchnorm_attributes).

(** Modelled from the spec: the attributes' [fill_from_context] is not among
    the node sources; the roles that are set and the compute type inherit the
    context's defaults. *)
Definition fill_from_context (context : Context) : M St () :=
  o ← get_options;
  fill_all context
    [X (inputs o);
     SCALE (inputs o);
     BIAS (inputs o);
     PREV_RUNNING_MEAN (inputs o);
     PREV_RUNNING_VAR (inputs o);
     EPSILON (inputs o);
     MOMENTUM (inputs o);
     Y (outputs o);
     MEAN (outputs o);
     INV_VARIANCE (outputs o);
     NEXT_RUNNING_MEAN (outputs o);
     NEXT_RUNNING_VAR (outputs o)];;
  if decide (attr_compute_data_type o = DT_NOT_SET) then
    set_options (mk_attributes (inputs o) (outputs o) (forward_phase o)
                   (compute_data_type context))
  else mret ().

Section Infer.
Variable generate_stride : list Z → list Z.

Definition infer_properties_node (context : Context) : M St error_t :=
  fill_from_context context;;
  o ← get_options;
  x_tensor_dim ← get_dim (X (inputs o));
  infer_like_x generate_stride x_tensor_dim (Y (outputs o));;
  infer_per_channel_tensors generate_stride x_tensor_dim (MEAN (outputs o));;
  infer_per_channel_tensors generate_stride x_tensor_dim (INV_VARIANCE (outputs o));;
  infer_per_channel_tensors generate_stride x_tensor_dim (NEXT_RUNNING_MEAN (outputs o));;
  infer_per_channel_tensors generate_stride x_tensor_dim (NEXT_RUNNING_VAR (outputs o));;
  infer_per_channel_tensors generate_stride x_tensor_dim (PREV_RUNNING_MEAN (inputs o));;
  infer_per_channel_tensors generate_stride x_tensor_dim (PREV_RUNNING_VAR (inputs o));;
  infer_per_channel_tensors generate_stride x_tensor_dim (SCALE (inputs o));;
  infer_per_channel_tensors generate_stride x_tensor_dim (BIAS (inputs o));;
  infer_scalar_tensors generate_stride x_tensor_dim (EPSILON (inputs o));;
  infer_scalar_tensors generate_stride x_tensor_dim (MOMENTUM (inputs o));;
  mret (mk_error OK "").
End Infer.

Definition validate_node : M St error_t :=
  o ← get_options;
  if decide (forward_phase o = PHASE_NOT_SET) then
    let status := ATTRIBUTE_NOT_SET in
    let message := "[cudnn_frontend] ERROR: Forward phase not set of batchnorm node." in
    mret (mk_error status message)
  else mret (mk_error OK "").

(** The roles in the order [assign_uids_node] names them. *)
Definition uid_roles (o : Batchnorm_attributes) : list shared_ptr :=
  [X (inputs o); SCALE (inputs o); BIAS (inputs o);
   PREV_RUNNING_MEAN (inputs o); PREV_RUNNING_VAR (inputs o);
   EPSILON (inputs o); MOMENTUM (inputs o);
   Y (outputs o); MEAN (outputs o); INV_VARIANCE (outputs o);
   NEXT_RUNNING_MEAN (outputs o); NEXT_RUNNING_VAR (outputs o)].

Definition assign_uids_node : M St error_t :=
  o ← get_options;
  (u ← create_new_uid; set_uid (X (inputs o)) u);;
  (u ← create_new_uid; set_uid (SCALE (inputs o)) u);;
  (u ← create_new_uid; set_uid (BIAS (inputs o)) u);;
  (u ← create_new_uid; set_uid (PREV_RUNNING_MEAN (inputs o)) u);;
  (u ← create_new_uid; set_uid (PREV_RUNNING_VAR (inputs o)) u);;
  (u ← create_new_uid; set_uid (EPSILON (inputs o)) u);;
  (u ← create_new_uid; set_uid (MOMENTUM (inputs o)) u);;
  (u ← create_new_uid; set_uid (Y (outputs o)) u);;
  (u ← create_new_uid; set_uid (MEAN (outputs o)) u);;
  (u ← create_new_uid; set_uid (INV_VARIANCE (outputs o)) u);;
  (u ← create_new_uid; set_uid (NEXT_RUNNING_MEAN (outputs o)) u);;
  (u ← create_new_uid; set_uid (NEXT_RUNNING_VAR (outputs o)) u);;
  mret (mk_error OK "").

Section Backend.
Variable build_error : Descriptor → option (string * Z).

Definition createTensors : M St error_t :=
  o ← get_options;
  CHECK_CUDNN_FRONTEND_ERROR (create_cudnn_tensor build_error (X (inputs o))) (
  CHECK_CUDNN_FRONTEND_ERROR (create_cudnn_tensor build_error (PREV_RUNNING_MEAN (inputs o))) (
  CHECK_CUDNN_FRONTEND_ERROR (create_cudnn_tensor build_error (PREV_RUNNING_VAR (inputs o))) (
  CHECK_CUDNN_FRONTEND_ERROR (create_cudnn_tensor build_error (EPSILON (inputs o))) (
  CHECK_CUDNN_FRONTEND_ERROR (create_cudnn_tensor build_error (MOMENTUM (inputs o))) (
  CHECK_CUDNN_FRONTEND_ERROR (create_cudnn_tensor build_error (SCALE (inputs o))) (
  CHECK_CUDNN_FRONTEND_ERROR (create_cudnn_tensor build_error (BIAS (inputs o))) (
  CHECK_CUDNN_FRONTEND_ERROR (create_cudnn_tensor build_error (Y (outputs o))) (
  CHECK_CUDNN_FRONTEND_ERROR (create_cudnn_tensor build_error (MEAN (outputs o))) (
  CHECK_CUDNN_FRONTEND_ERROR (create_cudnn_tensor build_error (INV_VARIANCE (outputs o))) (
  CHECK_CUDNN_FRONTEND_ERROR (create_cudnn_tensor build_error (NEXT_RUNNING_MEAN (outputs o))) (
  CHECK_CUDNN_FRONTEND_ERROR (create_cudnn_tensor build_error (NEXT_RUNNING_VAR (outputs o))) (
  mret (mk_error OK ""))))))))))))).

Definition tensors_involved_in_operation (o : Batchnorm_attributes)
  : list shared_ptr :=
  [X (inputs o); PREV_RUNNING_MEAN (inputs o); PREV_RUNNING_VAR (inputs o);
   EPSILON (inputs o); MOMENTUM (inputs o); SCALE (inputs o); BIAS (inputs o);
   Y (outputs o); MEAN (outputs o); INV_VARIANCE (outputs o);
   NEXT_RUNNING_MEAN (outputs o); NEXT_RUNNING_VAR (outputs o)].

(** Which argument of the [n]-th two-argument call of the builder chain is
    evaluated first: the second when [second_first n]. *)
Variable second_first : nat → bool.

Definition createOperations : M St error_t :=
  try_rethrow (
    o ← get_options;
    x ← handle (X (inputs o));
    saved ← handle2 (second_first 0) (MEAN (outputs o)) (INV_VARIANCE (outputs o));
    scale_bias ← handle2 (second_first 1) (SCALE (inputs o)) (BIAS (inputs o));
    prev ← handle2 (second_first 2) (PREV_RUNNING_MEAN (inputs o))
              (PREV_RUNNING_VAR (inputs o));
    next ← handle2 (second_first 3) (NEXT_RUNNING_MEAN (outputs o))
              (NEXT_RUNNING_VAR (outputs o));
    epsilon ← handle (EPSILON (inputs o));
    momentum ← handle (MOMENTUM (inputs o));
    y ← handle (Y (outputs o));
    let batchnorm_operation :=
      OPERATION_NORM_FORWARD (forward_phase o) x saved.1 saved.2
        scale_bias.1 scale_bias.2 prev.1 prev.2 next.1 next.2
        epsilon momentum y in
    build build_error (OperationDescriptor batchnorm_operation);;
    uids_in_operation ← collect_uids (tensors_involved_in_operation o) [];
    operations_push_back batchnorm_operation uids_in_operation);;
  mret (mk_error OK "").
End Backend.

End BatchNormNode.

(** ** Batch normalization backward: [DBNNode] *)

Module DBNNode.

Record Inputs := mk_inputs {
  X : shared_ptr;
  DY : shared_ptr;
  SCALE : shared_ptr;
  MEAN : shared_ptr;
  INV_VARIANCE : shared_ptr;
  EPSILON : shared_ptr
}.

Record Outputs := mk_outputs {
  DX : shared_ptr;
  DSCALE : shared_ptr;
  DBIAS : shared_ptr
}.

Record batchnorm_backward_attributes := mk_attributes {
  inputs : Inputs;
  outputs : Outputs;
  attr_compute_data_type : DataType_t
}.

Abbreviation St := (State batchnorm_backward_attributes).

Definition present (p : shared_ptr) : bool := bool_decide (p ≠ None).

Definition validate_node : M St error_t :=
  o ← get_options;
  if negb (present (MEAN (inputs o))) && negb (present (INV_VARIANCE (inputs o)))
     && negb (present (EPSILON (inputs o))) then
    let status := ATTRIBUTE_NOT_SET in
    let message :=
      "[cudnn_frontend] ERROR: Either saved mean/inv_variance or epsilon required." in
    mret (mk_error status message)
  else mret (mk_error OK "").

(** Modelled from the spec: the attributes' [fill_from_context] is not among
    the node sources; the roles that are set and the compute type inherit the
    context's defaults. *)
Definition fill_from_context (context : Context) : M St () :=
  o ← get_options;
  fill_all context
    [X (inputs o);
     DY (inputs o);
     SCALE (inputs o);
     MEAN (inputs o);
     INV_VARIANCE (inputs o);
     EPSILON (inputs o);
     DX (outputs o);
     DSCALE (outputs o);
     DBIAS (outputs o)];;
  if decide (attr_compute_data_type o = DT_NOT_SET) then
    set_options (mk_attributes (inputs o) (outputs o) (compute_data_type context))
  else mret ().

Section Infer.
Variable generate_stride : list Z → list Z.

Definition infer_properties_node (context : Context) : M St error_t :=
  fill_from_context context;;
  o ← get_options;
  x_tensor_dim ← get_dim (X (inputs o));
  infer_like_x generate_stride x_tensor_dim (DY (inputs o));;
  infer_like_x generate_stride x_tensor_dim (DX (outputs o));;
  infer_per_channel_tensors generate_stride x_tensor_dim (MEAN (inputs o));;
  infer_per_channel_tensors generate_stride x_tensor_dim (INV_VARIANCE (inputs o));;
  infer_per_channel_tensors generate_stride x_tensor_dim (SCALE (inputs o));;
  infer_per_channel_tensors generate_stride x_tensor_dim (DSCALE (outputs o));;
  infer_per_channel_tensors generate_stride x_tensor_dim (DBIAS (outputs o));;
  mret (mk_error OK "").
End Infer.

(** The roles in the order [assign_uids_node] names them. *)
Definition uid_roles (o : batchnorm_backward_attributes) : list shared_ptr :=
  [X (inputs o); DY (inputs o); SCALE (inputs o); MEAN (inputs o);
   INV_VARIANCE (inputs o); DX (outputs o); DSCALE (outputs o);
   DBIAS (outputs o)].

Definition assign_uids_node : M St error_t :=
  o ← get_options;
  (u ← create_new_uid; set_uid (X (inputs o)) u);;
  (u ← create_new_uid; set_uid (DY (inputs o)) u);;
  (u ← create_new_uid; set_uid (SCALE (inputs o)) u);;
  (u ← create_new_uid; set_uid (MEAN (inputs o)) u);;
  (u ← create_new_uid; set_uid (INV_VARIANCE (inputs o)) u);;
  (u ← create_new_uid; set_uid (DX (outputs o)) u);;
  (u ← create_new_uid; set_uid (DSCALE (outputs o)) u);;
  (u ← create_new_uid; set_uid (DBIAS (outputs o)) u);;
  mret (mk_error OK "").

Section Backend.
Variable build_error : Descriptor → option (string * Z).

Definition createTensors : M St error_t :=
  o ← get_options;
  CHECK_CUDNN_FRONTEND_ERROR (create_cudnn_tensor build_error (X (inputs o))) (
  CHECK_CUDNN_FRONTEND_ERROR (create_cudnn_tensor build_error (DY (inputs o))) (
  CHECK_CUDNN_FRONTEND_ERROR (create_cudnn_tensor build_error (SCALE (inputs o))) (
  CHECK_CUDNN_FRONTEND_ERROR (create_cudnn_tensor build_error (MEAN (inputs o))) (
  CHECK_CUDNN_FRONTEND_ERROR (create_cudnn_tensor build_error (INV_VARIANCE (inputs o))) (
  CHECK_CUDNN_FRONTEND_ERROR (create_cudnn_tensor build_error (DX (outputs o))) (
  CHECK_CUDNN_FRONTEND_ERROR (create_cudnn_tensor build_error (DSCALE (outputs o))) (
  CHECK_CUDNN_FRONTEND_ERROR (create_cudnn_tensor build_error (DBIAS (outputs o))) (
  mret (mk_error OK ""))))))))).

Definition tensors_involved_in_operation (o : batchnorm_backward_attributes)
  : list shared_ptr :=
  [X (inputs o); DY (inputs o); SCALE (inputs o); MEAN (inputs o);
   INV_VARIANCE (inputs o); DX (outputs o); DSCALE (outputs o);
   DBIAS (outputs o)].

(** Which argument of the [n]-th two-argument call of the builder chain is
    evaluated first: the second when [second_first n]. *)
Variable second_first : nat → bool.

Definition createOperations : M St error_t :=
  try_rethrow (
    o ← get_options;
    x ← handle (X (inputs o));
    dy ← handle (DY (inputs o));
    scale ← handle (SCALE (inputs o));
    saved ← handle2 (second_first 0) (MEAN (inputs o)) (INV_VARIANCE (inputs o));
    grads ← handle2 (second_first 1) (DSCALE (outputs o)) (DBIAS (outputs o));
    dx ← handle (DX (outputs o));
    let DBN_operation :=
      OPERATION_NORM_BACKWARD x dy scale saved.1 saved.2 grads.1 grads.2 dx in
    build build_error (OperationDescriptor DBN_operation);;
    uids_in_operation ← collect_uids (tensors_involved_in_operation o) [];
    operations_push_back DBN_operation uids_in_operation);;
  mret (mk_error OK "").
End Backend.

End DBNNode.

(** ** Random number generation: [RngNode] *)

Module RngNode.

Record Inputs := mk_inputs { Seed : shared_ptr; Offset : shared_ptr }.
Record Outputs := mk_outputs { Y : shared_ptr }.

(** [Rng_attributes]: the roles, [get_distribution], and the optionals
    behind [get_bernoulli_probability] and [get_seed]. *)
Record Rng_attributes := mk_attributes {
  inputs : Inputs;
  outputs : Outputs;
  distribution : RngDistribution_t;
  bernoulli_probability : option double;
  seed : option Z
}.

Abbreviation St := (State Rng_attributes).

(** [std::optional::value] *)
Definition value {T} (o : option T) : M St T :=
  match o with
  | Some v => mret v
  | None => throw bad_optional_access
  end.

Definition validate_node : M St error_t :=
  o ← get_options;
  if bool_decide (Y (outputs o) = None) then
    let status := ATTRIBUTE_NOT_SET in
    let message := "[cudnn_frontend] ERROR: rng output not set." in
    mret (mk_error status message)
  else mret (mk_error OK "").

Definition assign_uids_node : M St error_t :=
  o ← get_options;
  (if bool_decide (Seed (inputs o) ≠ None)
   then u ← create_new_uid; set_uid (Seed (inputs o)) u else mret ());;
  (if bool_decide (Offset (inputs o) ≠ None)
   then u ← create_new_uid; set_uid (Offset (inputs o)) u else mret ());;
  (u ← create_new_uid; set_uid (Y (outputs o)) u);;
  mret (mk_error OK "").

Section Backend.
Variable build_error : Descriptor → option (string * Z).

Definition createTensors : M St error_t :=
  o ← get_options;
  (if bool_decide (Seed (inputs o) ≠ None) then
     CHECK_CUDNN_FRONTEND_ERROR (create_cudnn_tensor build_error (Seed (inputs o)))
   else id) (
  (if bool_decide (Offset (inputs o) ≠ None) then
     CHECK_CUDNN_FRONTEND_ERROR (create_cudnn_tensor build_error (Offset (inputs o)))
   else id) (
  CHECK_CUDNN_FRONTEND_ERROR (create_cudnn_tensor build_error (Y (outputs o))) (
  mret (mk_error OK "")))).

Definition tensors_involved_in_operation (o : Rng_attributes) : list shared_ptr :=
  [Seed (inputs o); Offset (inputs o); Y (outputs o)].

Definition createOperations : M St error_t :=
  try_rethrow (
    o ← get_options;
    if decide (distribution o = BERNOULLI) then
      probability ← value (bernoulli_probability o);
      let rng_descriptor := mk_RngDesc (distribution o) probability in
      build build_error (RngDescriptor rng_descriptor);;
      if bool_decide (Seed (inputs o) ≠ None) then
        y ← handle (Y (outputs o));
        seed_desc ← handle (Seed (inputs o));
        offset_desc ← handle (Offset (inputs o));
        let Rng_operation :=
          OPERATION_RNG y rng_descriptor (SeedTensors seed_desc offset_desc) in
        build build_error (OperationDescriptor Rng_operation);;
        uids_in_operation ← collect_uids (tensors_involved_in_operation o) [];
        operations_push_back Rng_operation uids_in_operation
      else
        y ← handle (Y (outputs o));
        seed_value ← value (seed o);
        let Rng_operation := OPERATION_RNG y rng_descriptor (SeedValue seed_value) in
        build build_error (OperationDescriptor Rng_operation);;
        uids_in_operation ← collect_uids (tensors_involved_in_operation o) [];
        operations_push_back Rng_operation uids_in_operation
    else mret ());;
  mret (mk_error OK "").
End Backend.

End RngNode.

(** ** A graph of nodes

    The descriptors and the uid counter are shared by all nodes of a graph;
    [tensors] and [operations] belong to each node. *)

Inductive Node :=
  | BATCHNORM (o : BatchNormNode.Batchnorm_attributes)
  | DBN (o : DBNNode.batchnorm_backward_attributes)
  | DGRAD (o : DgradNode.Conv_dgrad_attributes)
  | RNG (o : RngNode.Rng_attributes).

Record World := mk_world { w_heap : Heap; w_uid_counter : uid_t }.

(** A member function of the node with attributes [o], run against the
    shared descriptors and counter. *)
Definition in_world {A} (o : A) (m : M (State A) error_t) : M World error_t :=
  fun w =>
    match m (mk_state o (w_heap w) (w_uid_counter w) ∅ []) with
    | Ok (e, s) => Ok (e, mk_world (heap s) (uid_counter s))
    | Undefined u => Undefined u
    | Throw e => Throw e
    end.

Definition Node_assign_uids (n : Node) : M World error_t :=
  match n with
  | BATCHNORM o => in_world o BatchNormNode.assign_uids_node
  | DBN o => in_world o DBNNode.assign_uids_node
  | DGRAD o => in_world o DgradNode.assign_uids_node
  | RNG o => in_world o RngNode.assign_uids_node
  end.

(** Modelled from the spec: the graph builder that drives the nodes is not
    among the node sources; it takes the nodes one after the other and stops
    at the first bad status. *)
Fixpoint assign_uids (nodes : list Node) : M World error_t :=
  match nodes with
  | [] => mret (mk_error OK "")
  | n :: rest => CHECK_CUDNN_FRONTEND_ERROR (Node_assign_uids n) (assign_uids rest)
  end.

(** The roles a node hands to [set_uid], in the order of its
    [assign_uids_node]. *)
Definition Node_uid_roles (n : Node) : list shared_ptr :=
  match n with
  | BATCHNORM o => BatchNormNode.uid_roles o
  | DBN o => DBNNode.uid_roles o
  | DGRAD o =>
      [DgradNode.DY (DgradNode.inputs o); DgradNode.W (DgradNode.inputs o);
       DgradNode.DX (DgradNode.outputs o)]
  | RNG o =>
      [RngNode.Seed (RngNode.inputs o); RngNode.Offset (RngNode.inputs o);
       RngNode.Y (RngNode.outputs o)]
  end.

(** The descriptors the nodes of a graph refer to. *)
Definition graph_tensors (nodes : list Node) : list ptr :=
  omap id (concat (map Node_uid_roles nodes)).

(** ** What the specification says, in its own words *)

(** Per-channel shape: the rank of [X], every dimension 1 except dimension 1,
    which is that of [X]. *)
Definition per_channel_dim (x_tensor_dim : list Z) : list Z :=
  <[1 := default 1%Z (x_tensor_dim !! 1)]> (replicate (length x_tensor_dim) 1%Z).

(** Transposed-convolution size of one spatial axis. *)
Definition dgrad_size (dy st pd dl w : Z) : Z :=
  ((dy - 1) * st - 2 * pd + 1 + dl * (w - 1))%Z.

(** The identifiers of the present, non-virtual tensors among [involved]. *)
Definition real_uids (h : Heap) (involved : list shared_ptr) : list uid_t :=
  map (fun p => uid (h p))
    (filter (fun p => is_virtual (h p) = false) (omap id involved)).

(** ** Sample inputs *)

(** A packed stride, last dimension fastest. *)
Fixpoint packed_stride (d : list Z) : list Z :=
  match d with
  | [] => []
  | _ :: rest => foldr Z.mul 1%Z rest :: packed_stride rest
  end.

Definition sample_context : Context := mk_context FLOAT FLOAT FLOAT.

Definition unset_tensor : Tensor_attributes :=
  mk_tensor [] [] DT_NOT_SET false 0%Z false.

Definition accept_all : Descriptor → option (string * Z) := fun _ => None.

(** A compiler that evaluates arguments from left to right, and one that
    evaluates them from right to left. *)
Definition left_to_right : nat → bool := fun _ => false.
Definition right_to_left : nat → bool := fun _ => true.

(** ** Relations between states, used to state what a member function does *)

(** [s'] is [s] with the descriptor behind [q] replaced by [t]. *)
Definition stores {A} (s s' : State A) (q : ptr) (t : Tensor_attributes) : Prop :=
  options s' = options s ∧ uid_counter s' = uid_counter s ∧
  tensors s' = tensors s ∧ operations s' = operations s ∧
  heap s' q = t ∧ ∀ r, r ≠ q → heap s' r = heap s r.

(** [t'] is [t] up to its data type. *)
Definition retyped_tensor (t t' : Tensor_attributes) : Prop :=
  dim t' = dim t ∧ stride t' = stride t ∧ is_virtual t' = is_virtual t ∧
  uid t' = uid t.

(** [s'] is [s] up to the options and the data types of the descriptors. *)
Definition retyped {A} (s s' : State A) : Prop :=
  uid_counter s' = uid_counter s ∧ tensors s' = tensors s ∧
  operations s' = operations s ∧ ∀ q, retyped_tensor (heap s q) (heap s' q).

(** Shapes and strides that were set in [s] are the same in [s']. *)
Definition keeps {A} (s s' : State A) : Prop :=
  ∀ q, (dim (heap s q) ≠ [] → dim (heap s' q) = dim (heap s q)) ∧
       (stride (heap s q) ≠ [] → stride (heap s' q) = stride (heap s q)).

Definition sample_tensor (d : list Z) : Tensor_attributes :=
  mk_tensor d [] DT_NOT_SET false 0%Z false.

(** A dgrad node: [W] is 8x4x3x3 behind pointer 1, [DY] is 2x8x5x5 behind
    pointer 2, [DX] behind pointer 3 has no shape yet. *)
Definition dgrad_sample : DgradNode.St :=
  mk_state
    (DgradNode.mk_attributes
       (DgradNode.mk_inputs (Some 1%positive) (Some 2%positive))
       (DgradNode.mk_outputs (Some 3%positive))
       [0; 0]%Z [1; 1]%Z [1; 1]%Z DT_NOT_SET)
    (<[1%positive := sample_tensor [8; 4; 3; 3]%Z]>
       (<[2%positive := sample_tensor [2; 8; 5; 5]%Z]> (fun _ => unset_tensor)))
    0%Z ∅ [].

(** A descriptor after its empty shape, or empty stride, has been filled. *)
Definition fill_dim (d : list Z) (t : Tensor_attributes) : Tensor_attributes :=
  if is_empty (dim t) then with_dim d t else t.

Definition fill_stride (generate_stride : list Z → list Z) (t : Tensor_attributes)
  : Tensor_attributes :=
  if is_empty (stride t) then with_stride (generate_stride (dim t)) t else t.

(** [s'] is reached from [s] by [infer_per_channel_tensors] on each of
    [roles] in turn. *)
Fixpoint per_channel_run {A} (generate_stride : list Z → list Z)
    (x_tensor_dim : list Z) (roles : list shared_ptr) (s s' : State A) : Prop :=
  match roles with
  | [] => s' = s
  | T :: rest =>
      ∃ s1, infer_per_channel_tensors generate_stride x_tensor_dim T s = Ok ((), s1) ∧
            per_channel_run generate_stride x_tensor_dim rest s1 s'
  end.

(** The roles each normalization node gives to [infer_per_channel_tensors]. *)
Definition batchnorm_per_channel_roles (o : BatchNormNode.Batchnorm_attributes)
  : list shared_ptr :=
  [BatchNormNode.MEAN (BatchNormNode.outputs o);
   BatchNormNode.INV_VARIANCE (BatchNormNode.outputs o);
   BatchNormNode.NEXT_RUNNING_MEAN (BatchNormNode.outputs o);
   BatchNormNode.NEXT_RUNNING_VAR (BatchNormNode.outputs o);
   BatchNormNode.PREV_RUNNING_MEAN (BatchNormNode.inputs o);
   BatchNormNode.PREV_RUNNING_VAR (BatchNormNode.inputs o);
   BatchNormNode.SCALE (BatchNormNode.inputs o);
   BatchNormNode.BIAS (BatchNormNode.inputs o)].

Definition dbn_per_channel_roles (o : DBNNode.batchnorm_backward_attributes)
  : list shared_ptr :=
  [DBNNode.MEAN (DBNNode.inputs o);
   DBNNode.INV_VARIANCE (DBNNode.inputs o);
   DBNNode.SCALE (DBNNode.inputs o);
   DBNNode.DSCALE (DBNNode.outputs o);
   DBNNode.DBIAS (DBNNode.outputs o)].

(** The store holding the listed descriptors, and unset ones elsewhere. *)
Definition heap_of (l : list (ptr * Tensor_attributes)) : Heap :=
  foldr (fun pt h => <[pt.1 := pt.2]> h) (fun _ => unset_tensor) l.

(** A batchnorm node over twelve descriptors, behind pointers 1 to 12 in the
    order of the attributes; [X] is 2x3x4x4 and [SCALE] comes with its shape
    and stride. *)
Definition batchnorm_options : BatchNormNode.Batchnorm_attributes :=
  BatchNormNode.mk_attributes
    (BatchNormNode.mk_inputs (Some 1) (Some 2) (Some 3) (Some 4) (Some 5)
       (Some 6) (Some 7))%positive
    (BatchNormNode.mk_outputs (Some 8) (Some 9) (Some 10) (Some 11) (Some 12))%positive
    TRAINING DT_NOT_SET.

Definition batchnorm_sample : BatchNormNode.St :=
  mk_state batchnorm_options
    (heap_of [(1%positive, sample_tensor [2; 3; 4; 4]%Z);
              (2%positive, mk_tensor [1; 3; 1; 1]%Z [3; 1; 3; 3]%Z FLOAT false 0%Z false)])
    0%Z ∅ [].

(** The same node with one descriptor, behind pointer 8, given as both [Y]
    and [MEAN]. *)
Definition batchnorm_aliased : BatchNormNode.St :=
  mk_state
    (BatchNormNode.mk_attributes
       (BatchNormNode.mk_inputs (Some 1) (Some 2) (Some 3) (Some 4) (Some 5)
          (Some 6) (Some 7))%positive
       (BatchNormNode.mk_outputs (Some 8) (Some 8) (Some 10) (Some 11) (Some 12))%positive
       TRAINING DT_NOT_SET)
    (heap_of [(1%positive, sample_tensor [2; 3; 4; 4]%Z)])
    0%Z ∅ [].

(** A DBN node over eight descriptors behind pointers 1 to 5 and 7 to 9, in
    the order of the attributes, without [EPSILON]; [X] is 2x3x4x4. *)
Definition dbn_options : DBNNode.batchnorm_backward_attributes :=
  DBNNode.mk_attributes
    (DBNNode.mk_inputs (Some 1) (Some 2) (Some 3) (Some 4) (Some 5) None)%positive
    (DBNNode.mk_outputs (Some 7) (Some 8) (Some 9))%positive
    DT_NOT_SET.

Definition dbn_sample : DBNNode.St :=
  mk_state dbn_options (heap_of [(1%positive, sample_tensor [2; 3; 4; 4]%Z)])
    0%Z ∅ [].

(** The state a run ends in, [otherwise] when it does not return. *)
Definition state_after {A B} (r : result (B * State A)) (otherwise : State A)
  : State A :=
  match r with
  | Ok (_, s) => s
  | _ => otherwise
  end.

Definition batchnorm_sample_inferred : BatchNormNode.St :=
  state_after
    (BatchNormNode.infer_properties_node packed_stride sample_context batchnorm_sample)
    batchnorm_sample.

Definition batchnorm_aliased_inferred : BatchNormNode.St :=
  state_after
    (BatchNormNode.infer_properties_node packed_stride sample_context batchnorm_aliased)
    batchnorm_aliased.

(** ** Identifier assignment, as a function of the world *)

(** One [T->set_uid(ICudnn::create_new_uid())] on the descriptor behind [q]. *)
Definition assign_one (w : World) (q : ptr) : World :=
  let u := (w_uid_counter w + 1)%Z in
  mk_world (<[q := assigned_once u (w_heap w q)]> (w_heap w)) u.

Definition assign_list (l : list ptr) (w : World) : World := foldl assign_one w l.

(** The roles [assign_uids_node] dereferences without a test. *)
Definition Node_mandatory_roles (n : Node) : list shared_ptr :=
  match n with
  | RNG o => [RngNode.Y (RngNode.outputs o)]
  | _ => Node_uid_roles n
  end.

Definition all_present (roles : list shared_ptr) : bool :=
  forallb (fun r => match r with Some _ => true | None => false end) roles.




Definition world0 : World := mk_world (fun _ => unset_tensor) 0%Z.



(** A DBN node that comes with EPSILON, behind pointer 6, and without MEAN
    and INV_VARIANCE. *)
Definition dbn_epsilon_only : DBNNode.St :=
  mk_state
    (DBNNode.mk_attributes
       (DBNNode.mk_inputs (Some 1) (Some 2) (Some 3) None None (Some 6))%positive
       (DBNNode.mk_outputs (Some 7) (Some 8) (Some 9))%positive
       DT_NOT_SET)
    (heap_of [(1%positive, sample_tensor [2; 3; 4; 4]%Z)])
    0%Z ∅ [].

(** Rng nodes after [assign_uids_node] and [createTensors]: [Seed], [Offset]
    and [Y] behind pointers 1, 2 and 3 carry the identifiers 1, 2 and 3;
    the probability is 0.5. *)
Definition rng_tensor (u : uid_t) : Tensor_attributes :=
  mk_tensor [1; 1; 4; 4]%Z [16; 16; 4; 1]%Z FLOAT false u true.

Definition rng_heap : Heap :=
  heap_of [(1%positive, rng_tensor 1%Z); (2%positive, rng_tensor 2%Z);
           (3%positive, rng_tensor 3%Z)].

Definition rng_tensors : gmap Z Tensor :=
  <[1%Z := BackendTensor (rng_tensor 1%Z)]>
    (<[2%Z := BackendTensor (rng_tensor 2%Z)]>
       (<[3%Z := BackendTensor (rng_tensor 3%Z)]> ∅)).

Definition one_half : double := 0x3FE0000000000000%Z.

Definition rng_state (sd off : shared_ptr) (dist : RngDistribution_t)
    (sv : option Z) : RngNode.St :=
  mk_state
    (RngNode.mk_attributes (RngNode.mk_inputs sd off)
       (RngNode.mk_outputs (Some 3%positive)) dist (Some one_half) sv)
    rng_heap 3%Z rng_tensors [].

Definition rng_dynamic : RngNode.St :=
  rng_state (Some 1%positive) (Some 2%positive) BERNOULLI None.

Definition rng_static : RngNode.St := rng_state None None BERNOULLI (Some 42%Z).

Definition rng_seed_without_offset : RngNode.St :=
  rng_state (Some 1%positive) None BERNOULLI None.

Definition rng_uniform : RngNode.St :=
  rng_state (Some 1%positive) (Some 2%positive) UNIFORM None.

(** The batchnorm sample with a virtual [MEAN], taken through inference,
    identifier assignment and tensor creation. *)
Definition batchnorm_virtual_mean : BatchNormNode.St :=
  mk_state batchnorm_options
    (heap_of [(1%positive, sample_tensor [2; 3; 4; 4]%Z);
              (9%positive, mk_tensor [] [] DT_NOT_SET true 0%Z false)])
    0%Z ∅ [].

Definition batchnorm_built : BatchNormNode.St :=
  let s1 := state_after
              (BatchNormNode.infer_properties_node packed_stride sample_context
                 batchnorm_virtual_mean) batchnorm_virtual_mean in
  let s2 := state_after (BatchNormNode.assign_uids_node s1) s1 in
  state_after (BatchNormNode.createTensors accept_all s2) s2.

Definition batchnorm_lowered : BatchNormNode.St :=
  state_after (BatchNormNode.createOperations accept_all left_to_right batchnorm_built)
    batchnorm_built.

(** ** The inference blocks of the normalization nodes, taken together *)

(** The block for [Y], [DY] and [DX], and the two lambdas. *)
Inductive infer_kind := LikeX | PerChannel | Scalar.

Definition infer_block {A} (generate_stride : list Z → list Z)
    (x_tensor_dim : list Z) (k : infer_kind) (T : shared_ptr) : M (State A) () :=
  match k with
  | LikeX => infer_like_x generate_stride x_tensor_dim T
  | PerChannel => infer_per_channel_tensors generate_stride x_tensor_dim T
  | Scalar => infer_scalar_tensors generate_stride x_tensor_dim T
  end.

(** The shape a block gives to a descriptor without one. *)
Definition block_dim (k : infer_kind) (x_tensor_dim : list Z) : list Z :=
  match k with
  | LikeX => x_tensor_dim
  | PerChannel => per_channel_dim x_tensor_dim
  | Scalar => replicate (length x_tensor_dim) 1%Z
  end.

(** [s'] is reached from [s] by the blocks of [l] in turn. *)
Fixpoint blocks_run {A} (generate_stride : list Z → list Z)
    (x_tensor_dim : list Z) (l : list (infer_kind * shared_ptr))
    (s s' : State A) : Prop :=
  match l with
  | [] => s' = s
  | kT :: rest =>
      ∃ s1, infer_block generate_stride x_tensor_dim kT.1 kT.2 s = Ok ((), s1) ∧
            blocks_run generate_stride x_tensor_dim rest s1 s'
  end.

(** The blocks of [infer_properties_node], in the order of the source. *)
Definition batchnorm_blocks (o : BatchNormNode.Batchnorm_attributes)
  : list (infer_kind * shared_ptr) :=
  [(LikeX, BatchNormNode.Y (BatchNormNode.outputs o));
   (PerChannel, BatchNormNode.MEAN (BatchNormNode.outputs o));
   (PerChannel, BatchNormNode.INV_VARIANCE (BatchNormNode.outputs o));
   (PerChannel, BatchNormNode.NEXT_RUNNING_MEAN (BatchNormNode.outputs o));
   (PerChannel, BatchNormNode.NEXT_RUNNING_VAR (BatchNormNode.outputs o));
   (PerChannel, BatchNormNode.PREV_RUNNING_MEAN (BatchNormNode.inputs o));
   (PerChannel, BatchNormNode.PREV_RUNNING_VAR (BatchNormNode.inputs o));
   (PerChannel, BatchNormNode.SCALE (BatchNormNode.inputs o));
   (PerChannel, BatchNormNode.BIAS (BatchNormNode.inputs o));
   (Scalar, BatchNormNode.EPSILON (BatchNormNode.inputs o));
   (Scalar, BatchNormNode.MOMENTUM (BatchNormNode.inputs o))].

Definition dbn_blocks (o : DBNNode.batchnorm_backward_attributes)
  : list (infer_kind * shared_ptr) :=
  [(LikeX, DBNNode.DY (DBNNode.inputs o));
   (LikeX, DBNNode.DX (DBNNode.outputs o));
   (PerChannel, DBNNode.MEAN (DBNNode.inputs o));
   (PerChannel, DBNNode.INV_VARIANCE (DBNNode.inputs o));
   (PerChannel, DBNNode.SCALE (DBNNode.inputs o));
   (PerChannel, DBNNode.DSCALE (DBNNode.outputs o));
   (PerChannel, DBNNode.DBIAS (DBNNode.outputs o))].

(** A descriptor that a further inference block would leave as it is: an
    empty shape only under an empty [x_tensor_dim], an empty stride only when
    the generated one is empty. *)
Definition settled (generate_stride : list Z → list Z) (x_tensor_dim : list Z)
    (t : Tensor_attributes) : Prop :=
  (dim t = [] → x_tensor_dim = []) ∧
  (stride t = [] → generate_stride (dim t) = []).

(** Two states agree on every shape and stride. *)
Definition same_shapes {A} (s s' : State A) : Prop :=
  ∀ q, dim (heap s' q) = dim (heap s q) ∧ stride (heap s' q) = stride (heap s q).

(** Everything but shapes, strides and data types is as before. *)
Definition same_but_shapes {A} (s s' : State A) : Prop :=
  uid_counter s' = uid_counter s ∧ tensors s' = tensors s ∧
  operations s' = operations s ∧
  ∀ q, uid (heap s' q) = uid (heap s q) ∧
       is_virtual (heap s' q) = is_virtual (heap s q).

(** The kind of the first block of [l] whose role is the descriptor [q]. *)
Fixpoint first_block (l : list (infer_kind * shared_ptr)) (q : ptr)
  : option infer_kind :=
  match l with
  | [] => None
  | kT :: rest => if decide (kT.2 = Some q) then Some kT.1 else first_block rest q
  end.

(** The batchnorm sample after a second [infer_properties_node]. *)
Definition batchnorm_sample_inferred_twice : BatchNormNode.St :=
  state_after
    (BatchNormNode.infer_properties_node packed_stride sample_context
       batchnorm_sample_inferred)
    batchnorm_sample_inferred.

(** The dgrad sample after one and after two [infer_properties_node]. *)
Definition dgrad_sample_inferred : DgradNode.St :=
  state_after
    (DgradNode.infer_properties_node packed_stride sample_context dgrad_sample)
    dgrad_sample.

Definition dgrad_sample_inferred_twice : DgradNode.St :=
  state_after
    (DgradNode.infer_properties_node packed_stride sample_context
       dgrad_sample_inferred)
    dgrad_sample_inferred.

(** The DBN sample after [infer_properties_node]. *)
Definition dbn_sample_inferred : DBNNode.St :=
  state_after
    (DBNNode.infer_properties_node packed_stride sample_context dbn_sample)
    dbn_sample.

(** The batchnorm sample with an [X] of rank 1. *)
Definition batchnorm_flat : BatchNormNode.St :=
  mk_state batchnorm_options (heap_of [(1%positive, sample_tensor [5]%Z)]) 0%Z ∅ [].

(** A dgrad node whose [W] has rank 1, and one whose [DX] comes with a shape
    while [W] and [DY] have none. *)
Definition dgrad_flat : DgradNode.St :=
  mk_state (options dgrad_sample)
    (<[1%positive := sample_tensor [8]%Z]>
       (<[2%positive := sample_tensor [2; 8; 5; 5]%Z]> (fun _ => unset_tensor)))
    0%Z ∅ [].

Definition dgrad_supplied : DgradNode.St :=
  mk_state (options dgrad_sample)
    (<[3%positive := sample_tensor [2; 4; 7; 7]%Z]> (fun _ => unset_tensor))
    0%Z ∅ [].

(** A backend that accepts tensors and rejects every operation. *)
Definition reject_operations : Descriptor → option (string * Z) := fun d =>
  match d with
  | OperationDescriptor _ => Some ("CUDNN_STATUS_BAD_PARAM", 3%Z)
  | _ => None
  end.

(** The built batchnorm sample with the backend tensor of identifier 10,
    that of [INV_VARIANCE], removed. *)
Definition batchnorm_unregistered : BatchNormNode.St :=
  mk_state (options batchnorm_built) (heap batchnorm_built)
    (uid_counter batchnorm_built) (delete 10%Z (tensors batchnorm_built)) [].

(** A role that is set and whose identifier has a backend tensor. *)
Definition registered {A} (s : State A) (T : shared_ptr) : Prop :=
  ∃ q, T = Some q ∧ is_Some (tensors s !! uid (heap s q)).



(** An Rng node with a seed value and an [Offset] tensor, and one without a
    Bernoulli probability. *)
Definition rng_static_with_offset : RngNode.St :=
  rng_state None (Some 2%positive) BERNOULLI (Some 42%Z).

Definition rng_without_probability : RngNode.St :=
  mk_state
    (RngNode.mk_attributes (RngNode.mk_inputs None None)
       (RngNode.mk_outputs (Some 3%positive)) BERNOULLI None (Some 42%Z))
    rng_heap 3%Z rng_tensors [].

(** The dgrad sample after inference, identifier assignment and tensor
    creation, and after lowering. *)
Definition dgrad_assigned : DgradNode.St :=
  state_after (DgradNode.assign_uids_node dgrad_sample_inferred)
    dgrad_sample_inferred.

Definition dgrad_built : DgradNode.St :=
  state_after (DgradNode.createTensors accept_all dgrad_assigned) dgrad_assigned.


(** The built dgrad sample with one stride for two paddings. *)
Definition dgrad_short_stride : DgradNode.St :=
  mk_state
    (DgradNode.mk_attributes (DgradNode.inputs (options dgrad_built))
       (DgradNode.outputs (options dgrad_built)) [0; 0]%Z [1]%Z [1; 1]%Z FLOAT)
    (heap dgrad_built) (uid_counter dgrad_built) (tensors dgrad_built) [].

(** The backend tensor registered under the identifier of the role [T]. *)
Definition backend_tensor {A} (s : State A) (T : shared_ptr) : option Tensor :=
  match T with
  | Some q => tensors s !! uid (heap s q)
  | None => None
  end.




(** * Properties *)

(** ** Reasoning about member functions *)

#[local] Set Warnings "-clear-no-such-hyp".

Lemma bind_Ok {S A B} (m : M S A) (k : A → M S B) s b s' :
  (m ≫= k) s = Ok (b, s') ↔ ∃ a s1, m s = Ok (a, s1) ∧ k a s1 = Ok (b, s').
Proof.
  unfold mbind, M_bind. split.
  - destruct (m s) as [[a s1]| |]; [eauto|done..].
  - intros (a & s1 & -> & ?). done.
Qed.

Lemma ret_Ok {S A} (a b : A) (s s' : S) :
  (mret a : M S A) s = Ok (b, s') ↔ b = a ∧ s' = s.
Proof. unfold mret, M_ret. naive_solver. Qed.

Lemma vec_at_Ok {S} (v : list Z) i x (s s' : S) :
  vec_at v i s = Ok (x, s') ↔ v !! i = Some x ∧ s' = s.
Proof.
  unfold vec_at. destruct (v !! i); [rewrite ret_Ok|unfold undefined]; naive_solver.
Qed.

Lemma vec_assign_Ok {S} (v v' : list Z) i x (s s' : S) :
  vec_assign v i x s = Ok (v', s') ↔ i < length v ∧ v' = <[i:=x]> v ∧ s' = s.
Proof.
  unfold vec_assign. case_decide; [rewrite ret_Ok|unfold undefined]; naive_solver.
Qed.

Lemma vec_data_Ok {S} (v v' : list Z) n (s s' : S) :
  vec_data v n s = Ok (v', s') ↔ n <= length v ∧ v' = take n v ∧ s' = s.
Proof.
  unfold vec_data. case_decide; [rewrite ret_Ok|unfold undefined]; naive_solver.
Qed.

Lemma i64_Ok {S} (z x : Z) (s s' : S) :
  i64 z s = Ok (x, s') ↔ in_int64 z = true ∧ x = z ∧ s' = s.
Proof.
  unfold i64. destruct (in_int64 z); [rewrite ret_Ok|unfold undefined]; naive_solver.
Qed.

Lemma resize_nil n x : resize [] n x = replicate n x.
Proof. unfold resize. rewrite take_nil. simpl. f_equal. lia. Qed.

Lemma is_empty_true (v : list Z) : is_empty v = true ↔ v = [].
Proof. unfold is_empty. apply bool_decide_eq_true. Qed.

Lemma is_empty_false (v : list Z) : is_empty v = false ↔ v ≠ [].
Proof. unfold is_empty. apply bool_decide_eq_false. Qed.

Section PrimitiveFacts.
Context {A : Type}.
Implicit Types (s : State A) (p : shared_ptr) (q : ptr).

Lemma get_options_Ok s o s' :
  get_options s = Ok (o, s') ↔ o = options s ∧ s' = s.
Proof. unfold get_options. naive_solver. Qed.

Lemma deref_Ok p s t s' :
  deref p s = Ok (t, s') ↔ ∃ q, p = Some q ∧ t = heap s q ∧ s' = s.
Proof. unfold deref. destruct p; naive_solver. Qed.

Lemma get_dim_Ok p s d s' :
  get_dim p s = Ok (d, s') ↔ ∃ q, p = Some q ∧ d = dim (heap s q) ∧ s' = s.
Proof.
  unfold get_dim. rewrite bind_Ok. setoid_rewrite deref_Ok.
  setoid_rewrite ret_Ok. naive_solver.
Qed.

Lemma get_stride_Ok p s d s' :
  get_stride p s = Ok (d, s') ↔ ∃ q, p = Some q ∧ d = stride (heap s q) ∧ s' = s.
Proof.
  unfold get_stride. rewrite bind_Ok. setoid_rewrite deref_Ok.
  setoid_rewrite ret_Ok. naive_solver.
Qed.

Lemma get_uid_Ok p s u s' :
  get_uid p s = Ok (u, s') ↔ ∃ q, p = Some q ∧ u = uid (heap s q) ∧ s' = s.
Proof.
  unfold get_uid. rewrite bind_Ok. setoid_rewrite deref_Ok.
  setoid_rewrite ret_Ok. naive_solver.
Qed.

Lemma get_is_virtual_Ok p s v s' :
  get_is_virtual p s = Ok (v, s') ↔
  ∃ q, p = Some q ∧ v = is_virtual (heap s q) ∧ s' = s.
Proof.
  unfold get_is_virtual. rewrite bind_Ok. setoid_rewrite deref_Ok.
  setoid_rewrite ret_Ok. naive_solver.
Qed.

Lemma update_Ok p f s u s' :
  update p f s = Ok (u, s') → ∃ q, p = Some q ∧ stores s s' q (f (heap s q)).
Proof.
  unfold update. destruct p as [q|]; [|done]. intros [= _ <-]. exists q.
  split; [done|]. repeat split; simpl.
  - apply fn_lookup_insert.
  - intros r ?. by apply fn_lookup_insert_ne.
Qed.

Lemma set_dim_Ok p d s u s' :
  set_dim p d s = Ok (u, s') → ∃ q, p = Some q ∧ stores s s' q (with_dim d (heap s q)).
Proof. apply update_Ok. Qed.

Lemma set_stride_Ok p d s u s' :
  set_stride p d s = Ok (u, s') →
  ∃ q, p = Some q ∧ stores s s' q (with_stride d (heap s q)).
Proof. apply update_Ok. Qed.

Lemma set_uid_Ok p v s u s' :
  set_uid p v s = Ok (u, s') →
  ∃ q, p = Some q ∧ stores s s' q (assigned_once v (heap s q)).
Proof. apply update_Ok. Qed.

Lemma stores_refl s q : stores s s q (heap s q).
Proof. by repeat split. Qed.
End PrimitiveFacts.

Section StateFacts.
Context {A : Type}.
Implicit Types (s : State A) (p : shared_ptr) (q : ptr).

Lemma retyped_refl s : retyped s s.
Proof. by repeat split. Qed.

Lemma retyped_trans s1 s2 s3 : retyped s1 s2 → retyped s2 s3 → retyped s1 s3.
Proof.
  intros (?&?&?&H12) (?&?&?&H23). repeat split; try congruence;
    destruct (H12 q) as (?&?&?&?), (H23 q) as (?&?&?&?); congruence.
Qed.

Lemma keeps_refl s : keeps s s.
Proof. by split. Qed.

Lemma keeps_trans s1 s2 s3 : keeps s1 s2 → keeps s2 s3 → keeps s1 s3.
Proof.
  intros H12 H23 q. destruct (H12 q) as [Hd Hs], (H23 q) as [Hd' Hs']. split; intros ?.
  - rewrite Hd'; [by apply Hd|]. by rewrite Hd.
  - rewrite Hs'; [by apply Hs|]. by rewrite Hs.
Qed.

Lemma retyped_keeps s s' : retyped s s' → keeps s s'.
Proof. intros (_&_&_&H) q. destruct (H q) as (?&?&_). by split. Qed.

Lemma tensor_fill_from_context_total context p s :
  ∃ s', tensor_fill_from_context context p s = Ok ((), s') ∧
        options s' = options s ∧ retyped s s'.
Proof.
  destruct p as [q|]; simpl.
  - eexists. split; [reflexivity|]. split; [done|].
    split; [done|]. split; [done|]. split; [done|]. intros r. simpl.
    destruct (decide (r = q)) as [->|];
      [rewrite fn_lookup_insert|by rewrite fn_lookup_insert_ne].
    unfold fill_tensor_from_context. by case_decide.
  - exists s. split; [done|]. split; [done|apply retyped_refl].
Qed.

Lemma fill_all_total context roles s :
  ∃ s', fill_all context roles s = Ok ((), s') ∧
        options s' = options s ∧ retyped s s'.
Proof.
  revert s. induction roles as [|p roles IH]; intros s; simpl.
  - exists s. split; [done|]. split; [done|apply retyped_refl].
  - destruct (tensor_fill_from_context_total context p s) as (s1 & E1 & O1 & R1).
    destruct (IH s1) as (s2 & E2 & O2 & R2). exists s2. split.
    + apply bind_Ok. eauto.
    + split; [congruence|by eapply retyped_trans].
Qed.
End StateFacts.

(** ** Dgrad: shape inference *)

Lemma dgrad_fill_from_context_total context (s : DgradNode.St) :
  ∃ s', DgradNode.fill_from_context context s = Ok ((), s') ∧
        DgradNode.inputs (options s') = DgradNode.inputs (options s) ∧
        DgradNode.outputs (options s') = DgradNode.outputs (options s) ∧
        DgradNode.padding (options s') = DgradNode.padding (options s) ∧
        DgradNode.conv_stride (options s') = DgradNode.conv_stride (options s) ∧
        DgradNode.dilation (options s') = DgradNode.dilation (options s) ∧
        retyped s s'.
Proof.
  unfold DgradNode.fill_from_context.
  destruct (fill_all_total context
    [DgradNode.W (DgradNode.inputs (options s));
     DgradNode.DY (DgradNode.inputs (options s));
     DgradNode.DX (DgradNode.outputs (options s))] s) as (s1 & E1 & O1 & R1).
  destruct (decide (DgradNode.attr_compute_data_type (options s) = DT_NOT_SET)).
  - eexists. split.
    + apply bind_Ok. exists (options s), s. split; [done|].
      apply bind_Ok. exists (), s1. split; [done|].
      rewrite decide_True by done. reflexivity.
    + simpl. repeat split; try apply R1.
  - exists s1. split.
    + apply bind_Ok. exists (options s), s. split; [done|].
      apply bind_Ok. exists (), s1. split; [done|].
      rewrite decide_False by done. reflexivity.
    + rewrite O1. repeat split; try apply R1.
Qed.

Lemma infer_spatial_Ok n : ∀ d w dy pad st dil dx dx' (s s' : DgradNode.St),
  DgradNode.infer_spatial n d w dy pad st dil dx s = Ok (dx', s') →
  s' = s ∧ length dx' = length dx ∧ (n = 0 ∨ d + n <= length dx) ∧
  (∀ i, i < d → dx' !! i = dx !! i) ∧
  (∀ i, d + n <= i → dx' !! i = dx !! i) ∧
  (∀ i, d <= i < d + n →
     ∃ dyi sti pdi dli wi,
       dy !! i = Some dyi ∧ st !! (i - 2) = Some sti ∧ pad !! (i - 2) = Some pdi ∧
       dil !! (i - 2) = Some dli ∧ w !! i = Some wi ∧
       dx' !! i = Some (dgrad_size dyi sti pdi dli wi)).
Proof.
  induction n as [|n IH]; intros d w dy pad st dil dx dx' s s'; simpl.
  - rewrite ret_Ok. intros [-> ->]. repeat split; try done; [by left|lia].
  - repeat setoid_rewrite bind_Ok. repeat setoid_rewrite vec_at_Ok.
    repeat setoid_rewrite i64_Ok. setoid_rewrite vec_assign_Ok.
    intros (dyd & ? & [Hdy ->] & a & ? & (_ & -> & ->) & sd & ? & [Hst ->] &
            b & ? & (_ & -> & ->) & pd & ? & [Hpd ->] & c & ? & (_ & -> & ->) &
            e & ? & (_ & -> & ->) & f & ? & (_ & -> & ->) & dl & ? & [Hdl ->] &
            wd & ? & [Hw ->] & g & ? & (_ & -> & ->) & h & ? & (_ & -> & ->) &
            v & ? & (_ & -> & ->) & dx1 & ? & (Hlt & -> & ->) & Hrec).
    apply IH in Hrec as (-> & Hlen & Hbound & Hlow & Hhigh & Hmid).
    rewrite length_insert in Hlen, Hbound.
    split; [done|]. split; [done|]. split; [right; lia|].
    split; [|split].
    + intros i Hi. rewrite Hlow by lia. apply list_lookup_insert_ne. lia.
    + intros i Hi. rewrite Hhigh by lia. apply list_lookup_insert_ne. lia.
    + intros i Hi. destruct (decide (i = d)) as [->|Hne].
      * exists dyd, sd, pd, dl, wd. repeat split; try done.
        rewrite Hlow by lia. by rewrite list_lookup_insert_eq.
      * apply Hmid. lia.
Qed.

Lemma dgrad_infer_general generate_stride context (s s' : DgradNode.St) e pdx :
  DgradNode.infer_properties_node generate_stride context s = Ok (e, s') →
  DgradNode.DX (DgradNode.outputs (options s)) = Some pdx →
  dim (heap s pdx) = [] →
  ∃ pw pdy,
    DgradNode.W (DgradNode.inputs (options s)) = Some pw ∧
    DgradNode.DY (DgradNode.inputs (options s)) = Some pdy ∧
    length (dim (heap s' pdx)) = length (dim (heap s pw)) ∧
    2 <= length (dim (heap s pw)) ∧
    is_Some (dim (heap s pdy) !! 0) ∧
    dim (heap s' pdx) !! 0 = dim (heap s pdy) !! 0 ∧
    dim (heap s' pdx) !! 1 = dim (heap s pw) !! 1 ∧
    ∀ d, 2 <= d < length (dim (heap s pw)) →
      ∃ dyd std pdd dld wd,
        dim (heap s pdy) !! d = Some dyd ∧
        DgradNode.conv_stride (options s) !! (d - 2) = Some std ∧
        DgradNode.padding (options s) !! (d - 2) = Some pdd ∧
        DgradNode.dilation (options s) !! (d - 2) = Some dld ∧
        dim (heap s pw) !! d = Some wd ∧
        dim (heap s' pdx) !! d = Some (dgrad_size dyd std pdd dld wd).
Proof.
  intros Hrun HDX Hempty. unfold DgradNode.infer_properties_node in Hrun.
  apply bind_Ok in Hrun as (? & s1 & Hfill & Hrun).
  destruct (dgrad_fill_from_context_total context s)
    as (s1' & Hfill' & Hin & Hout & Hpad & Hst & Hdil & Hre).
  rewrite Hfill' in Hfill. injection Hfill as _ <-.
  apply bind_Ok in Hrun as (o & ? & [-> ->]%get_options_Ok & Hrun).
  rewrite Hin, Hout, Hpad, Hst, Hdil in Hrun. rewrite HDX in Hrun.
  apply bind_Ok in Hrun as (wd & ? & (pw & HW & -> & ->)%get_dim_Ok & Hrun).
  apply bind_Ok in Hrun as (dyd & ? & (pdy & HDY & -> & ->)%get_dim_Ok & Hrun).
  apply bind_Ok in Hrun as (dxd & ? & (? & [= <-] & -> & ->)%get_dim_Ok & Hrun).
  destruct Hre as (_ & _ & _ & Hre).
  destruct (Hre pdx) as (Hdx & _), (Hre pw) as (Hw & _), (Hre pdy) as (Hdy & _).
  rewrite Hdx, Hw, Hdy, Hempty in Hrun. clear Hdx Hw Hdy.
  exists pw, pdy. split; [done|]. split; [done|].
  simpl in Hrun.
  apply bind_Ok in Hrun as ([] & s2 & Hdim & Hrun).
  apply bind_Ok in Hdim as (dy0 & ? & [Hdy0 ->]%vec_at_Ok & Hdim).
  apply bind_Ok in Hdim as (dx1 & ? & (Hl1 & -> & ->)%vec_assign_Ok & Hdim).
  apply bind_Ok in Hdim as (w1 & ? & [Hw1 ->]%vec_at_Ok & Hdim).
  apply bind_Ok in Hdim as (dx2 & ? & (Hl2 & -> & ->)%vec_assign_Ok & Hdim).
  apply bind_Ok in Hdim as (dx3 & ? & Hloop & Hdim).
  apply infer_spatial_Ok in Hloop as (-> & Hlen & _ & Hlow & _ & Hmid).
  apply set_dim_Ok in Hdim as (? & [= <-] & Hs2).
  assert (dim (heap s' pdx) = dx3) as ->.
  { apply bind_Ok in Hrun as (sd & ? & (? & [= <-] & -> & ->)%get_stride_Ok & Hrun).
    apply bind_Ok in Hrun as ([] & s3 & Hrun & [_ ->]%ret_Ok).
    destruct Hs2 as (_ & _ & _ & _ & Hs2 & _).
    destruct (is_empty (stride (heap s2 pdx))).
    - apply bind_Ok in Hrun as (d & ? & (? & [= <-] & -> & ->)%get_dim_Ok & Hrun).
      apply set_stride_Ok in Hrun as (? & [= <-] & (_ & _ & _ & _ & -> & _)).
      simpl. by rewrite Hs2.
    - apply ret_Ok in Hrun as [_ ->]. by rewrite Hs2. }
  rewrite resize_nil in *. rewrite !length_insert in Hlen.
  rewrite length_insert in Hl2. rewrite length_replicate in *.
  split; [lia|]. split; [lia|]. split; [by eexists|].
  split; [|split].
  - rewrite Hlow by lia. rewrite list_lookup_insert_ne by lia.
    rewrite list_lookup_insert_eq; [done|]. by rewrite length_replicate.
  - rewrite Hlow by lia. rewrite list_lookup_insert_eq; [done|].
    rewrite length_insert, length_replicate. lia.
  - intros d Hd. apply Hmid. lia.
Qed.

Lemma in_int64_spec z : in_int64 z = true ↔ (- 2 ^ 63 <= z <= 2 ^ 63 - 1)%Z.
Proof. unfold in_int64, int64_min, int64_max. apply bool_decide_eq_true. Qed.

(** Running a member function forwards on a state whose relevant parts are
    known. *)
Ltac run_prim :=
  lazymatch goal with
  | |- mret _ _ = _ => reflexivity
  | |- get_options _ = _ => reflexivity
  | |- create_new_uid _ = _ => reflexivity
  | |- operations_push_back _ _ _ = _ => reflexivity
  | |- vec_at _ _ _ = _ => apply vec_at_Ok; split; [reflexivity|reflexivity]
  | |- vec_assign _ _ _ _ = _ =>
      apply vec_assign_Ok; split; [simpl; lia|split; reflexivity]
  | |- vec_data _ _ _ = _ =>
      apply vec_data_Ok; split; [simpl; lia|split; reflexivity]
  | |- i64 _ _ = _ =>
      apply i64_Ok; split; [apply in_int64_spec; lia|split; reflexivity]
  | |- get_dim _ _ = _ => apply get_dim_Ok; eexists; split; [eassumption || reflexivity|split; reflexivity]
  | |- get_stride _ _ = _ => apply get_stride_Ok; eexists; split; [eassumption || reflexivity|split; reflexivity]
  | |- get_uid _ _ = _ => apply get_uid_Ok; eexists; split; [eassumption || reflexivity|split; reflexivity]
  | |- get_is_virtual _ _ = _ => apply get_is_virtual_Ok; eexists; split; [eassumption || reflexivity|split; reflexivity]
  | |- set_dim (Some _) _ _ = _ => reflexivity
  | |- set_stride (Some _) _ _ = _ => reflexivity
  | |- set_uid (Some _) _ _ = _ => reflexivity
  end.

Ltac run :=
  repeat match goal with H : dim _ = _ |- _ => progress rewrite H end;
  lazymatch goal with
  | |- (_ ≫= _) _ = _ =>
      apply bind_Ok; eexists; eexists; split; [run|cbv beta; run]
  | |- (let _ := _ in _) _ = _ => cbv zeta; run
  | |- _ => run_prim
  end.

Lemma dgrad_infer_3x3 generate_stride context (s : DgradNode.St) pw pdy pdx N K C P Q :
  DgradNode.W (DgradNode.inputs (options s)) = Some pw →
  DgradNode.DY (DgradNode.inputs (options s)) = Some pdy →
  DgradNode.DX (DgradNode.outputs (options s)) = Some pdx →
  dim (heap s pw) = [K; C; 3; 3]%Z →
  dim (heap s pdy) = [N; K; P; Q] →
  dim (heap s pdx) = [] →
  DgradNode.conv_stride (options s) = [1; 1]%Z →
  DgradNode.padding (options s) = [0; 0]%Z →
  DgradNode.dilation (options s) = [1; 1]%Z →
  in_int64 (P - 1) = true → in_int64 (P + 2) = true →
  in_int64 (Q - 1) = true → in_int64 (Q + 2) = true →
  ∃ s', DgradNode.infer_properties_node generate_stride context s
          = Ok (mk_error OK "", s') ∧
        dim (heap s' pdx) = [N; C; P + 2; Q + 2]%Z.
Proof.
  intros HW HDY HDX Hw Hdy Hdx Hst Hpad Hdil HP1 HP2 HQ1 HQ2.
  apply in_int64_spec in HP1, HP2, HQ1, HQ2.
  destruct (dgrad_fill_from_context_total context s)
    as (s1 & Hfill & Hin & Hout & Hpad' & Hst' & Hdil' & (_ & _ & _ & Hre)).
  destruct (Hre pdx) as (Hdx1 & Hsx1 & _), (Hre pw) as (Hw1 & _), (Hre pdy) as (Hdy1 & _).
  rewrite Hdx in Hdx1. rewrite Hw in Hw1. rewrite Hdy in Hdy1.
  rewrite <- Hin in HW, HDY. rewrite <- Hout in HDX.
  rewrite <- Hst' in Hst. rewrite <- Hpad' in Hpad. rewrite <- Hdil' in Hdil.
  clear Hre Hin Hout Hst' Hpad' Hdil' Hw Hdy Hdx.
  unfold DgradNode.infer_properties_node.
  destruct (is_empty (stride (heap s1 pdx))) eqn:Hstr.
  all: eexists; split;
    [ apply bind_Ok; eexists; eexists; split; [exact Hfill|];
      apply bind_Ok; eexists; eexists; split; [reflexivity|]; cbv beta zeta;
      rewrite HW, HDY, HDX, Hst, Hpad, Hdil;
      do 3 (apply bind_Ok; eexists; eexists; split; [run|]; cbv beta);
      rewrite Hw1, Hdy1, Hdx1;
      rewrite (proj2 (is_empty_true []) eq_refl);
      cbn [DgradNode.infer_spatial length Nat.sub];
      do 2 (apply bind_Ok; eexists; eexists; split; [run|]; cbv beta);
      simpl heap; rewrite fn_lookup_insert; simpl stride; rewrite Hstr;
      run
    | simpl; rewrite !fn_lookup_insert; simpl; repeat f_equal; lia ].
Qed.

(** C1: when the shape of DX is empty, a run of [infer_properties_node] that
    returns leaves DX with the rank of W, DX[0] = DY[0], DX[1] = W[1], and on
    every spatial axis d >= 2
    DX[d] = (DY[d]-1)*stride[d-2] - 2*padding[d-2] + 1 + dilation[d-2]*(W[d]-1);
    and for W = [K,C,3,3], DY = [N,K,P,Q], stride [1,1], padding [0,0] and
    dilation [1,1] the run returns OK with DX = [N, C, P+2, Q+2]. *)
Theorem dgrad_infer_dx_shape :
  (∀ generate_stride context (s s' : DgradNode.St) e pdx,
     DgradNode.infer_properties_node generate_stride context s = Ok (e, s') →
     DgradNode.DX (DgradNode.outputs (options s)) = Some pdx →
     dim (heap s pdx) = [] →
     ∃ pw pdy,
       DgradNode.W (DgradNode.inputs (options s)) = Some pw ∧
       DgradNode.DY (DgradNode.inputs (options s)) = Some pdy ∧
       length (dim (heap s' pdx)) = length (dim (heap s pw)) ∧
       2 <= length (dim (heap s pw)) ∧
       is_Some (dim (heap s pdy) !! 0) ∧
       dim (heap s' pdx) !! 0 = dim (heap s pdy) !! 0 ∧
       dim (heap s' pdx) !! 1 = dim (heap s pw) !! 1 ∧
       ∀ d, 2 <= d < length (dim (heap s pw)) →
         ∃ dyd std pdd dld wd,
           dim (heap s pdy) !! d = Some dyd ∧
           DgradNode.conv_stride (options s) !! (d - 2) = Some std ∧
           DgradNode.padding (options s) !! (d - 2) = Some pdd ∧
           DgradNode.dilation (options s) !! (d - 2) = Some dld ∧
           dim (heap s pw) !! d = Some wd ∧
           dim (heap s' pdx) !! d
             = Some ((dyd - 1) * std - 2 * pdd + 1 + dld * (wd - 1))%Z) ∧
  (∀ generate_stride context (s : DgradNode.St) pw pdy pdx N K C P Q,
     DgradNode.W (DgradNode.inputs (options s)) = Some pw →
     DgradNode.DY (DgradNode.inputs (options s)) = Some pdy →
     DgradNode.DX (DgradNode.outputs (options s)) = Some pdx →
     dim (heap s pw) = [K; C; 3; 3]%Z →
     dim (heap s pdy) = [N; K; P; Q] →
     dim (heap s pdx) = [] →
     DgradNode.conv_stride (options s) = [1; 1]%Z →
     DgradNode.padding (options s) = [0; 0]%Z →
     DgradNode.dilation (options s) = [1; 1]%Z →
     in_int64 (P - 1) = true → in_int64 (P + 2) = true →
     in_int64 (Q - 1) = true → in_int64 (Q + 2) = true →
     ∃ s', DgradNode.infer_properties_node generate_stride context s
             = Ok (mk_error OK "", s') ∧
           dim (heap s' pdx) = [N; C; P + 2; Q + 2]%Z).
Proof.
  split.
  - intros. by eapply dgrad_infer_general.
  - intros. by eapply dgrad_infer_3x3.
Qed.

Lemma dgrad_infer_dx_shape_witness :
  ∃ s', DgradNode.infer_properties_node packed_stride sample_context dgrad_sample
          = Ok (mk_error OK "", s') ∧
        dim (heap s' 3%positive) = [2; 4; 7; 7]%Z.
Proof.
  apply (proj2 dgrad_infer_dx_shape packed_stride sample_context dgrad_sample
           1%positive 2%positive 3%positive 2%Z 8%Z 4%Z 5%Z 5%Z);
    reflexivity.
Defined.

(** ** Normalization nodes: what one inference step does *)

Section NormSteps.
Context {A : Type}.
Variable generate_stride : list Z → list Z.
Implicit Types (s : State A) (T : shared_ptr) (q : ptr) (x : list Z).

Lemma stores_trans s s1 s2 q t1 t2 :
  stores s s1 q t1 → stores s1 s2 q t2 → stores s s2 q t2.
Proof.
  intros (?&?&?&?&?&Hs1) (?&?&?&?&?&Hs2). repeat split; try congruence.
  intros r ?. rewrite Hs2, Hs1; done.
Qed.

Lemma infer_stride_Ok T s u s' :
  infer_stride generate_stride T s = Ok (u, s') →
  ∃ q, T = Some q ∧ stores s s' q (fill_stride generate_stride (heap s q)).
Proof.
  unfold infer_stride, fill_stride.
  intros (sd & ? & (q & -> & -> & ->)%get_stride_Ok & H)%bind_Ok.
  exists q. split; [done|]. destruct (is_empty (stride (heap s q))).
  - apply bind_Ok in H as (d & ? & (? & [= <-] & -> & ->)%get_dim_Ok & H).
    by apply set_stride_Ok in H as (? & [= <-] & H).
  - apply ret_Ok in H as [_ ->]. apply stores_refl.
Qed.

Lemma fill_then_stride d (m : list Z → M (State A) ()) T s u s' :
  (tensor_dim ← get_dim T;
   (if is_empty tensor_dim then m tensor_dim else mret ());;
   infer_stride generate_stride T) s = Ok (u, s') →
  (∀ q s1 u1, T = Some q → dim (heap s q) = [] → m [] s = Ok (u1, s1) →
      stores s s1 q (with_dim d (heap s q))) →
  ∃ q, T = Some q ∧
       stores s s' q (fill_stride generate_stride (fill_dim d (heap s q))).
Proof.
  intros (td & ? & (q & -> & -> & ->)%get_dim_Ok & H)%bind_Ok Hm.
  apply bind_Ok in H as ([] & s1 & H1 & H2).
  apply infer_stride_Ok in H2 as (? & [= <-] & H2).
  exists q. split; [done|]. unfold fill_dim.
  destruct (is_empty (dim (heap s q))) eqn:He.
  - apply is_empty_true in He. rewrite He in H1.
    eapply Hm in H1; [|done..]. destruct H1 as (?&?&?&?&Hq&?).
    rewrite Hq in H2. eapply stores_trans; [|done]. by repeat split.
  - by apply ret_Ok in H1 as [_ ->].
Qed.

Lemma infer_like_x_Ok x T s u s' :
  infer_like_x generate_stride x T s = Ok (u, s') →
  ∃ q, T = Some q ∧
       stores s s' q (fill_stride generate_stride (fill_dim x (heap s q))).
Proof.
  intros H. unfold infer_like_x in H.
  eapply (fill_then_stride x (λ _, set_dim T x)) in H; [done|].
  intros q s1 u1 -> _ H1. by apply set_dim_Ok in H1 as (? & [= <-] & ?).
Qed.

Lemma infer_scalar_tensors_Ok x T s u s' :
  infer_scalar_tensors generate_stride x T s = Ok (u, s') →
  ∃ q, T = Some q ∧
       stores s s' q
         (fill_stride generate_stride (fill_dim (replicate (length x) 1%Z) (heap s q))).
Proof.
  intros H. unfold infer_scalar_tensors in H.
  eapply (fill_then_stride _ (λ td, set_dim T (resize td (length x) 1))) in H;
    [done|].
  intros q s1 u1 -> Hd H1. rewrite resize_nil in H1.
  by apply set_dim_Ok in H1 as (? & [= <-] & ?).
Qed.

Lemma infer_per_channel_tensors_Ok x T s u s' :
  infer_per_channel_tensors generate_stride x T s = Ok (u, s') →
  ∃ q, T = Some q ∧
       stores s s' q
         (fill_stride generate_stride (fill_dim (per_channel_dim x) (heap s q))) ∧
       (dim (heap s q) = [] → 2 <= length x).
Proof.
  intros H. assert (H' := H). unfold infer_per_channel_tensors in H.
  eapply (fill_then_stride (per_channel_dim x)
            (λ td, x1 ← vec_at x 1;
                   tensor_dim ← vec_assign (resize td (length x) 1) 1 x1;
                   set_dim T tensor_dim)) in H as (q & -> & H).
  - exists q. split; [done|]. split; [done|]. intros Hd.
    unfold infer_per_channel_tensors in H'.
    apply bind_Ok in H' as (td & ? & (? & [= <-] & -> & ->)%get_dim_Ok & H').
    apply bind_Ok in H' as ([] & s1 & H' & _).
    rewrite Hd in H'. simpl in H'.
    apply bind_Ok in H' as (x1 & ? & [Hx1 ->]%vec_at_Ok & _).
    apply lookup_lt_Some in Hx1. lia.
  - intros q s1 u1 -> Hd H1. rewrite resize_nil in H1.
    apply bind_Ok in H1 as (x1 & ? & [Hx1 ->]%vec_at_Ok & H1).
    apply bind_Ok in H1 as (td & ? & (_ & -> & ->)%vec_assign_Ok & H1).
    apply set_dim_Ok in H1 as (? & [= <-] & H1).
    unfold per_channel_dim. by rewrite Hx1.
Qed.

Lemma stores_keeps s s' q t :
  stores s s' q t →
  (dim (heap s q) ≠ [] → dim t = dim (heap s q)) →
  (stride (heap s q) ≠ [] → stride t = stride (heap s q)) →
  keeps s s'.
Proof.
  intros (_&_&_&_&Hq&Hr) Hd Hs r. destruct (decide (r = q)) as [->|].
  - rewrite Hq. by split.
  - by rewrite Hr.
Qed.

Lemma fill_keeps_dim d t : dim t ≠ [] → dim (fill_stride generate_stride (fill_dim d t)) = dim t.
Proof.
  intros Hd%is_empty_false. unfold fill_stride, fill_dim. rewrite Hd.
  by destruct (is_empty (stride t)).
Qed.

Lemma fill_keeps_stride d t :
  stride t ≠ [] → stride (fill_stride generate_stride (fill_dim d t)) = stride t.
Proof.
  intros Hs%is_empty_false. unfold fill_stride, fill_dim.
  destruct (is_empty (dim t)); simpl; by rewrite Hs.
Qed.

Lemma fill_sets_dim d t : dim t = [] → dim (fill_stride generate_stride (fill_dim d t)) = d.
Proof.
  intros Hd%is_empty_true. unfold fill_stride, fill_dim. rewrite Hd. simpl.
  by destruct (is_empty (stride t)).
Qed.

Lemma infer_like_x_keeps x T s u s' :
  infer_like_x generate_stride x T s = Ok (u, s') → keeps s s'.
Proof.
  intros (q & -> & H)%infer_like_x_Ok.
  eapply stores_keeps; [done|apply fill_keeps_dim|apply fill_keeps_stride].
Qed.

Lemma infer_scalar_tensors_keeps x T s u s' :
  infer_scalar_tensors generate_stride x T s = Ok (u, s') → keeps s s'.
Proof.
  intros (q & -> & H)%infer_scalar_tensors_Ok.
  eapply stores_keeps; [done|apply fill_keeps_dim|apply fill_keeps_stride].
Qed.

Lemma infer_per_channel_tensors_keeps x T s u s' :
  infer_per_channel_tensors generate_stride x T s = Ok (u, s') → keeps s s'.
Proof.
  intros (q & -> & H & _)%infer_per_channel_tensors_Ok.
  eapply stores_keeps; [done|apply fill_keeps_dim|apply fill_keeps_stride].
Qed.
End NormSteps.

(** Taking a run that returned apart into its steps. *)
Ltac invert_run :=
  repeat match goal with
  | H : (_ ≫= _) _ = Ok _ |- _ => apply bind_Ok in H as (? & ? & ? & H)
  | H : mret _ _ = Ok _ |- _ => apply ret_Ok in H as [? ?]; subst
  | H : get_options _ = Ok _ |- _ => apply get_options_Ok in H as [? ?]; subst
  | H : get_dim _ _ = Ok _ |- _ => apply get_dim_Ok in H as (? & ? & ? & ?); subst
  | u : () |- _ => destruct u
  end.

Ltac keeps_chain :=
  first [ eassumption | apply keeps_refl
        | eapply keeps_trans; [eassumption|keeps_chain] ].

Ltac steps_keep :=
  repeat match goal with
  | H : infer_like_x _ _ _ _ = Ok _ |- _ => apply infer_like_x_keeps in H
  | H : infer_per_channel_tensors _ _ _ _ = Ok _ |- _ =>
      apply infer_per_channel_tensors_keeps in H
  | H : infer_scalar_tensors _ _ _ _ = Ok _ |- _ =>
      apply infer_scalar_tensors_keeps in H
  end.

(** ** BatchNorm and DBN: [fill_from_context] *)

Lemma fill_all_Ok {A} context roles (s : State A) u s' :
  fill_all context roles s = Ok (u, s') → options s' = options s ∧ retyped s s'.
Proof.
  destruct (fill_all_total context roles s) as (s1 & -> & ? & ?).
  by intros [= _ <-].
Qed.

Lemma set_options_Ok {A} (o : A) (s : State A) u s' :
  set_options o s = Ok (u, s') → options s' = o ∧ retyped s s'.
Proof. intros [= _ <-]. by repeat split. Qed.

Lemma batchnorm_fill_from_context_Ok context (s : BatchNormNode.St) u s' :
  BatchNormNode.fill_from_context context s = Ok (u, s') →
  BatchNormNode.inputs (options s') = BatchNormNode.inputs (options s) ∧
  BatchNormNode.outputs (options s') = BatchNormNode.outputs (options s) ∧
  retyped s s'.
Proof.
  unfold BatchNormNode.fill_from_context. intros H. invert_run.
  match goal with H : fill_all _ _ _ = _ |- _ => apply fill_all_Ok in H as [Ho Hr] end.
  destruct (decide _).
  - apply set_options_Ok in H as [-> Hr']. simpl.
    split; [done|]. split; [done|]. by eapply retyped_trans.
  - apply ret_Ok in H as [_ ->]. by rewrite Ho.
Qed.

Lemma dbn_fill_from_context_Ok context (s : DBNNode.St) u s' :
  DBNNode.fill_from_context context s = Ok (u, s') →
  DBNNode.inputs (options s') = DBNNode.inputs (options s) ∧
  DBNNode.outputs (options s') = DBNNode.outputs (options s) ∧
  retyped s s'.
Proof.
  unfold DBNNode.fill_from_context. intros H. invert_run.
  match goal with H : fill_all _ _ _ = _ |- _ => apply fill_all_Ok in H as [Ho Hr] end.
  destruct (decide _).
  - apply set_options_Ok in H as [-> Hr']. simpl.
    split; [done|]. split; [done|]. by eapply retyped_trans.
  - apply ret_Ok in H as [_ ->]. by rewrite Ho.
Qed.

(** ** Shapes and strides that were supplied are kept *)

Lemma batchnorm_infer_keeps generate_stride context (s s' : BatchNormNode.St) e :
  BatchNormNode.infer_properties_node generate_stride context s = Ok (e, s') →
  keeps s s'.
Proof.
  unfold BatchNormNode.infer_properties_node. intros H. invert_run.
  match goal with H : BatchNormNode.fill_from_context _ _ = _ |- _ =>
    apply batchnorm_fill_from_context_Ok in H as (_ & _ & H%retyped_keeps) end.
  steps_keep. keeps_chain.
Qed.

Lemma dbn_infer_keeps generate_stride context (s s' : DBNNode.St) e :
  DBNNode.infer_properties_node generate_stride context s = Ok (e, s') →
  keeps s s'.
Proof.
  unfold DBNNode.infer_properties_node. intros H. invert_run.
  match goal with H : DBNNode.fill_from_context _ _ = _ |- _ =>
    apply dbn_fill_from_context_Ok in H as (_ & _ & H%retyped_keeps) end.
  steps_keep. keeps_chain.
Qed.

Lemma dgrad_infer_keeps generate_stride context (s s' : DgradNode.St) e :
  DgradNode.infer_properties_node generate_stride context s = Ok (e, s') →
  keeps s s'.
Proof.
  unfold DgradNode.infer_properties_node. intros H.
  apply bind_Ok in H as (? & s1 & Hfill & H).
  destruct (dgrad_fill_from_context_total context s)
    as (s1' & Hfill' & _ & _ & _ & _ & _ & Hre%retyped_keeps).
  rewrite Hfill' in Hfill. injection Hfill as _ <-.
  eapply keeps_trans; [done|]. clear Hfill' Hre.
  apply bind_Ok in H as (o & ? & [-> ->]%get_options_Ok & H).
  apply bind_Ok in H as (wd & ? & (pw & HW & -> & ->)%get_dim_Ok & H).
  apply bind_Ok in H as (dyd & ? & (pdy & HDY & -> & ->)%get_dim_Ok & H).
  cbv zeta in H.
  apply bind_Ok in H as (dxd & ? & (q & HDX & -> & ->)%get_dim_Ok & H).
  rewrite HDX in H.
  apply bind_Ok in H as ([] & s2 & Hdim & H).
  apply bind_Ok in H as (sd & ? & (? & [= <-] & -> & ->)%get_stride_Ok & H).
  apply bind_Ok in H as ([] & s3 & Hstr & [_ ->]%ret_Ok).
  eapply keeps_trans with s2.
  - destruct (is_empty (dim (heap s1' q))) eqn:He.
    + apply is_empty_true in He.
      apply bind_Ok in Hdim as (? & ? & [_ ->]%vec_at_Ok & Hdim).
      apply bind_Ok in Hdim as (? & ? & (_ & -> & ->)%vec_assign_Ok & Hdim).
      apply bind_Ok in Hdim as (? & ? & [_ ->]%vec_at_Ok & Hdim).
      apply bind_Ok in Hdim as (? & ? & (_ & -> & ->)%vec_assign_Ok & Hdim).
      apply bind_Ok in Hdim as (? & ? & (-> & _)%infer_spatial_Ok & Hdim).
      apply set_dim_Ok in Hdim as (? & [= <-] & Hdim).
      eapply stores_keeps; [done| |done]. by rewrite He.
    + apply ret_Ok in Hdim as [_ ->]. apply keeps_refl.
  - destruct (is_empty (stride (heap s2 q))) eqn:He.
    + apply is_empty_true in He.
      apply bind_Ok in Hstr as (? & ? & (? & [= <-] & -> & ->)%get_dim_Ok & Hstr).
      apply set_stride_Ok in Hstr as (? & [= <-] & Hstr).
      eapply stores_keeps; [done|done|]. by rewrite He.
    + apply ret_Ok in Hstr as [_ ->]. apply keeps_refl.
Qed.

(** C3: a shape, and a stride, that is not empty before
    [infer_properties_node] runs is the same after it, for every descriptor
    and for each of the three nodes that define the function. *)
Theorem infer_properties_keeps_supplied :
  (∀ generate_stride context (s s' : BatchNormNode.St) e,
     BatchNormNode.infer_properties_node generate_stride context s = Ok (e, s') →
     ∀ q, (dim (heap s q) ≠ [] → dim (heap s' q) = dim (heap s q)) ∧
          (stride (heap s q) ≠ [] → stride (heap s' q) = stride (heap s q))) ∧
  (∀ generate_stride context (s s' : DBNNode.St) e,
     DBNNode.infer_properties_node generate_stride context s = Ok (e, s') →
     ∀ q, (dim (heap s q) ≠ [] → dim (heap s' q) = dim (heap s q)) ∧
          (stride (heap s q) ≠ [] → stride (heap s' q) = stride (heap s q))) ∧
  (∀ generate_stride context (s s' : DgradNode.St) e,
     DgradNode.infer_properties_node generate_stride context s = Ok (e, s') →
     ∀ q, (dim (heap s q) ≠ [] → dim (heap s' q) = dim (heap s q)) ∧
          (stride (heap s q) ≠ [] → stride (heap s' q) = stride (heap s q))).
Proof.
  split; [|split]; intros generate_stride context s s' e H.
  - by eapply batchnorm_infer_keeps.
  - by eapply dbn_infer_keeps.
  - by eapply dgrad_infer_keeps.
Qed.

(** ** Per-channel shapes *)

Lemma per_channel_dim_length x : length (per_channel_dim x) = length x.
Proof. unfold per_channel_dim. by rewrite length_insert, length_replicate. Qed.

Lemma per_channel_dim_spec x :
  2 <= length x →
  length (per_channel_dim x) = length x ∧
  per_channel_dim x !! 1 = x !! 1 ∧
  ∀ i, i ≠ 1 → i < length x → per_channel_dim x !! i = Some 1%Z.
Proof.
  intros Hx. split; [apply per_channel_dim_length|]. unfold per_channel_dim. split.
  - rewrite list_lookup_insert_eq by (rewrite length_replicate; lia).
    destruct (x !! 1) eqn:E; [done|]. apply lookup_ge_None in E. lia.
  - intros i Hi Hlt. rewrite list_lookup_insert_ne by done.
    by apply lookup_replicate_2.
Qed.

Section PerChannel.
Context {A : Type}.
Variable generate_stride : list Z → list Z.
Variable x : list Z.
Variable p : ptr.
Implicit Types (s : State A) (T : shared_ptr).

(** The shape behind [p] is the per-channel shape of [x]. *)
Let done_at s : Prop := dim (heap s p) = per_channel_dim x ∧ 2 <= length x.

Lemma per_channel_done_kept s s' : keeps s s' → done_at s → done_at s'.
Proof.
  intros Hk [Hd Hx]. split; [|done]. destruct (Hk p) as [Hk1 _].
  rewrite Hk1; [done|]. rewrite Hd. intros E. apply (f_equal length) in E.
  rewrite per_channel_dim_length in E. simpl in E. lia.
Qed.

Lemma per_channel_step T s u s' :
  infer_per_channel_tensors generate_stride x T s = Ok (u, s') →
  dim (heap s p) = [] ∨ done_at s →
  (dim (heap s' p) = [] ∨ done_at s') ∧ (T = Some p → done_at s').
Proof.
  intros H Hinv. assert (Hk := infer_per_channel_tensors_keeps _ _ _ _ _ _ H).
  apply infer_per_channel_tensors_Ok in H as (q & -> & (_&_&_&_&Hq&Hr) & Hx).
  destruct (decide (q = p)) as [->|Hne].
  - assert (done_at s') as Hdone.
    { destruct Hinv as [He|Hd]; [|by eapply per_channel_done_kept].
      split; [|by apply Hx]. rewrite Hq. by apply fill_sets_dim. }
    split; [by right|done].
  - split; [|congruence]. rewrite Hr by done. destruct Hinv as [|Hd]; [by left|].
    right. by eapply per_channel_done_kept.
Qed.

Lemma per_channel_run_keeps roles : ∀ s s',
  per_channel_run generate_stride x roles s s' → keeps s s'.
Proof.
  induction roles as [|T roles IH]; simpl; intros s s'.
  - intros ->. apply keeps_refl.
  - intros (s1 & H1 & H2). eapply keeps_trans; [|by apply IH].
    by eapply infer_per_channel_tensors_keeps.
Qed.

Lemma per_channel_run_done roles : ∀ s s',
  per_channel_run generate_stride x roles s s' →
  Some p ∈ roles →
  dim (heap s p) = [] ∨ done_at s →
  done_at s'.
Proof.
  induction roles as [|T roles IH]; simpl; intros s s' Hrun Hin Hinv.
  - by apply not_elem_of_nil in Hin.
  - destruct Hrun as (s1 & H1 & H2).
    destruct (per_channel_step _ _ _ _ H1 Hinv) as [Hinv1 Hhit].
    apply elem_of_cons in Hin as [<-|Hin].
    + eapply per_channel_done_kept; [by eapply per_channel_run_keeps|by apply Hhit].
    + by eapply IH.
Qed.
End PerChannel.

Lemma batchnorm_per_channel generate_stride context (s s' : BatchNormNode.St) e
    role p px :
  BatchNormNode.infer_properties_node generate_stride context s = Ok (e, s') →
  BatchNormNode.X (BatchNormNode.inputs (options s)) = Some px →
  role ∈ batchnorm_per_channel_roles (options s) →
  role = Some p →
  BatchNormNode.Y (BatchNormNode.outputs (options s)) ≠ Some p →
  dim (heap s p) = [] →
  dim (heap s' p) = per_channel_dim (dim (heap s px)) ∧
  2 <= length (dim (heap s px)).
Proof.
  unfold BatchNormNode.infer_properties_node. intros H HX Hrole -> HY Hd.
  apply bind_Ok in H as (? & s1 & Hfill & H).
  apply batchnorm_fill_from_context_Ok in Hfill as (Hin & Hout & (_&_&_&Hre)).
  apply bind_Ok in H as (? & ? & [-> ->]%get_options_Ok & H).
  rewrite Hin, Hout in H.
  apply bind_Ok in H as (? & ? & (? & HX' & -> & ->)%get_dim_Ok & H).
  rewrite HX in HX'. injection HX' as <-.
  destruct (Hre px) as (Hdx & _), (Hre p) as (Hd1 & _).
  rewrite Hdx in H. rewrite Hd in Hd1. clear Hre Hdx.
  apply bind_Ok in H as ([] & s2 & HY2 & H).
  assert (dim (heap s2 p) = []) as Hd2.
  { apply infer_like_x_Ok in HY2 as (q & Hq & (_&_&_&_&_&Hr)).
    rewrite Hr; [done|]. congruence. }
  invert_run.
  eapply per_channel_done_kept; cycle 1.
  - eapply (per_channel_run_done generate_stride _ p
              (batchnorm_per_channel_roles (options s)) s2); [|done|by left].
    simpl. repeat (eexists; split; [eassumption|]). reflexivity.
  - steps_keep. keeps_chain.
Qed.

Lemma dbn_per_channel generate_stride context (s s' : DBNNode.St) e role p px :
  DBNNode.infer_properties_node generate_stride context s = Ok (e, s') →
  DBNNode.X (DBNNode.inputs (options s)) = Some px →
  role ∈ dbn_per_channel_roles (options s) →
  role = Some p →
  DBNNode.DY (DBNNode.inputs (options s)) ≠ Some p →
  DBNNode.DX (DBNNode.outputs (options s)) ≠ Some p →
  dim (heap s p) = [] →
  dim (heap s' p) = per_channel_dim (dim (heap s px)) ∧
  2 <= length (dim (heap s px)).
Proof.
  unfold DBNNode.infer_properties_node. intros H HX Hrole -> HDY HDX Hd.
  apply bind_Ok in H as (? & s1 & Hfill & H).
  apply dbn_fill_from_context_Ok in Hfill as (Hin & Hout & (_&_&_&Hre)).
  apply bind_Ok in H as (? & ? & [-> ->]%get_options_Ok & H).
  rewrite Hin, Hout in H.
  apply bind_Ok in H as (? & ? & (? & HX' & -> & ->)%get_dim_Ok & H).
  rewrite HX in HX'. injection HX' as <-.
  destruct (Hre px) as (Hdx & _), (Hre p) as (Hd1 & _).
  rewrite Hdx in H. rewrite Hd in Hd1. clear Hre Hdx.
  apply bind_Ok in H as ([] & s2 & HY2 & H).
  assert (dim (heap s2 p) = []) as Hd2.
  { apply infer_like_x_Ok in HY2 as (q & Hq & (_&_&_&_&_&Hr)).
    rewrite Hr; [done|]. congruence. }
  apply bind_Ok in H as ([] & s3 & HY3 & H).
  assert (dim (heap s3 p) = []) as Hd3.
  { apply infer_like_x_Ok in HY3 as (q & Hq & (_&_&_&_&_&Hr)).
    rewrite Hr; [done|]. congruence. }
  invert_run.
  eapply (per_channel_run_done generate_stride _ p
            (dbn_per_channel_roles (options s)) s3); [|done|by left].
  simpl. repeat (eexists; split; [eassumption|]). reflexivity.
Qed.

(** C2, amended: a per-channel role whose shape is empty before
    [infer_properties_node], and whose descriptor is not the one given as Y
    (BatchNorm), or as DY or DX (DBN), has after a run that returns the rank
    of X, dimension 1 equal to that of X, and 1 in every other dimension. *)
Theorem per_channel_shape_inferred :
  (∀ generate_stride context (s s' : BatchNormNode.St) e role p px,
     BatchNormNode.infer_properties_node generate_stride context s = Ok (e, s') →
     BatchNormNode.X (BatchNormNode.inputs (options s)) = Some px →
     role ∈ batchnorm_per_channel_roles (options s) →
     role = Some p →
     BatchNormNode.Y (BatchNormNode.outputs (options s)) ≠ Some p →
     dim (heap s p) = [] →
     length (dim (heap s' p)) = length (dim (heap s px)) ∧
     dim (heap s' p) !! 1 = dim (heap s px) !! 1 ∧
     is_Some (dim (heap s px) !! 1) ∧
     ∀ i, i ≠ 1 → i < length (dim (heap s px)) → dim (heap s' p) !! i = Some 1%Z) ∧
  (∀ generate_stride context (s s' : DBNNode.St) e role p px,
     DBNNode.infer_properties_node generate_stride context s = Ok (e, s') →
     DBNNode.X (DBNNode.inputs (options s)) = Some px →
     role ∈ dbn_per_channel_roles (options s) →
     role = Some p →
     DBNNode.DY (DBNNode.inputs (options s)) ≠ Some p →
     DBNNode.DX (DBNNode.outputs (options s)) ≠ Some p →
     dim (heap s p) = [] →
     length (dim (heap s' p)) = length (dim (heap s px)) ∧
     dim (heap s' p) !! 1 = dim (heap s px) !! 1 ∧
     is_Some (dim (heap s px) !! 1) ∧
     ∀ i, i ≠ 1 → i < length (dim (heap s px)) → dim (heap s' p) !! i = Some 1%Z).
Proof.
  split.
  - intros generate_stride context s s' e role p px H HX Hrole Hp HY Hd.
    destruct (batchnorm_per_channel _ _ _ _ _ _ _ _ H HX Hrole Hp HY Hd) as [-> Hx].
    destruct (per_channel_dim_spec _ Hx) as (?&?&?).
    repeat split; try done. apply lookup_lt_is_Some. lia.
  - intros generate_stride context s s' e role p px H HX Hrole Hp HDY HDX Hd.
    destruct (dbn_per_channel _ _ _ _ _ _ _ _ H HX Hrole Hp HDY HDX Hd) as [-> Hx].
    destruct (per_channel_dim_spec _ Hx) as (?&?&?).
    repeat split; try done. apply lookup_lt_is_Some. lia.
Qed.

Lemma per_channel_shape_inferred_witness :
  BatchNormNode.infer_properties_node packed_stride sample_context batchnorm_sample
    = Ok (mk_error OK "", batchnorm_sample_inferred) ∧
  length (dim (heap batchnorm_sample_inferred 9%positive)) = 4 ∧
  dim (heap batchnorm_sample_inferred 9%positive) !! 1 = Some 3%Z.
Proof.
  assert (BatchNormNode.infer_properties_node packed_stride sample_context
            batchnorm_sample = Ok (mk_error OK "", batchnorm_sample_inferred)) as H
    by (vm_compute; reflexivity).
  split; [exact H|].
  destruct (proj1 per_channel_shape_inferred packed_stride sample_context
              batchnorm_sample _ _ (Some 9%positive) 9%positive 1%positive
              H eq_refl) as (H1 & H2 & _).
  - apply list_elem_of_here.
  - reflexivity.
  - discriminate.
  - reflexivity.
  - split; [exact H1|exact H2].
Defined.

(** C2 as stated fails when a per-channel role shares its descriptor with Y:
    the descriptor behind pointer 8 has no shape before the run and the full
    shape of X after it. *)
Lemma per_channel_aliased_with_y :
  BatchNormNode.infer_properties_node packed_stride sample_context batchnorm_aliased
    = Ok (mk_error OK "", batchnorm_aliased_inferred) ∧
  BatchNormNode.MEAN (BatchNormNode.outputs (options batchnorm_aliased))
    = Some 8%positive ∧
  dim (heap batchnorm_aliased 8%positive) = [] ∧
  dim (heap batchnorm_aliased 1%positive) = [2; 3; 4; 4]%Z ∧
  dim (heap batchnorm_aliased_inferred 8%positive) = [2; 3; 4; 4]%Z ∧
  dim (heap batchnorm_aliased_inferred 8%positive)
    ≠ per_channel_dim (dim (heap batchnorm_aliased 1%positive)).
Proof. split_and!; try (vm_compute; reflexivity). vm_compute. discriminate. Qed.

Lemma infer_properties_keeps_supplied_witness :
  BatchNormNode.infer_properties_node packed_stride sample_context batchnorm_sample
    = Ok (mk_error OK "", batchnorm_sample_inferred) ∧
  dim (heap batchnorm_sample_inferred 2%positive) = [1; 3; 1; 1]%Z ∧
  stride (heap batchnorm_sample_inferred 2%positive) = [3; 1; 3; 3]%Z.
Proof.
  assert (BatchNormNode.infer_properties_node packed_stride sample_context
            batchnorm_sample = Ok (mk_error OK "", batchnorm_sample_inferred)) as H
    by (vm_compute; reflexivity).
  split; [exact H|].
  destruct (proj1 infer_properties_keeps_supplied packed_stride sample_context
              batchnorm_sample _ _ H 2%positive) as [H1 H2].
  split; [apply H1|apply H2]; discriminate.
Defined.

(** ** Validation *)

(** C5: DBN [validate_node] returns ATTRIBUTE_NOT_SET exactly when MEAN,
    INV_VARIANCE and EPSILON are all absent, and OK otherwise; it always
    returns, and in the state it was called in. *)
Theorem dbn_validate_node_spec (s : DBNNode.St) :
  ∃ e, DBNNode.validate_node s = Ok (e, s) ∧
       (code e = ATTRIBUTE_NOT_SET ↔
          DBNNode.MEAN (DBNNode.inputs (options s)) = None ∧
          DBNNode.INV_VARIANCE (DBNNode.inputs (options s)) = None ∧
          DBNNode.EPSILON (DBNNode.inputs (options s)) = None) ∧
       (code e = OK ↔
          DBNNode.MEAN (DBNNode.inputs (options s)) ≠ None ∨
          DBNNode.INV_VARIANCE (DBNNode.inputs (options s)) ≠ None ∨
          DBNNode.EPSILON (DBNNode.inputs (options s)) ≠ None) ∧
       (code e = OK ∨ code e = ATTRIBUTE_NOT_SET).
Proof.
  unfold DBNNode.validate_node, DBNNode.present.
  destruct (DBNNode.MEAN (DBNNode.inputs (options s))) as [m|] eqn:Hm,
           (DBNNode.INV_VARIANCE (DBNNode.inputs (options s))) as [v|] eqn:Hv,
           (DBNNode.EPSILON (DBNNode.inputs (options s))) as [ep|] eqn:He;
    eexists; (split; [unfold mbind, M_bind, get_options; rewrite Hm, Hv, He; reflexivity|]);
    simpl; naive_solver.
Qed.

(** C8: BatchNorm [validate_node] returns ATTRIBUTE_NOT_SET when the forward
    phase is not set and OK otherwise, Rng [validate_node] returns
    ATTRIBUTE_NOT_SET when Y is absent and OK otherwise; both always return,
    in the state they were called in. *)
Theorem validate_node_spec :
  (∀ s : BatchNormNode.St,
     ∃ e, BatchNormNode.validate_node s = Ok (e, s) ∧
          (BatchNormNode.forward_phase (options s) = PHASE_NOT_SET →
             code e = ATTRIBUTE_NOT_SET) ∧
          (BatchNormNode.forward_phase (options s) ≠ PHASE_NOT_SET → code e = OK)) ∧
  (∀ s : RngNode.St,
     ∃ e, RngNode.validate_node s = Ok (e, s) ∧
          (RngNode.Y (RngNode.outputs (options s)) = None →
             code e = ATTRIBUTE_NOT_SET) ∧
          (RngNode.Y (RngNode.outputs (options s)) ≠ None → code e = OK)).
Proof.
  split; intros s.
  - unfold BatchNormNode.validate_node, mbind, M_bind, get_options.
    destruct (decide (BatchNormNode.forward_phase (options s) = PHASE_NOT_SET));
      eexists; (split; [reflexivity|]); simpl; naive_solver.
  - unfold RngNode.validate_node, mbind, M_bind, get_options.
    destruct (RngNode.Y (RngNode.outputs (options s))) eqn:HY;
      eexists; (split; [reflexivity|]); simpl; naive_solver.
Qed.

(** ** Identifier assignment *)

Lemma Node_assign_uids_eq n w :
  Node_assign_uids n w =
  if all_present (Node_mandatory_roles n)
  then Ok (mk_error OK "", assign_list (omap id (Node_uid_roles n)) w)
  else Undefined NullDeref.
Proof.
  destruct n as [o|o|o|o].
  - destruct o as [[x sc b prm prv ep mo] [y m iv nrm nrv] ph c].
    destruct x; [|done]. destruct sc; [|done]. destruct b; [|done].
    destruct prm; [|done]. destruct prv; [|done]. destruct ep; [|done].
    destruct mo; [|done]. destruct y; [|done]. destruct m; [|done].
    destruct iv; [|done]. destruct nrm; [|done]. destruct nrv; [|done].
    reflexivity.
  - destruct o as [[x dy sc m iv ep] [dx ds db] c].
    destruct x; [|done]. destruct dy; [|done]. destruct sc; [|done].
    destruct m; [|done]. destruct iv; [|done]. destruct dx; [|done].
    destruct ds; [|done]. destruct db; [|done]. reflexivity.
  - destruct o as [[w_ dy] [dx] pad st dil c].
    destruct dy; [|done]. destruct w_; [|done]. destruct dx; [|done].
    reflexivity.
  - destruct o as [[sd off] [y] dist pr sv].
    destruct sd, off, y; reflexivity.
Qed.



(** Every graph whose nodes have their mandatory roles runs to the end. *)
Lemma assign_uids_total nodes : ∀ w,
  Forall (λ n, all_present (Node_mandatory_roles n) = true) nodes →
  assign_uids nodes w = Ok (mk_error OK "", assign_list (graph_tensors nodes) w).
Proof.
  induction nodes as [|n nodes IH]; intros w Hall; simpl; [done|].
  destruct (Forall_cons_1 _ _ _ Hall) as [Hn Hall'].
  unfold CHECK_CUDNN_FRONTEND_ERROR. apply bind_Ok.
  exists (mk_error OK ""), (assign_list (omap id (Node_uid_roles n)) w). split.
  - by rewrite Node_assign_uids_eq, Hn.
  - simpl. rewrite IH by done. unfold graph_tensors, assign_list. simpl.
    by rewrite omap_app, foldl_app.
Qed.

Lemma assign_list_snoc l q w :
  assign_list (l ++ [q]) w = assign_one (assign_list l w) q.
Proof. unfold assign_list. by rewrite foldl_app. Qed.

(** What a sequence of assignments leaves behind. *)
Lemma assign_list_spec l : ∀ w,
  w_uid_counter (assign_list l w) = (w_uid_counter w + Z.of_nat (length l))%Z ∧
  (∀ p, dim (w_heap (assign_list l w) p) = dim (w_heap w p) ∧
        stride (w_heap (assign_list l w) p) = stride (w_heap w p) ∧
        is_virtual (w_heap (assign_list l w) p) = is_virtual (w_heap w p)) ∧
  (∀ p, p ∉ l → w_heap (assign_list l w) p = w_heap w p) ∧
  (∀ p, uid_assigned (w_heap w p) = true →
     w_heap (assign_list l w) p = w_heap w p) ∧
  (∀ p, p ∈ l → uid_assigned (w_heap (assign_list l w) p) = true) ∧
  (∀ p, p ∈ l → uid_assigned (w_heap w p) = false →
     (w_uid_counter w < uid (w_heap (assign_list l w) p)
        ≤ w_uid_counter (assign_list l w))%Z) ∧
  (∀ p q, p ∈ l → q ∈ l →
     uid_assigned (w_heap w p) = false → uid_assigned (w_heap w q) = false →
     p ≠ q →
     uid (w_heap (assign_list l w) p) ≠ uid (w_heap (assign_list l w) q)).
Proof.
  induction l as [|r l IH] using rev_ind; intros w.
  - simpl. split_and!; try done.
    + lia.
    + intros p Hp. by apply not_elem_of_nil in Hp.
    + intros p Hp. by apply not_elem_of_nil in Hp.
    + intros p q Hp. by apply not_elem_of_nil in Hp.
  - rewrite assign_list_snoc.
    destruct (IH w) as (Hc & Hsame & Hout & Hkept & Hset & Hin & Hinj).
    set (w1 := assign_list l w) in *.
    assert (∀ p, p ≠ r → w_heap (assign_one w1 r) p = w_heap w1 p) as Hne.
    { intros p Hp. simpl. by rewrite fn_lookup_insert_ne. }
    assert (w_heap (assign_one w1 r) r
              = assigned_once (w_uid_counter w1 + 1)%Z (w_heap w1 r)) as Hr.
    { simpl. by rewrite fn_lookup_insert. }
    assert (∀ p, p ∈ l ++ [r] → p ≠ r → p ∈ l) as Hmem.
    { intros p Hp Hpr. apply elem_of_app in Hp as [?|Hp]; [done|].
      by apply list_elem_of_singleton in Hp. }
    assert (uid_assigned (w_heap w r) = false →
            (w_uid_counter w < uid (w_heap (assign_one w1 r) r)
               ≤ w_uid_counter w1 + 1)%Z ∧
            (r ∉ l → uid (w_heap (assign_one w1 r) r) = (w_uid_counter w1 + 1)%Z))
      as Hfresh.
    { intros Hu. rewrite Hr. unfold assigned_once.
      destruct (decide (r ∈ l)) as [Hrl|Hrl].
      - rewrite (Hset r Hrl). specialize (Hin r Hrl Hu). split; [lia|done].
      - rewrite (Hout r Hrl), Hu. simpl. split; [lia|done]. }
    split_and!.
    + simpl. rewrite Hc, length_app. simpl. lia.
    + intros p. destruct (decide (p = r)) as [->|Hp].
      * rewrite Hr. unfold assigned_once.
        destruct (uid_assigned (w_heap w1 r)); apply Hsame.
      * rewrite Hne by done. apply Hsame.
    + intros p Hp. rewrite Hne.
      * apply Hout. intros ?. apply Hp, elem_of_app. by left.
      * intros ->. apply Hp, elem_of_app. right. by apply list_elem_of_singleton.
    + intros p Hp. destruct (decide (p = r)) as [->|Hpr].
      * rewrite Hr, (Hkept r Hp). unfold assigned_once. by rewrite Hp.
      * rewrite Hne by done. by apply Hkept.
    + intros p Hp. destruct (decide (p = r)) as [->|Hpr].
      * rewrite Hr. unfold assigned_once.
        by destruct (uid_assigned (w_heap w1 r)) eqn:E.
      * rewrite Hne by done. by apply Hset, Hmem.
    + intros p Hp Hu. destruct (decide (p = r)) as [->|Hpr].
      * destruct (Hfresh Hu) as [[Hlo Hhi] _]. split; [exact Hlo|exact Hhi].
      * rewrite Hne by done. specialize (Hin p (Hmem p Hp Hpr) Hu). simpl. lia.
    + intros p q Hp Hq Hup Huq Hpq.
      destruct (decide (p = r)) as [->|Hpr], (decide (q = r)) as [->|Hqr]; [done|..].
      * rewrite (Hne q) by done. pose proof (Hmem q Hq Hqr) as Hql.
        destruct (decide (r ∈ l)) as [Hrl|Hrl].
        -- rewrite Hr. unfold assigned_once. rewrite (Hset r Hrl). by apply Hinj.
        -- destruct (Hfresh Hup) as [_ Hf]. rewrite (Hf Hrl).
           specialize (Hin q Hql Huq). lia.
      * rewrite (Hne p) by done. pose proof (Hmem p Hp Hpr) as Hpl.
        destruct (decide (r ∈ l)) as [Hrl|Hrl].
        -- rewrite Hr. unfold assigned_once. rewrite (Hset r Hrl). by apply Hinj.
        -- destruct (Hfresh Huq) as [_ Hf]. rewrite (Hf Hrl).
           specialize (Hin p Hpl Hup). lia.
      * rewrite !Hne by done. apply Hinj; auto.
Qed.



(** ** Running forwards *)

Lemma bind_eval {S A B} (m : M S A) (k : A → M S B) s a s1 :
  m s = Ok (a, s1) → (m ≫= k) s = k a s1.
Proof. unfold mbind, M_bind. by intros ->. Qed.

Lemma bind_Undefined {S A B} (m : M S A) (k : A → M S B) s u :
  m s = Undefined u → (m ≫= k) s = Undefined u.
Proof. unfold mbind, M_bind. by intros ->. Qed.

Lemma CHECK_Ok {S} (x k : M S error_t) s e s' :
  CHECK_CUDNN_FRONTEND_ERROR x k s = Ok (e, s') →
  code e = OK →
  ∃ e1 s1, x s = Ok (e1, s1) ∧ code e1 = OK ∧ k s1 = Ok (e, s').
Proof.
  unfold CHECK_CUDNN_FRONTEND_ERROR. intros (e1 & s1 & Hx & H)%bind_Ok He.
  exists e1, s1. split; [done|]. unfold is_bad in H.
  destruct (decide (code e1 = OK)) as [Hc|Hc].
  - rewrite bool_decide_eq_false_2 in H by (by intros []). done.
  - rewrite bool_decide_eq_true_2 in H by done.
    apply ret_Ok in H as [-> _]. done.
Qed.

Lemma create_cudnn_tensor_Ok {A} build_error p (s : State A) e s' :
  create_cudnn_tensor build_error p s = Ok (e, s') →
  ∃ q, p = Some q ∧ options s' = options s ∧ heap s' = heap s.
Proof.
  unfold create_cudnn_tensor.
  intros (t & ? & (q & -> & -> & ->)%deref_Ok & H)%bind_Ok.
  exists q. split; [done|].
  destruct (build_error _) as [[]|]; by injection H as _ <-.
Qed.

Section InferTotal.
Context {A : Type}.
Variable generate_stride : list Z → list Z.
Implicit Types (s : State A) (q : ptr) (x : list Z).

Lemma infer_stride_total q s :
  ∃ s', infer_stride generate_stride (Some q) s = Ok ((), s') ∧
        options s' = options s.
Proof.
  unfold infer_stride. erewrite bind_eval by reflexivity.
  destruct (is_empty _); [|by eexists].
  erewrite bind_eval by reflexivity. by eexists.
Qed.

Lemma infer_like_x_total x q s :
  ∃ s', infer_like_x generate_stride x (Some q) s = Ok ((), s') ∧
        options s' = options s.
Proof.
  unfold infer_like_x. erewrite bind_eval by reflexivity.
  destruct (is_empty _).
  - erewrite bind_eval by reflexivity.
    match goal with |- context [infer_stride _ _ ?s2] =>
      destruct (infer_stride_total q s2) as (s' & Hs & Ho) end.
    exists s'. split; [exact Hs|by rewrite Ho].
  - erewrite bind_eval by reflexivity. apply infer_stride_total.
Qed.
End InferTotal.

(** ** DBN without saved statistics *)

Lemma dbn_infer_without_mean generate_stride context (s : DBNNode.St) :
  DBNNode.MEAN (DBNNode.inputs (options s)) = None →
  DBNNode.infer_properties_node generate_stride context s = Undefined NullDeref.
Proof.
  intros HM. unfold DBNNode.infer_properties_node.
  destruct (fill_all_total context
              [DBNNode.X (DBNNode.inputs (options s));
               DBNNode.DY (DBNNode.inputs (options s));
               DBNNode.SCALE (DBNNode.inputs (options s));
               DBNNode.MEAN (DBNNode.inputs (options s));
               DBNNode.INV_VARIANCE (DBNNode.inputs (options s));
               DBNNode.EPSILON (DBNNode.inputs (options s));
               DBNNode.DX (DBNNode.outputs (options s));
               DBNNode.DSCALE (DBNNode.outputs (options s));
               DBNNode.DBIAS (DBNNode.outputs (options s))] s) as (s0 & Hf & Ho & _).
  assert (∃ s1, DBNNode.fill_from_context context s = Ok ((), s1) ∧
                DBNNode.inputs (options s1) = DBNNode.inputs (options s) ∧
                DBNNode.outputs (options s1) = DBNNode.outputs (options s))
    as (s1 & Hfill & Hin & Hout).
  { unfold DBNNode.fill_from_context. erewrite bind_eval by reflexivity.
    erewrite bind_eval by exact Hf.
    destruct (decide _); eexists; (split; [reflexivity|]); simpl; by rewrite ?Ho. }
  erewrite bind_eval by exact Hfill. erewrite bind_eval by reflexivity.
  rewrite Hin, Hout, HM.
  destruct (DBNNode.X (DBNNode.inputs (options s))) as [px|]; [|done].
  erewrite bind_eval by reflexivity.
  destruct (DBNNode.DY (DBNNode.inputs (options s))) as [pdy|]; [|done].
  destruct (infer_like_x_total generate_stride (dim (heap s1 px)) pdy s1)
    as (s2 & H2 & _).
  erewrite bind_eval by exact H2.
  destruct (DBNNode.DX (DBNNode.outputs (options s))) as [pdx|]; [|done].
  destruct (infer_like_x_total generate_stride (dim (heap s1 px)) pdx s2)
    as (s3 & H3 & _).
  erewrite bind_eval by exact H3. reflexivity.
Qed.

Lemma dbn_infer_needs_statistics generate_stride context (s s' : DBNNode.St) e :
  DBNNode.infer_properties_node generate_stride context s = Ok (e, s') →
  DBNNode.MEAN (DBNNode.inputs (options s)) ≠ None ∧
  DBNNode.INV_VARIANCE (DBNNode.inputs (options s)) ≠ None.
Proof.
  unfold DBNNode.infer_properties_node. intros H.
  apply bind_Ok in H as (? & s1 & Hfill & H).
  apply dbn_fill_from_context_Ok in Hfill as (Hin & _ & _).
  apply bind_Ok in H as (? & ? & [-> ->]%get_options_Ok & H).
  rewrite Hin in H. invert_run.
  repeat match goal with
  | H : infer_per_channel_tensors _ _ _ _ = Ok _ |- _ =>
      apply infer_per_channel_tensors_Ok in H as (? & ? & _)
  end.
  split; congruence.
Qed.

Lemma dbn_assign_uids_without_statistics (s : DBNNode.St) :
  DBNNode.MEAN (DBNNode.inputs (options s)) = None ∨
  DBNNode.INV_VARIANCE (DBNNode.inputs (options s)) = None →
  DBNNode.assign_uids_node s = Undefined NullDeref.
Proof.
  destruct s as [[[x dy sc m iv ep] [dx ds db] c] h n ts ops]. simpl.
  intros Hnone. unfold DBNNode.assign_uids_node.
  destruct x; [|done]. destruct dy; [|done]. destruct sc; [|done].
  destruct m; [|done]. destruct iv; [|done]. by destruct Hnone.
Qed.

Lemma dbn_createTensors_needs_statistics build_error (s s' : DBNNode.St) e :
  DBNNode.createTensors build_error s = Ok (e, s') →
  code e = OK →
  DBNNode.MEAN (DBNNode.inputs (options s)) ≠ None ∧
  DBNNode.INV_VARIANCE (DBNNode.inputs (options s)) ≠ None.
Proof.
  unfold DBNNode.createTensors. intros H He.
  apply bind_Ok in H as (? & ? & [-> ->]%get_options_Ok & H).
  apply CHECK_Ok in H as (? & s1 & _ & _ & H); [|done].
  apply CHECK_Ok in H as (? & s2 & _ & _ & H); [|done].
  apply CHECK_Ok in H as (? & s3 & _ & _ & H); [|done].
  apply CHECK_Ok in H as (? & s4 & (? & HM & _)%create_cudnn_tensor_Ok & _ & H);
    [|done].
  apply CHECK_Ok in H as (? & s5 & (? & HV & _)%create_cudnn_tensor_Ok & _ & H);
    [|done].
  split; congruence.
Qed.

(** C9: [validate_node] accepts a DBN node that has EPSILON and neither MEAN
    nor INV_VARIANCE; without MEAN [infer_properties_node] runs into a null
    dereference, and so does [assign_uids_node] without either of the two;
    a run of [infer_properties_node], [assign_uids_node] or (with status OK)
    [createTensors] that returns had both of them. *)
Theorem dbn_stages_need_saved_statistics :
  (∀ s : DBNNode.St,
     DBNNode.MEAN (DBNNode.inputs (options s)) = None →
     DBNNode.INV_VARIANCE (DBNNode.inputs (options s)) = None →
     DBNNode.EPSILON (DBNNode.inputs (options s)) ≠ None →
     DBNNode.validate_node s = Ok (mk_error OK "", s)) ∧
  (∀ generate_stride context (s : DBNNode.St),
     DBNNode.MEAN (DBNNode.inputs (options s)) = None →
     DBNNode.infer_properties_node generate_stride context s
       = Undefined NullDeref) ∧
  (∀ s : DBNNode.St,
     DBNNode.MEAN (DBNNode.inputs (options s)) = None ∨
     DBNNode.INV_VARIANCE (DBNNode.inputs (options s)) = None →
     DBNNode.assign_uids_node s = Undefined NullDeref) ∧
  (∀ generate_stride context build_error (s s' : DBNNode.St) e,
     DBNNode.infer_properties_node generate_stride context s = Ok (e, s') ∨
     DBNNode.assign_uids_node s = Ok (e, s') ∨
     (DBNNode.createTensors build_error s = Ok (e, s') ∧ code e = OK) →
     DBNNode.MEAN (DBNNode.inputs (options s)) ≠ None ∧
     DBNNode.INV_VARIANCE (DBNNode.inputs (options s)) ≠ None).
Proof.
  split_and!.
  - intros s HM HV HE. unfold DBNNode.validate_node, DBNNode.present.
    erewrite bind_eval by reflexivity. rewrite HM, HV.
    destruct (DBNNode.EPSILON _); done.
  - apply dbn_infer_without_mean.
  - apply dbn_assign_uids_without_statistics.
  - intros generate_stride context build_error s s' e [H|[H|[H He]]].
    + by eapply dbn_infer_needs_statistics.
    + destruct (DBNNode.MEAN (DBNNode.inputs (options s))) eqn:HM;
        [destruct (DBNNode.INV_VARIANCE (DBNNode.inputs (options s))) eqn:HV|].
      * done.
      * rewrite dbn_assign_uids_without_statistics in H by (by right). done.
      * rewrite dbn_assign_uids_without_statistics in H by (by left). done.
    + by eapply dbn_createTensors_needs_statistics.
Qed.

Lemma dbn_stages_need_saved_statistics_witness :
  DBNNode.validate_node dbn_epsilon_only = Ok (mk_error OK "", dbn_epsilon_only) ∧
  DBNNode.infer_properties_node packed_stride sample_context dbn_epsilon_only
    = Undefined NullDeref ∧
  DBNNode.assign_uids_node dbn_epsilon_only = Undefined NullDeref.
Proof.
  destruct dbn_stages_need_saved_statistics as (Hv & Hi & Ha & _).
  split_and!.
  - apply Hv; [reflexivity|reflexivity|discriminate].
  - apply Hi. reflexivity.
  - apply Ha. left. reflexivity.
Defined.

(** ** Lowering: the identifiers of an operation record *)

Section Lowering.
Context {A : Type}.
Implicit Types (s : State A) (T : shared_ptr) (q : ptr).

Lemma try_rethrow_Ok {B} (m : M (State A) B) s b s' :
  try_rethrow m s = Ok (b, s') → m s = Ok (b, s').
Proof. unfold try_rethrow. by destruct (m s) as [|?|[]]. Qed.

Lemma tensors_at_Ok u s t s' :
  tensors_at u s = Ok (t, s') ↔ tensors s !! u = Some t ∧ s' = s.
Proof. unfold tensors_at. destruct (tensors s !! u); naive_solver. Qed.

Lemma handle_Ok T s t s' :
  handle T s = Ok (t, s') ↔
  ∃ q, T = Some q ∧ tensors s !! uid (heap s q) = Some t ∧ s' = s.
Proof.
  unfold handle. rewrite bind_Ok. setoid_rewrite get_uid_Ok.
  setoid_rewrite tensors_at_Ok. naive_solver.
Qed.

Lemma handle2_Ok b T1 T2 s p s' :
  handle2 b T1 T2 s = Ok (p, s') ↔
  ∃ q1 q2 t1 t2, p = (t1, t2) ∧ T1 = Some q1 ∧ T2 = Some q2 ∧
    tensors s !! uid (heap s q1) = Some t1 ∧
    tensors s !! uid (heap s q2) = Some t2 ∧ s' = s.
Proof.
  unfold handle2. split.
  - destruct b; intros H;
      apply bind_Ok in H as (t & ? & (q & -> & Ht & ->)%handle_Ok & H);
      apply bind_Ok in H as (t' & ? & (q' & -> & Ht' & ->)%handle_Ok & H);
      apply ret_Ok in H as [-> ->]; eexists _, _, _, _; split_and!; done.
  - intros (q1 & q2 & t1 & t2 & -> & -> & -> & H1 & H2 & ->).
    destruct b;
      (erewrite bind_eval by (apply handle_Ok; eauto));
      (erewrite bind_eval by (apply handle_Ok; eauto)); reflexivity.
Qed.

Lemma build_Ok build_error d s u s' :
  build build_error d s = Ok (u, s') ↔ build_error d = None ∧ s' = s.
Proof.
  unfold build. destruct u, (build_error d) as [[]|].
  - unfold throw. split; [done|]. by intros [? _].
  - rewrite ret_Ok. split; [by intros [_ ->]|by intros [_ ->]].
Qed.

Lemma operations_push_back_Ok op uids s u s' :
  operations_push_back op uids s = Ok (u, s') ↔
  s' = mk_state (options s) (heap s) (uid_counter s) (tensors s)
         (operations s ++ [(op, uids)]).
Proof. unfold operations_push_back. destruct u. naive_solver. Qed.

Lemma real_uids_cons h T l :
  real_uids h (T :: l) =
  match T with
  | Some q => if is_virtual (h q) then real_uids h l else uid (h q) :: real_uids h l
  | None => real_uids h l
  end.
Proof.
  unfold real_uids. destruct T as [q|]; simpl; [|done].
  rewrite filter_cons. case_decide as Hv; destruct (is_virtual (h q)); done.
Qed.

(** The loop over [tensors_involved_in_operation] always runs to its end
    and leaves the state alone. *)
Lemma collect_uids_eq l : ∀ acc s,
  collect_uids l acc s = Ok (acc ++ real_uids (heap s) l, s).
Proof.
  induction l as [|T l IH]; intros acc s; simpl.
  - unfold real_uids. simpl. by rewrite app_nil_r.
  - rewrite real_uids_cons. destruct T as [q|]; [|apply IH].
    erewrite bind_eval by reflexivity.
    destruct (is_virtual (heap s q)); simpl.
    + apply IH.
    + erewrite bind_eval by reflexivity. rewrite IH. by rewrite <- app_assoc.
Qed.

Lemma collect_uids_Ok l s uids s' :
  collect_uids l [] s = Ok (uids, s') ↔ uids = real_uids (heap s) l ∧ s' = s.
Proof. rewrite collect_uids_eq. simpl. naive_solver. Qed.
End Lowering.

(** Membership in the identifiers of an operation record. *)
Lemma elem_of_real_uids h l u :
  u ∈ real_uids h l ↔ ∃ q, Some q ∈ l ∧ is_virtual (h q) = false ∧ uid (h q) = u.
Proof.
  unfold real_uids. rewrite list_elem_of_fmap. split.
  - intros (q & -> & [Hv Hq]%list_elem_of_filter). exists q.
    split; [|done]. apply list_elem_of_omap in Hq as (T & HT & HTq).
    simpl in HTq. by subst.
  - intros (q & Hq & Hv & <-). exists q. split; [done|].
    apply list_elem_of_filter. split; [done|].
    apply list_elem_of_omap. by exists (Some q).
Qed.

Ltac invert_ops :=
  repeat match goal with
  | H : try_rethrow _ _ = Ok _ |- _ => apply try_rethrow_Ok in H
  | H : (_ ≫= _) _ = Ok _ |- _ => apply bind_Ok in H as (? & ? & ? & H)
  | H : mret _ _ = Ok _ |- _ => apply ret_Ok in H as [? ?]; subst
  | H : get_options _ = Ok _ |- _ => apply get_options_Ok in H as [? ?]; subst
  | H : handle _ _ = Ok _ |- _ => apply handle_Ok in H as (? & ? & ? & ?); subst
  | H : handle2 _ _ _ _ = Ok _ |- _ =>
      apply handle2_Ok in H as (? & ? & ? & ? & ? & ? & ? & ? & ? & ?); subst
  | H : build _ _ _ = Ok _ |- _ => apply build_Ok in H as [? ?]; subst
  | H : vec_data _ _ _ = Ok _ |- _ => apply vec_data_Ok in H as (? & ? & ?); subst
  | H : collect_uids _ [] _ = Ok _ |- _ => apply collect_uids_Ok in H as [? ?]; subst
  | H : operations_push_back _ _ _ = Ok _ |- _ =>
      apply operations_push_back_Ok in H; subst
  | u : () |- _ => destruct u
  end.

Lemma batchnorm_createOperations_Ok build_error second_first (s s' : BatchNormNode.St) e :
  BatchNormNode.createOperations build_error second_first s = Ok (e, s') →
  e = mk_error OK "" ∧ heap s' = heap s ∧
  ∃ op, operations s' = operations s ++
          [(op, real_uids (heap s)
                  (BatchNormNode.tensors_involved_in_operation (options s)))].
Proof.
  unfold BatchNormNode.createOperations. intros H. invert_ops.
  split; [done|]. split; [done|]. by eexists.
Qed.

Lemma dbn_createOperations_Ok build_error second_first (s s' : DBNNode.St) e :
  DBNNode.createOperations build_error second_first s = Ok (e, s') →
  e = mk_error OK "" ∧ heap s' = heap s ∧
  ∃ op, operations s' = operations s ++
          [(op, real_uids (heap s)
                  (DBNNode.tensors_involved_in_operation (options s)))].
Proof.
  unfold DBNNode.createOperations. intros H. invert_ops.
  split; [done|]. split; [done|]. by eexists.
Qed.

Lemma dgrad_createOperations_Ok build_error (s s' : DgradNode.St) e :
  DgradNode.createOperations build_error s = Ok (e, s') →
  e = mk_error OK "" ∧ heap s' = heap s ∧
  ∃ op, operations s' = operations s ++
          [(op, real_uids (heap s)
                  (DgradNode.tensors_involved_in_operation (options s)))].
Proof.
  unfold DgradNode.createOperations. intros H. invert_ops.
  split; [done|]. split; [done|]. by eexists.
Qed.

(** ** Rng: lowering *)

Lemma try_rethrow_eval {S B} (m : M S B) s r :
  m s = Ok r → try_rethrow m s = Ok r.
Proof. unfold try_rethrow. by intros ->. Qed.

Lemma try_rethrow_Undefined {S B} (m : M S B) s u :
  m s = Undefined u → try_rethrow m s = Undefined u.
Proof. unfold try_rethrow. by intros ->. Qed.

(** The descriptor [createOperations] builds for a Bernoulli node. *)
Lemma rng_createOperations_Ok build_error (s s' : RngNode.St) e :
  RngNode.createOperations build_error s = Ok (e, s') →
  e = mk_error OK "" ∧ heap s' = heap s ∧
  if decide (RngNode.distribution (options s) = BERNOULLI) then
    ∃ pr py hy,
      RngNode.bernoulli_probability (options s) = Some pr ∧
      build_error (RngDescriptor (mk_RngDesc BERNOULLI pr)) = None ∧
      RngNode.Y (RngNode.outputs (options s)) = Some py ∧
      tensors s !! uid (heap s py) = Some hy ∧
      match RngNode.Seed (RngNode.inputs (options s)) with
      | Some ps =>
          ∃ po hs ho,
            RngNode.Offset (RngNode.inputs (options s)) = Some po ∧
            tensors s !! uid (heap s ps) = Some hs ∧
            tensors s !! uid (heap s po) = Some ho ∧
            operations s' = operations s ++
              [(OPERATION_RNG hy (mk_RngDesc BERNOULLI pr) (SeedTensors hs ho),
                real_uids (heap s)
                  (RngNode.tensors_involved_in_operation (options s)))]
      | None =>
          ∃ sv,
            RngNode.seed (options s) = Some sv ∧
            operations s' = operations s ++
              [(OPERATION_RNG hy (mk_RngDesc BERNOULLI pr) (SeedValue sv),
                real_uids (heap s)
                  (RngNode.tensors_involved_in_operation (options s)))]
      end
  else s' = s.
Proof.
  unfold RngNode.createOperations. intros H.
  apply bind_Ok in H as ([] & s1 & H%try_rethrow_Ok & [-> ->]%ret_Ok).
  apply bind_Ok in H as (? & ? & [-> ->]%get_options_Ok & H).
  split; [done|].
  destruct (decide (RngNode.distribution (options s) = BERNOULLI)) as [Hd|Hd];
    [|by apply ret_Ok in H as [_ ->]].
  rewrite Hd in H.
  apply bind_Ok in H as (pr & ? & Hpr & H).
  destruct (RngNode.bernoulli_probability (options s)) as [pr'|]; [|done].
  apply ret_Ok in Hpr as [-> ->].
  apply bind_Ok in H as ([] & ? & [Hdesc ->]%build_Ok & H).
  destruct (RngNode.Seed (RngNode.inputs (options s))) as [ps|] eqn:HS.
  - rewrite bool_decide_eq_true_2 in H by done. invert_ops.
    match goal with H : Some _ = Some _ |- _ => injection H as <- end.
    split; [done|]. eexists _, _, _. split_and!; try done.
    eexists _, _, _. split_and!; done.
  - rewrite bool_decide_eq_false_2 in H by (by intros []).
    apply bind_Ok in H as (hy & ? & (py & HY & Hhy & ->)%handle_Ok & H).
    apply bind_Ok in H as (sv & ? & Hsv & H).
    destruct (RngNode.seed (options s)) as [sv'|]; [|done].
    apply ret_Ok in Hsv as [-> ->]. invert_ops.
    split; [done|]. eexists _, _, _. split_and!; try done. by eexists.
Qed.

Lemma build_eval {A} build_error d (s : State A) :
  build_error d = None → build build_error d s = Ok ((), s).
Proof. intros H. by apply build_Ok. Qed.

Lemma rng_createOperations_other build_error (s : RngNode.St) :
  RngNode.distribution (options s) ≠ BERNOULLI →
  RngNode.createOperations build_error s = Ok (mk_error OK "", s).
Proof.
  intros Hd. unfold RngNode.createOperations.
  erewrite bind_eval; [reflexivity|]. apply try_rethrow_eval.
  erewrite bind_eval by reflexivity. by rewrite decide_False.
Qed.

Lemma rng_createOperations_dynamic build_error (s : RngNode.St) ps po py pr hs ho hy :
  RngNode.distribution (options s) = BERNOULLI →
  RngNode.bernoulli_probability (options s) = Some pr →
  RngNode.Seed (RngNode.inputs (options s)) = Some ps →
  RngNode.Offset (RngNode.inputs (options s)) = Some po →
  RngNode.Y (RngNode.outputs (options s)) = Some py →
  tensors s !! uid (heap s ps) = Some hs →
  tensors s !! uid (heap s po) = Some ho →
  tensors s !! uid (heap s py) = Some hy →
  build_error (RngDescriptor (mk_RngDesc BERNOULLI pr)) = None →
  build_error (OperationDescriptor
     (OPERATION_RNG hy (mk_RngDesc BERNOULLI pr) (SeedTensors hs ho))) = None →
  RngNode.createOperations build_error s =
  Ok (mk_error OK "",
      mk_state (options s) (heap s) (uid_counter s) (tensors s)
        (operations s ++
           [(OPERATION_RNG hy (mk_RngDesc BERNOULLI pr) (SeedTensors hs ho),
             real_uids (heap s)
               (RngNode.tensors_involved_in_operation (options s)))])).
Proof.
  intros Hd Hpr HS HO HY Hhs Hho Hhy Hb1 Hb2. unfold RngNode.createOperations.
  erewrite bind_eval; [reflexivity|]. apply try_rethrow_eval.
  erewrite bind_eval by reflexivity. rewrite Hd, Hpr, HS, HO, HY.
  rewrite decide_True by done. erewrite bind_eval by reflexivity.
  erewrite bind_eval by (by apply build_eval).
  rewrite bool_decide_eq_true_2 by done.
  erewrite bind_eval by (apply handle_Ok; eauto).
  erewrite bind_eval by (apply handle_Ok; eauto).
  erewrite bind_eval by (apply handle_Ok; eauto).
  erewrite bind_eval by (by apply build_eval).
  erewrite bind_eval by apply collect_uids_eq.
  unfold RngNode.tensors_involved_in_operation. by rewrite HS, HO, HY.
Qed.

Lemma rng_createOperations_static build_error (s : RngNode.St) py pr sv hy :
  RngNode.distribution (options s) = BERNOULLI →
  RngNode.bernoulli_probability (options s) = Some pr →
  RngNode.Seed (RngNode.inputs (options s)) = None →
  RngNode.seed (options s) = Some sv →
  RngNode.Y (RngNode.outputs (options s)) = Some py →
  tensors s !! uid (heap s py) = Some hy →
  build_error (RngDescriptor (mk_RngDesc BERNOULLI pr)) = None →
  build_error (OperationDescriptor
     (OPERATION_RNG hy (mk_RngDesc BERNOULLI pr) (SeedValue sv))) = None →
  RngNode.createOperations build_error s =
  Ok (mk_error OK "",
      mk_state (options s) (heap s) (uid_counter s) (tensors s)
        (operations s ++
           [(OPERATION_RNG hy (mk_RngDesc BERNOULLI pr) (SeedValue sv),
             real_uids (heap s)
               (RngNode.tensors_involved_in_operation (options s)))])).
Proof.
  intros Hd Hpr HS Hsv HY Hhy Hb1 Hb2. unfold RngNode.createOperations.
  erewrite bind_eval; [reflexivity|]. apply try_rethrow_eval.
  erewrite bind_eval by reflexivity. rewrite Hd, Hpr, HS, Hsv, HY.
  rewrite decide_True by done. erewrite bind_eval by reflexivity.
  erewrite bind_eval by (by apply build_eval).
  rewrite bool_decide_eq_false_2 by (by intros []).
  erewrite bind_eval by (apply handle_Ok; eauto).
  erewrite bind_eval by reflexivity.
  erewrite bind_eval by (by apply build_eval).
  erewrite bind_eval by apply collect_uids_eq.
  unfold RngNode.tensors_involved_in_operation. by rewrite HS, HY.
Qed.

Lemma rng_createOperations_seed_without_offset build_error (s : RngNode.St)
    ps py pr hs hy :
  RngNode.distribution (options s) = BERNOULLI →
  RngNode.bernoulli_probability (options s) = Some pr →
  RngNode.Seed (RngNode.inputs (options s)) = Some ps →
  RngNode.Offset (RngNode.inputs (options s)) = None →
  RngNode.Y (RngNode.outputs (options s)) = Some py →
  tensors s !! uid (heap s ps) = Some hs →
  tensors s !! uid (heap s py) = Some hy →
  build_error (RngDescriptor (mk_RngDesc BERNOULLI pr)) = None →
  RngNode.createOperations build_error s = Undefined NullDeref.
Proof.
  intros Hd Hpr HS HO HY Hhs Hhy Hb1. unfold RngNode.createOperations.
  apply bind_Undefined, try_rethrow_Undefined.
  erewrite bind_eval by reflexivity. rewrite Hd, Hpr, HS, HO, HY.
  rewrite decide_True by done. erewrite bind_eval by reflexivity.
  erewrite bind_eval by (by apply build_eval).
  rewrite bool_decide_eq_true_2 by done.
  erewrite bind_eval by (apply handle_Ok; eauto).
  erewrite bind_eval by (apply handle_Ok; eauto).
  reflexivity.
Qed.

(** C4: with the Bernoulli distribution and Seed supplied, a run of
    [createOperations] that returns has appended exactly one operation, made
    of the backend tensors of Y, Seed and Offset; with the Bernoulli
    distribution and no Seed, exactly one operation made of the backend
    tensor of Y and the seed value; such runs return whenever the roles, the
    backend tensors and the values they read are there and the backend
    accepts the descriptors.  With any other distribution the run returns OK
    and leaves the node as it was. *)
Theorem rng_createOperations_spec :
  (∀ build_error (s s' : RngNode.St) e ps,
     RngNode.createOperations build_error s = Ok (e, s') →
     RngNode.distribution (options s) = BERNOULLI →
     RngNode.Seed (RngNode.inputs (options s)) = Some ps →
     ∃ po py pr hs ho hy,
       RngNode.Offset (RngNode.inputs (options s)) = Some po ∧
       RngNode.Y (RngNode.outputs (options s)) = Some py ∧
       tensors s !! uid (heap s ps) = Some hs ∧
       tensors s !! uid (heap s po) = Some ho ∧
       tensors s !! uid (heap s py) = Some hy ∧
       code e = OK ∧
       operations s' = operations s ++
         [(OPERATION_RNG hy (mk_RngDesc BERNOULLI pr) (SeedTensors hs ho),
           real_uids (heap s)
             (RngNode.tensors_involved_in_operation (options s)))]) ∧
  (∀ build_error (s s' : RngNode.St) e,
     RngNode.createOperations build_error s = Ok (e, s') →
     RngNode.distribution (options s) = BERNOULLI →
     RngNode.Seed (RngNode.inputs (options s)) = None →
     ∃ py pr sv hy,
       RngNode.Y (RngNode.outputs (options s)) = Some py ∧
       RngNode.seed (options s) = Some sv ∧
       tensors s !! uid (heap s py) = Some hy ∧
       code e = OK ∧
       operations s' = operations s ++
         [(OPERATION_RNG hy (mk_RngDesc BERNOULLI pr) (SeedValue sv),
           real_uids (heap s)
             (RngNode.tensors_involved_in_operation (options s)))]) ∧
  (∀ build_error (s : RngNode.St) ps po py pr hs ho hy,
     RngNode.distribution (options s) = BERNOULLI →
     RngNode.bernoulli_probability (options s) = Some pr →
     RngNode.Seed (RngNode.inputs (options s)) = Some ps →
     RngNode.Offset (RngNode.inputs (options s)) = Some po →
     RngNode.Y (RngNode.outputs (options s)) = Some py →
     tensors s !! uid (heap s ps) = Some hs →
     tensors s !! uid (heap s po) = Some ho →
     tensors s !! uid (heap s py) = Some hy →
     build_error (RngDescriptor (mk_RngDesc BERNOULLI pr)) = None →
     build_error (OperationDescriptor
        (OPERATION_RNG hy (mk_RngDesc BERNOULLI pr) (SeedTensors hs ho))) = None →
     ∃ s', RngNode.createOperations build_error s = Ok (mk_error OK "", s')) ∧
  (∀ build_error (s : RngNode.St) py pr sv hy,
     RngNode.distribution (options s) = BERNOULLI →
     RngNode.bernoulli_probability (options s) = Some pr →
     RngNode.Seed (RngNode.inputs (options s)) = None →
     RngNode.seed (options s) = Some sv →
     RngNode.Y (RngNode.outputs (options s)) = Some py →
     tensors s !! uid (heap s py) = Some hy →
     build_error (RngDescriptor (mk_RngDesc BERNOULLI pr)) = None →
     build_error (OperationDescriptor
        (OPERATION_RNG hy (mk_RngDesc BERNOULLI pr) (SeedValue sv))) = None →
     ∃ s', RngNode.createOperations build_error s = Ok (mk_error OK "", s')) ∧
  (∀ build_error (s : RngNode.St),
     RngNode.distribution (options s) ≠ BERNOULLI →
     RngNode.createOperations build_error s = Ok (mk_error OK "", s)).
Proof.
  split_and!.
  - intros build_error s s' e ps H Hd HS.
    apply rng_createOperations_Ok in H as (-> & _ & H).
    rewrite decide_True in H by done.
    destruct H as (pr & py & hy & _ & _ & HY & Hhy & H). rewrite HS in H.
    destruct H as (po & hs & ho & HO & Hhs & Hho & H).
    by eexists po, py, pr, hs, ho, hy.
  - intros build_error s s' e H Hd HS.
    apply rng_createOperations_Ok in H as (-> & _ & H).
    rewrite decide_True in H by done.
    destruct H as (pr & py & hy & _ & _ & HY & Hhy & H). rewrite HS in H.
    destruct H as (sv & Hsv & H). by eexists py, pr, sv, hy.
  - intros. eexists. by eapply rng_createOperations_dynamic.
  - intros. eexists. by eapply rng_createOperations_static.
  - apply rng_createOperations_other.
Qed.

Lemma rng_createOperations_spec_witness :
  (∃ s', RngNode.createOperations accept_all rng_dynamic = Ok (mk_error OK "", s')) ∧
  (∃ s', RngNode.createOperations accept_all rng_static = Ok (mk_error OK "", s')) ∧
  RngNode.createOperations accept_all rng_uniform = Ok (mk_error OK "", rng_uniform).
Proof.
  destruct rng_createOperations_spec as (_ & _ & Hdyn & Hsta & Hoth).
  split_and!.
  - apply (Hdyn accept_all rng_dynamic 1%positive 2%positive 3%positive one_half
             (BackendTensor (rng_tensor 1%Z)) (BackendTensor (rng_tensor 2%Z))
             (BackendTensor (rng_tensor 3%Z))); reflexivity.
  - apply (Hsta accept_all rng_static 3%positive one_half 42%Z
             (BackendTensor (rng_tensor 3%Z))); reflexivity.
  - apply Hoth. discriminate.
Defined.

(** ** Rng: Seed without Offset *)

Lemma rng_assign_uids_total (s : RngNode.St) :
  RngNode.Y (RngNode.outputs (options s)) ≠ None →
  ∃ s', RngNode.assign_uids_node s = Ok (mk_error OK "", s').
Proof.
  destruct s as [[[sd off] [y] dist pr sv] h n ts ops]. simpl. intros HY.
  destruct y as [py|]; [|done]. destruct sd, off; by eexists.
Qed.

Lemma rng_createTensors_seed_without_offset (s : RngNode.St) :
  RngNode.Seed (RngNode.inputs (options s)) ≠ None →
  RngNode.Offset (RngNode.inputs (options s)) = None →
  RngNode.Y (RngNode.outputs (options s)) ≠ None →
  ∃ s', RngNode.createTensors accept_all s = Ok (mk_error OK "", s').
Proof.
  destruct s as [[[sd off] [y] dist pr sv] h n ts ops]. simpl. intros HS -> HY.
  destruct y as [py|], sd as [ps|]; try done.
  unfold RngNode.createTensors, CHECK_CUDNN_FRONTEND_ERROR, create_cudnn_tensor.
  unfold mbind, M_bind, get_options, deref, mret, M_ret. simpl. by eexists.
Qed.

(** C10: with the Bernoulli distribution, Seed supplied and Offset absent,
    [createOperations] dereferences the null Offset once the backend tensors
    of Y and Seed have been found; a run that returns had Offset, and returns
    the status OK, there being no other status; [assign_uids_node] and
    [createTensors] return for such a node, Offset being tested there on its
    own. *)
Theorem rng_dynamic_seeding_needs_offset :
  (∀ build_error (s : RngNode.St) ps py pr hs hy,
     RngNode.distribution (options s) = BERNOULLI →
     RngNode.bernoulli_probability (options s) = Some pr →
     RngNode.Seed (RngNode.inputs (options s)) = Some ps →
     RngNode.Offset (RngNode.inputs (options s)) = None →
     RngNode.Y (RngNode.outputs (options s)) = Some py →
     tensors s !! uid (heap s ps) = Some hs →
     tensors s !! uid (heap s py) = Some hy →
     build_error (RngDescriptor (mk_RngDesc BERNOULLI pr)) = None →
     RngNode.createOperations build_error s = Undefined NullDeref) ∧
  (∀ build_error (s s' : RngNode.St) e,
     RngNode.createOperations build_error s = Ok (e, s') →
     e = mk_error OK "" ∧
     (RngNode.distribution (options s) = BERNOULLI →
      RngNode.Seed (RngNode.inputs (options s)) ≠ None →
      RngNode.Offset (RngNode.inputs (options s)) ≠ None)) ∧
  (∀ s : RngNode.St,
     RngNode.Seed (RngNode.inputs (options s)) ≠ None →
     RngNode.Offset (RngNode.inputs (options s)) = None →
     RngNode.Y (RngNode.outputs (options s)) ≠ None →
     (∃ s', RngNode.assign_uids_node s = Ok (mk_error OK "", s')) ∧
     (∃ s', RngNode.createTensors accept_all s = Ok (mk_error OK "", s'))).
Proof.
  split_and!.
  - intros. by eapply rng_createOperations_seed_without_offset.
  - intros build_error s s' e H.
    apply rng_createOperations_Ok in H as (-> & _ & H). split; [done|].
    intros Hd HS. rewrite decide_True in H by done.
    destruct H as (pr & py & hy & _ & _ & _ & _ & H).
    destruct (RngNode.Seed (RngNode.inputs (options s))); [|done].
    destruct H as (po & _ & _ & -> & _). done.
  - intros s HS HO HY. split.
    + by apply rng_assign_uids_total.
    + by apply rng_createTensors_seed_without_offset.
Qed.

Lemma rng_dynamic_seeding_needs_offset_witness :
  RngNode.createOperations accept_all rng_seed_without_offset = Undefined NullDeref ∧
  (∃ s', RngNode.assign_uids_node rng_seed_without_offset = Ok (mk_error OK "", s')).
Proof.
  destruct rng_dynamic_seeding_needs_offset as (Hnull & _ & Hother).
  split.
  - apply (Hnull accept_all rng_seed_without_offset 1%positive 3%positive one_half
             (BackendTensor (rng_tensor 1%Z)) (BackendTensor (rng_tensor 3%Z)));
      reflexivity.
  - apply Hother; [discriminate|reflexivity|discriminate].
Defined.

(** ** The record of an operation *)









Lemma validate_node_spec_witness :
  (∃ e, BatchNormNode.validate_node batchnorm_sample = Ok (e, batchnorm_sample) ∧
        code e = OK) ∧
  (∃ e, RngNode.validate_node rng_dynamic = Ok (e, rng_dynamic) ∧ code e = OK).
Proof.
  destruct validate_node_spec as [Hb Hr]. split.
  - destruct (Hb batchnorm_sample) as (e & H & _ & Hok). exists e.
    split; [exact H|]. apply Hok. discriminate.
  - destruct (Hr rng_dynamic) as (e & H & _ & Hok). exists e.
    split; [exact H|]. apply Hok. discriminate.
Defined.

Lemma dbn_validate_node_spec_witness :
  ∃ e, DBNNode.validate_node dbn_epsilon_only = Ok (e, dbn_epsilon_only) ∧
       code e = OK.
Proof.
  destruct (dbn_validate_node_spec dbn_epsilon_only) as (e & H & _ & Hok & _).
  exists e. split; [exact H|]. apply Hok. right. right. discriminate.
Defined.

(** * Further properties *)

(** ** Inference blocks *)

Section Blocks.
Context {A : Type}.
Variable generate_stride : list Z → list Z.
Variable x : list Z.
Implicit Types (s : State A) (T : shared_ptr) (q : ptr) (k : infer_kind).

Lemma block_dim_nil k : x = [] → block_dim k x = [].
Proof. intros ->. by destruct k. Qed.

Lemma infer_block_Ok k T s u s' :
  infer_block generate_stride x k T s = Ok (u, s') →
  ∃ q, T = Some q ∧
       stores s s' q (fill_stride generate_stride (fill_dim (block_dim k x) (heap s q))) ∧
       (dim (heap s q) = [] → block_dim k x = [] → x = []).
Proof.
  destruct k; simpl.
  - intros (q & -> & H)%infer_like_x_Ok. by exists q.
  - intros (q & -> & H & Hx)%infer_per_channel_tensors_Ok. exists q.
    split; [done|]. split; [done|]. intros Hd%Hx E.
    apply (f_equal length) in E. rewrite per_channel_dim_length in E.
    simpl in E. lia.
  - intros (q & -> & H)%infer_scalar_tensors_Ok. exists q.
    split; [done|]. split; [done|]. intros _ E. apply (f_equal length) in E.
    rewrite length_replicate in E. by destruct x.
Qed.

Lemma infer_block_total k q s :
  (k = PerChannel → dim (heap s q) = [] → 2 <= length x) →
  ∃ s', infer_block generate_stride x k (Some q) s = Ok ((), s').
Proof.
  intros Hx. destruct k; simpl.
  - destruct (infer_like_x_total generate_stride x q s) as (s' & H & _). eauto.
  - unfold infer_per_channel_tensors. erewrite bind_eval by reflexivity.
    destruct (is_empty (dim (heap s q))) eqn:He.
    + apply is_empty_true in He. specialize (Hx eq_refl He).
      destruct (x !! 1) as [x1|] eqn:Hx1;
        [|apply lookup_ge_None in Hx1; lia].
      rewrite He, resize_nil.
      erewrite bind_eval; cycle 1.
      { erewrite bind_eval by (by apply vec_at_Ok).
        erewrite bind_eval; [reflexivity|].
        apply vec_assign_Ok. rewrite length_replicate. eauto with lia. }
      match goal with |- context [infer_stride _ _ ?s2] =>
        destruct (infer_stride_total generate_stride q s2) as (s' & Hs & _) end.
      eauto.
    + erewrite bind_eval by reflexivity.
      destruct (infer_stride_total generate_stride q s) as (s' & Hs & _). eauto.
  - unfold infer_scalar_tensors. erewrite bind_eval by reflexivity.
    destruct (is_empty (dim (heap s q))).
    + erewrite bind_eval by reflexivity.
      match goal with |- context [infer_stride _ _ ?s2] =>
        destruct (infer_stride_total generate_stride q s2) as (s' & Hs & _) end.
      eauto.
    + erewrite bind_eval by reflexivity.
      destruct (infer_stride_total generate_stride q s) as (s' & Hs & _). eauto.
Qed.
End Blocks.

Section BlockRuns.
Context {A : Type}.
Variable generate_stride : list Z → list Z.
Variable x : list Z.
Implicit Types (s : State A) (T : shared_ptr) (q : ptr) (k : infer_kind)
  (t : Tensor_attributes) (l : list (infer_kind * shared_ptr)).

Let filled d t := fill_stride generate_stride (fill_dim d t).

Lemma filled_other_fields d t :
  uid (filled d t) = uid t ∧ is_virtual (filled d t) = is_virtual t ∧
  data_type (filled d t) = data_type t.
Proof.
  unfold filled, fill_stride, fill_dim.
  by destruct (is_empty (dim t)), (is_empty (stride _)).
Qed.

Lemma filled_stride d t :
  stride t = [] → stride (filled d t) = generate_stride (dim (filled d t)).
Proof.
  intros Hs. unfold filled, fill_stride.
  assert (stride (fill_dim d t) = []) as Hs'
    by (unfold fill_dim; by destruct (is_empty (dim t))).
  by rewrite (proj2 (is_empty_true _) Hs').
Qed.

Lemma filled_settled d t :
  (dim t = [] → d = [] → x = []) → settled generate_stride x (filled d t).
Proof.
  intros Hd. split.
  - destruct (decide (dim t = [])) as [He|He].
    + unfold filled. rewrite fill_sets_dim by done. by apply Hd.
    + unfold filled. rewrite fill_keeps_dim by done. done.
  - destruct (decide (stride t = [])) as [He|He].
    + rewrite filled_stride by done. done.
    + unfold filled. rewrite fill_keeps_stride by done. done.
Qed.

Lemma filled_same_dim d t :
  (dim t = [] → d = []) → dim (filled d t) = dim t.
Proof.
  intros Hd. unfold filled. destruct (decide (dim t = [])) as [He|He].
  - rewrite fill_sets_dim by done. rewrite He. by apply Hd.
  - by apply fill_keeps_dim.
Qed.

Lemma filled_same_stride d t :
  dim (filled d t) = dim t → (stride t = [] → generate_stride (dim t) = []) →
  stride (filled d t) = stride t.
Proof.
  intros Hd Hs. destruct (decide (stride t = [])) as [He|He].
  - rewrite filled_stride, Hd, He by done. by apply Hs.
  - by apply fill_keeps_stride.
Qed.

(** What one block does to the descriptor behind any pointer. *)
Lemma infer_block_at k T s u s' q :
  infer_block generate_stride x k T s = Ok (u, s') →
  (T ≠ Some q ∧ heap s' q = heap s q) ∨
  (T = Some q ∧ heap s' q = filled (block_dim k x) (heap s q) ∧
   (dim (heap s q) = [] → block_dim k x = [] → x = [])).
Proof.
  intros (q' & -> & (_&_&_&_&Hq&Hr) & Hx)%infer_block_Ok.
  destruct (decide (q = q')) as [->|Hne].
  - right. by split.
  - left. split; [congruence|by apply Hr].
Qed.

Lemma infer_block_frame k T s u s' :
  infer_block generate_stride x k T s = Ok (u, s') →
  options s' = options s ∧ same_but_shapes s s' ∧
  ∀ q, data_type (heap s' q) = data_type (heap s q).
Proof.
  intros H. assert (H' := H).
  apply infer_block_Ok in H as (q' & -> & (Ho&Hc&Ht&Hop&_&_) & _).
  split; [done|]. split; [split_and!; try done|]; intros q;
    destruct (infer_block_at _ _ _ _ _ q H') as [[_ ->]|(_ & -> & _)];
    try done; by destruct (filled_other_fields (block_dim k x) (heap s q))
      as (?&?&?).
Qed.

Lemma infer_block_settled k T s u s' q :
  infer_block generate_stride x k T s = Ok (u, s') →
  T = Some q ∨ settled generate_stride x (heap s q) →
  settled generate_stride x (heap s' q).
Proof.
  intros H Hq.
  destruct (infer_block_at _ _ _ _ _ q H) as [[Hne ->]|(_ & -> & Hx)].
  - by destruct Hq.
  - by apply filled_settled.
Qed.

Lemma infer_block_same k T s u s' q :
  infer_block generate_stride x k T s = Ok (u, s') →
  settled generate_stride x (heap s q) →
  dim (heap s' q) = dim (heap s q) ∧ stride (heap s' q) = stride (heap s q).
Proof.
  intros H [Hd Hs].
  destruct (infer_block_at _ _ _ _ _ q H) as [[_ ->]|(_ & -> & _)]; [done|].
  assert (dim (filled (block_dim k x) (heap s q)) = dim (heap s q)) as Hsame.
  { apply filled_same_dim. intros He. by apply block_dim_nil, Hd. }
  split; [done|]. by apply filled_same_stride.
Qed.

Lemma infer_block_same_dim k T s u s' q :
  infer_block generate_stride x k T s = Ok (u, s') →
  (dim (heap s q) = [] → x = []) →
  dim (heap s' q) = dim (heap s q).
Proof.
  intros H Hd.
  destruct (infer_block_at _ _ _ _ _ q H) as [[_ ->]|(_ & -> & _)]; [done|].
  apply filled_same_dim. intros He. by apply block_dim_nil, Hd.
Qed.

Lemma blocks_run_frame l : ∀ s s',
  blocks_run generate_stride x l s s' →
  options s' = options s ∧ same_but_shapes s s' ∧
  (∀ q, data_type (heap s' q) = data_type (heap s q)) ∧
  (∀ q, first_block l q = None → heap s' q = heap s q).
Proof.
  induction l as [|[k T] l IH]; simpl; intros s s'.
  - intros ->. split_and!; try done.
  - intros (s1 & H1 & H2). apply IH in H2 as (Ho & (Hc&Ht&Hop&Hu) & Hdt & Hfb).
    destruct (infer_block_frame _ _ _ _ _ H1) as (Ho1 & (Hc1&Ht1&Hop1&Hu1) & Hdt1).
    split; [congruence|]. split; [split_and!; try congruence|split].
    + intros q. destruct (Hu q), (Hu1 q). split; congruence.
    + intros q. by rewrite Hdt, Hdt1.
    + intros q. case_decide as HT; [done|]. intros Hq. rewrite Hfb by done.
      by destruct (infer_block_at _ _ _ _ _ q H1) as [[_ ->]|(? & _)].
Qed.

Lemma blocks_run_settled l : ∀ s s' q,
  blocks_run generate_stride x l s s' →
  is_Some (first_block l q) ∨ settled generate_stride x (heap s q) →
  settled generate_stride x (heap s' q).
Proof.
  induction l as [|[k T] l IH]; simpl; intros s s' q.
  - intros -> [[? [=]]|?]. done.
  - intros (s1 & H1 & H2) Hq. eapply IH; [done|].
    case_decide as HT.
    + right. eapply infer_block_settled; [done|by left].
    + destruct Hq as [?|?]; [by left|].
      right. eapply infer_block_settled; [done|by right].
Qed.

Lemma blocks_run_same_at l : ∀ s s' q,
  blocks_run generate_stride x l s s' →
  settled generate_stride x (heap s q) →
  dim (heap s' q) = dim (heap s q) ∧ stride (heap s' q) = stride (heap s q).
Proof.
  induction l as [|[k T] l IH]; simpl; intros s s' q.
  - by intros ->.
  - intros (s1 & H1 & H2) Hset.
    destruct (infer_block_same _ _ _ _ _ q H1 Hset) as [Hd1 Hs1].
    destruct (IH s1 s' q H2) as [Hd2 Hs2].
    { unfold settled. by rewrite Hd1, Hs1. }
    split; congruence.
Qed.

Lemma blocks_run_same l s s' :
  blocks_run generate_stride x l s s' →
  (∀ q, is_Some (first_block l q) → settled generate_stride x (heap s q)) →
  same_shapes s s'.
Proof.
  intros H Hall q. destruct (first_block l q) as [k|] eqn:Hfb.
  - eapply blocks_run_same_at; [done|]. apply Hall. by eexists.
  - destruct (blocks_run_frame _ _ _ H) as (_ & _ & _ & Hfr).
    by rewrite Hfr.
Qed.

Lemma blocks_run_same_dim l : ∀ s s' q,
  blocks_run generate_stride x l s s' →
  (dim (heap s q) = [] → x = []) →
  dim (heap s' q) = dim (heap s q).
Proof.
  induction l as [|[k T] l IH]; simpl; intros s s' q.
  - by intros ->.
  - intros (s1 & H1 & H2) Hd.
    assert (dim (heap s1 q) = dim (heap s q)) as H01
      by by eapply infer_block_same_dim.
    rewrite <- H01. eapply IH; [done|]. by rewrite H01.
Qed.

(** The first block that meets a descriptor without a shape decides its
    shape. *)
Lemma blocks_run_first l : ∀ s s' q k,
  blocks_run generate_stride x l s s' →
  first_block l q = Some k →
  dim (heap s q) = [] →
  dim (heap s' q) = block_dim k x.
Proof.
  induction l as [|[k' T] l IH]; simpl; intros s s' q k; [done|].
  intros (s1 & H1 & H2) Hfb Hd.
  destruct (infer_block_at _ _ _ _ _ q H1) as [[HT Hq]|(HT & Hq & Hx)].
  - rewrite decide_False in Hfb by done. eapply IH; [done..|]. by rewrite Hq.
  - rewrite decide_True in Hfb by done. injection Hfb as ->.
    assert (dim (heap s1 q) = block_dim k x) as H1q
      by (rewrite Hq; by apply fill_sets_dim).
    rewrite <- H1q. eapply blocks_run_same_dim; [done|].
    rewrite H1q. by apply Hx.
Qed.

(** The stride generated for a descriptor is that of its final shape. *)
Lemma blocks_run_stride l : ∀ s s' q,
  blocks_run generate_stride x l s s' →
  is_Some (first_block l q) →
  stride (heap s q) = [] →
  stride (heap s' q) = generate_stride (dim (heap s' q)).
Proof.
  induction l as [|[k T] l IH]; simpl; intros s s' q; [by intros _ [? [=]]|].
  intros (s1 & H1 & H2) Hfb Hs.
  destruct (infer_block_at _ _ _ _ _ q H1) as [[HT Hq]|(HT & Hq & Hx)].
  - rewrite decide_False in Hfb by done. eapply IH; [done..|]. by rewrite Hq.
  - assert (settled generate_stride x (heap s1 q)) as Hset
      by (rewrite Hq; by apply filled_settled).
    assert (stride (heap s1 q) = generate_stride (dim (heap s1 q))) as Hst
      by (rewrite Hq; by apply filled_stride).
    destruct (blocks_run_same_at _ _ _ q H2 Hset) as [-> ->]. done.
Qed.
End BlockRuns.

Lemma blocks_run_total {A} generate_stride x l : ∀ s : State A,
  Forall (λ kT, is_Some kT.2) l → 2 <= length x →
  ∃ s', blocks_run generate_stride x l s s'.
Proof.
  induction l as [|[k T] l IH]; simpl; intros s Hall Hx; [by eexists|].
  destruct (Forall_cons_1 _ _ _ Hall) as [[q Hq] Hall']. simpl in Hq. subst T.
  destruct (infer_block_total generate_stride x k q s) as (s1 & H1); [done|].
  destruct (IH s1 Hall' Hx) as (s' & H'). eauto.
Qed.

Lemma blocks_run_present {A} generate_stride x l : ∀ s s' : State A,
  blocks_run generate_stride x l s s' → Forall (λ kT, is_Some kT.2) l.
Proof.
  induction l as [|[k T] l IH]; simpl; intros s s'; [done|].
  intros (s1 & (q & -> & _)%infer_block_Ok & H2). constructor; [by eexists|].
  by eapply IH.
Qed.

(** ** The normalization nodes as runs of blocks *)

Lemma batchnorm_fill_from_context_total context (s : BatchNormNode.St) :
  ∃ s', BatchNormNode.fill_from_context context s = Ok ((), s').
Proof.
  unfold BatchNormNode.fill_from_context. erewrite bind_eval by reflexivity.
  match goal with |- context [fill_all _ ?l] =>
    destruct (fill_all_total context l s) as (s0 & Hf & _) end.
  erewrite bind_eval by exact Hf. destruct (decide _); by eexists.
Qed.

Lemma dbn_fill_from_context_total context (s : DBNNode.St) :
  ∃ s', DBNNode.fill_from_context context s = Ok ((), s').
Proof.
  unfold DBNNode.fill_from_context. erewrite bind_eval by reflexivity.
  match goal with |- context [fill_all _ ?l] =>
    destruct (fill_all_total context l s) as (s0 & Hf & _) end.
  erewrite bind_eval by exact Hf. destruct (decide _); by eexists.
Qed.

Lemma batchnorm_infer_blocks generate_stride context (s s' : BatchNormNode.St) e :
  BatchNormNode.infer_properties_node generate_stride context s = Ok (e, s') ↔
  ∃ s1 px,
    BatchNormNode.fill_from_context context s = Ok ((), s1) ∧
    BatchNormNode.X (BatchNormNode.inputs (options s)) = Some px ∧
    blocks_run generate_stride (dim (heap s px))
      (batchnorm_blocks (options s)) s1 s' ∧
    e = mk_error OK "".
Proof.
  unfold BatchNormNode.infer_properties_node. split.
  - intros H. apply bind_Ok in H as ([] & s1 & Hfill & H).
    destruct (batchnorm_fill_from_context_Ok _ _ _ _ Hfill)
      as (Hin & Hout & (_&_&_&Hre)).
    apply bind_Ok in H as (? & ? & [-> ->]%get_options_Ok & H).
    rewrite Hin, Hout in H.
    apply bind_Ok in H as (? & ? & (px & HX & -> & ->)%get_dim_Ok & H).
    destruct (Hre px) as (Hdx & _). rewrite Hdx in H.
    invert_run. exists s1, px. split_and!; try done.
    simpl. repeat (eexists; split; [eassumption|]). reflexivity.
  - intros (s1 & px & Hfill & HX & Hrun & ->).
    destruct (batchnorm_fill_from_context_Ok _ _ _ _ Hfill)
      as (Hin & Hout & (_&_&_&Hre)).
    destruct (Hre px) as (Hdx & _).
    erewrite bind_eval by exact Hfill. erewrite bind_eval by reflexivity.
    rewrite Hin, Hout, HX. erewrite bind_eval by reflexivity. rewrite Hdx.
    simpl in Hrun.
    repeat match goal with
    | H : ∃ s1, _ ∧ _ |- _ => destruct H as (? & Hstep & H); simpl in Hstep;
        erewrite bind_eval by exact Hstep; clear Hstep
    end.
    by subst s'.
Qed.

Lemma dbn_infer_blocks generate_stride context (s s' : DBNNode.St) e :
  DBNNode.infer_properties_node generate_stride context s = Ok (e, s') ↔
  ∃ s1 px,
    DBNNode.fill_from_context context s = Ok ((), s1) ∧
    DBNNode.X (DBNNode.inputs (options s)) = Some px ∧
    blocks_run generate_stride (dim (heap s px)) (dbn_blocks (options s)) s1 s' ∧
    e = mk_error OK "".
Proof.
  unfold DBNNode.infer_properties_node. split.
  - intros H. apply bind_Ok in H as ([] & s1 & Hfill & H).
    destruct (dbn_fill_from_context_Ok _ _ _ _ Hfill)
      as (Hin & Hout & (_&_&_&Hre)).
    apply bind_Ok in H as (? & ? & [-> ->]%get_options_Ok & H).
    rewrite Hin, Hout in H.
    apply bind_Ok in H as (? & ? & (px & HX & -> & ->)%get_dim_Ok & H).
    destruct (Hre px) as (Hdx & _). rewrite Hdx in H.
    invert_run. exists s1, px. split_and!; try done.
    simpl. repeat (eexists; split; [eassumption|]). reflexivity.
  - intros (s1 & px & Hfill & HX & Hrun & ->).
    destruct (dbn_fill_from_context_Ok _ _ _ _ Hfill)
      as (Hin & Hout & (_&_&_&Hre)).
    destruct (Hre px) as (Hdx & _).
    erewrite bind_eval by exact Hfill. erewrite bind_eval by reflexivity.
    rewrite Hin, Hout, HX. erewrite bind_eval by reflexivity. rewrite Hdx.
    simpl in Hrun.
    repeat match goal with
    | H : ∃ s1, _ ∧ _ |- _ => destruct H as (? & Hstep & H); simpl in Hstep;
        erewrite bind_eval by exact Hstep; clear Hstep
    end.
    by subst s'.
Qed.

Lemma first_block_is_Some l q : is_Some (first_block l q) ↔ Some q ∈ l.*2.
Proof.
  induction l as [|[k T] l IH]; simpl.
  - split; [by intros [? [=]]|by intros ?%not_elem_of_nil].
  - rewrite elem_of_cons. case_decide as HT.
    + split; [by left|by eexists].
    + rewrite IH. split; [by right|by intros [?|?]].
Qed.


(** [X] keeps its shape through the blocks, whatever roles share it. *)
Lemma blocks_run_x_dim {A} generate_stride l (s s' : State A) px :
  blocks_run generate_stride (dim (heap s px)) l s s' →
  dim (heap s' px) = dim (heap s px).
Proof. intros H. by eapply blocks_run_same_dim. Qed.

(** What a returning run of a normalization node is made of: the state after
    [fill_from_context] has the shapes and strides of [s], and the blocks run
    from it. *)
Lemma batchnorm_infer_run generate_stride context (s s' : BatchNormNode.St) e :
  BatchNormNode.infer_properties_node generate_stride context s = Ok (e, s') →
  ∃ s1 px,
    BatchNormNode.X (BatchNormNode.inputs (options s)) = Some px ∧
    retyped s s1 ∧
    BatchNormNode.inputs (options s1) = BatchNormNode.inputs (options s) ∧
    BatchNormNode.outputs (options s1) = BatchNormNode.outputs (options s) ∧
    blocks_run generate_stride (dim (heap s px)) (batchnorm_blocks (options s)) s1 s'.
Proof.
  intros (s1 & px & Hfill & HX & Hrun & _)%batchnorm_infer_blocks.
  apply batchnorm_fill_from_context_Ok in Hfill as (Hin & Hout & Hre).
  by exists s1, px.
Qed.

Lemma dbn_infer_run generate_stride context (s s' : DBNNode.St) e :
  DBNNode.infer_properties_node generate_stride context s = Ok (e, s') →
  ∃ s1 px,
    DBNNode.X (DBNNode.inputs (options s)) = Some px ∧
    retyped s s1 ∧
    DBNNode.inputs (options s1) = DBNNode.inputs (options s) ∧
    DBNNode.outputs (options s1) = DBNNode.outputs (options s) ∧
    blocks_run generate_stride (dim (heap s px)) (dbn_blocks (options s)) s1 s'.
Proof.
  intros (s1 & px & Hfill & HX & Hrun & _)%dbn_infer_blocks.
  apply dbn_fill_from_context_Ok in Hfill as (Hin & Hout & Hre).
  by exists s1, px.
Qed.

(** Shapes, strides and the rest after [fill_from_context] then blocks. *)
Lemma retyped_blocks_first {A} generate_stride x l (s s1 s' : State A) q :
  retyped s s1 → blocks_run generate_stride x l s1 s' →
  dim (heap s q) = [] →
  match first_block l q with
  | Some k => dim (heap s' q) = block_dim k x
  | None => dim (heap s' q) = []
  end.
Proof.
  intros (_&_&_&Hre) Hrun Hd. destruct (Hre q) as (Hdq & _).
  rewrite Hd in Hdq. destruct (first_block l q) as [k|] eqn:Hfb.
  - by eapply blocks_run_first.
  - destruct (blocks_run_frame _ _ _ _ _ Hrun) as (_ & _ & _ & Hfr).
    by rewrite Hfr.
Qed.

(** X1: a descriptor without a shape gets, from a run of
    [infer_properties_node] that returns, the shape of the first block in
    source order whose role points to it: the shape of X from the Y (DY, DX)
    block, the per-channel shape from the per-channel lambda, all ones from
    the scalar lambda; a descriptor no block points to stays without. *)
Theorem first_block_decides_shape :
  (∀ generate_stride context (s s' : BatchNormNode.St) e px q,
     BatchNormNode.infer_properties_node generate_stride context s = Ok (e, s') →
     BatchNormNode.X (BatchNormNode.inputs (options s)) = Some px →
     dim (heap s q) = [] →
     match first_block (batchnorm_blocks (options s)) q with
     | Some k => dim (heap s' q) = block_dim k (dim (heap s px))
     | None => dim (heap s' q) = []
     end) ∧
  (∀ generate_stride context (s s' : DBNNode.St) e px q,
     DBNNode.infer_properties_node generate_stride context s = Ok (e, s') →
     DBNNode.X (DBNNode.inputs (options s)) = Some px →
     dim (heap s q) = [] →
     match first_block (dbn_blocks (options s)) q with
     | Some k => dim (heap s' q) = block_dim k (dim (heap s px))
     | None => dim (heap s' q) = []
     end).
Proof.
  split; intros generate_stride context s s' e px q H HX Hd.
  - apply batchnorm_infer_run in H as (s1 & px' & HX' & Hre & _ & _ & Hrun).
    rewrite HX in HX'. injection HX' as <-. by eapply retyped_blocks_first.
  - apply dbn_infer_run in H as (s1 & px' & HX' & Hre & _ & _ & Hrun).
    rewrite HX in HX'. injection HX' as <-. by eapply retyped_blocks_first.
Qed.

Lemma first_block_decides_shape_witness :
  BatchNormNode.infer_properties_node packed_stride sample_context batchnorm_aliased
    = Ok (mk_error OK "", batchnorm_aliased_inferred) ∧
  dim (heap batchnorm_aliased_inferred 8%positive) = [2; 3; 4; 4]%Z ∧
  dim (heap batchnorm_aliased_inferred 10%positive) = [1; 3; 1; 1]%Z ∧
  dim (heap batchnorm_aliased_inferred 6%positive) = [1; 1; 1; 1]%Z ∧
  dim (heap batchnorm_aliased_inferred 20%positive) = [].
Proof.
  assert (BatchNormNode.infer_properties_node packed_stride sample_context
            batchnorm_aliased = Ok (mk_error OK "", batchnorm_aliased_inferred))
    as H by (vm_compute; reflexivity).
  split; [exact H|].
  pose proof (λ q, proj1 first_block_decides_shape packed_stride sample_context
                     batchnorm_aliased _ _ 1%positive q H eq_refl) as Hq.
  split_and!.
  - apply (Hq 8%positive). reflexivity.
  - apply (Hq 10%positive). reflexivity.
  - apply (Hq 6%positive). reflexivity.
  - apply (Hq 20%positive). reflexivity.
Defined.

(** ** Dgrad inference as one fill of [DX] *)

Lemma dgrad_infer_Ok generate_stride context (s s' : DgradNode.St) e :
  DgradNode.infer_properties_node generate_stride context s = Ok (e, s') →
  ∃ s1 pw pdy pdx d,
    DgradNode.W (DgradNode.inputs (options s)) = Some pw ∧
    DgradNode.DY (DgradNode.inputs (options s)) = Some pdy ∧
    DgradNode.DX (DgradNode.outputs (options s)) = Some pdx ∧
    e = mk_error OK "" ∧
    retyped s s1 ∧
    DgradNode.inputs (options s1) = DgradNode.inputs (options s) ∧
    DgradNode.outputs (options s1) = DgradNode.outputs (options s) ∧
    stores s1 s' pdx (fill_stride generate_stride (fill_dim d (heap s1 pdx))) ∧
    (dim (heap s pdx) = [] → d ≠ []).
Proof.
  unfold DgradNode.infer_properties_node. intros H.
  apply bind_Ok in H as (? & s1 & Hfill & H).
  destruct (dgrad_fill_from_context_total context s)
    as (s1' & Hfill' & Hin & Hout & _ & _ & _ & Hre).
  rewrite Hfill' in Hfill. injection Hfill as _ <-. clear Hfill'.
  apply bind_Ok in H as (o & ? & [-> ->]%get_options_Ok & H).
  rewrite Hin, Hout in H.
  apply bind_Ok in H as (wd & ? & (pw & HW & -> & ->)%get_dim_Ok & H).
  apply bind_Ok in H as (dyd & ? & (pdy & HDY & -> & ->)%get_dim_Ok & H).
  cbv zeta in H.
  apply bind_Ok in H as (dxd & ? & (q & HDX & -> & ->)%get_dim_Ok & H).
  rewrite HDX in H.
  apply bind_Ok in H as ([] & s2 & Hdim & H).
  apply bind_Ok in H as (sd & ? & (? & [= <-] & -> & ->)%get_stride_Ok & H).
  apply bind_Ok in H as ([] & s3 & Hstr & [-> ->]%ret_Ok).
  assert (∃ d, stores s1' s2 q (fill_dim d (heap s1' q)) ∧
               (dim (heap s1' q) = [] → d ≠ [])) as (d & Hs2 & Hd).
  { unfold fill_dim. destruct (is_empty (dim (heap s1' q))) eqn:He.
    - apply is_empty_true in He. rewrite He, resize_nil in Hdim.
      apply bind_Ok in Hdim as (? & ? & [_ ->]%vec_at_Ok & Hdim).
      apply bind_Ok in Hdim as (? & ? & (Hl0 & -> & ->)%vec_assign_Ok & Hdim).
      apply bind_Ok in Hdim as (? & ? & [_ ->]%vec_at_Ok & Hdim).
      apply bind_Ok in Hdim as (? & ? & (_ & -> & ->)%vec_assign_Ok & Hdim).
      apply bind_Ok in Hdim as (d & ? & (-> & Hlen & _)%infer_spatial_Ok & Hdim).
      apply set_dim_Ok in Hdim as (? & [= <-] & Hdim).
      exists d. split; [done|]. intros _ ->.
      rewrite !length_insert, length_replicate in Hlen.
      rewrite length_replicate in Hl0. simpl in Hlen. lia.
    - apply ret_Ok in Hdim as [_ ->]. exists []. split; [apply stores_refl|].
      intros E. rewrite E in He. done. }
  exists s1', pw, pdy, q, d. split_and!; try done.
  - eapply stores_trans; [exact Hs2|]. destruct Hs2 as (_&_&_&_&Hq&_).
    unfold fill_stride. rewrite <- Hq.
    destruct (is_empty (stride (heap s2 q))) eqn:He.
    + apply bind_Ok in Hstr as (? & ? & (? & [= <-] & -> & ->)%get_dim_Ok & Hstr).
      by apply set_stride_Ok in Hstr as (? & [= <-] & Hstr).
    + apply ret_Ok in Hstr as [_ ->]. apply stores_refl.
  - intros He. apply Hd. destruct Hre as (_&_&_&Hre).
    destruct (Hre q) as (-> & _). done.
Qed.

(** ** Shapes and strides after inference *)

(** X2: after a run of [infer_properties_node] that returns, a Y (BatchNorm),
    DY or DX (DBN) that had no shape has the shape of X, whatever other roles
    share its descriptor. *)
Theorem output_shape_copies_x :
  (∀ generate_stride context (s s' : BatchNormNode.St) e px py,
     BatchNormNode.infer_properties_node generate_stride context s = Ok (e, s') →
     BatchNormNode.X (BatchNormNode.inputs (options s)) = Some px →
     BatchNormNode.Y (BatchNormNode.outputs (options s)) = Some py →
     dim (heap s py) = [] →
     dim (heap s' py) = dim (heap s px)) ∧
  (∀ generate_stride context (s s' : DBNNode.St) e px q,
     DBNNode.infer_properties_node generate_stride context s = Ok (e, s') →
     DBNNode.X (DBNNode.inputs (options s)) = Some px →
     DBNNode.DY (DBNNode.inputs (options s)) = Some q ∨
     DBNNode.DX (DBNNode.outputs (options s)) = Some q →
     dim (heap s q) = [] →
     dim (heap s' q) = dim (heap s px)).
Proof.
  split.
  - intros generate_stride context s s' e px py H HX HY Hd.
    apply batchnorm_infer_run in H as (s1 & px' & HX' & Hre & _ & _ & Hrun).
    rewrite HX in HX'. injection HX' as <-.
    pose proof (retyped_blocks_first _ _ _ _ _ _ py Hre Hrun Hd) as Hfb.
    simpl in Hfb. rewrite HY in Hfb. by rewrite decide_True in Hfb.
  - intros generate_stride context s s' e px q H HX Hq Hd.
    apply dbn_infer_run in H as (s1 & px' & HX' & Hre & _ & _ & Hrun).
    rewrite HX in HX'. injection HX' as <-.
    pose proof (retyped_blocks_first _ _ _ _ _ _ q Hre Hrun Hd) as Hfb.
    simpl in Hfb. destruct Hq as [Hq|Hq]; rewrite Hq in Hfb.
    + by rewrite decide_True in Hfb.
    + case_decide; [done|]. by rewrite decide_True in Hfb.
Qed.

Lemma output_shape_copies_x_witness :
  BatchNormNode.infer_properties_node packed_stride sample_context batchnorm_sample
    = Ok (mk_error OK "", batchnorm_sample_inferred) ∧
  dim (heap batchnorm_sample_inferred 8%positive) = [2; 3; 4; 4]%Z.
Proof.
  assert (BatchNormNode.infer_properties_node packed_stride sample_context
            batchnorm_sample = Ok (mk_error OK "", batchnorm_sample_inferred))
    as H by (vm_compute; reflexivity).
  split; [exact H|].
  assert (BatchNormNode.X (BatchNormNode.inputs (options batchnorm_sample))
            = Some 1%positive) as HX by (vm_compute; reflexivity).
  assert (BatchNormNode.Y (BatchNormNode.outputs (options batchnorm_sample))
            = Some 8%positive) as HY by (vm_compute; reflexivity).
  assert (dim (heap batchnorm_sample 8%positive) = []) as Hd
    by (vm_compute; reflexivity).
  rewrite (proj1 output_shape_copies_x _ _ _ _ _ _ _ H HX HY Hd).
  vm_compute. reflexivity.
Defined.

(** X3: after a run of BatchNorm [infer_properties_node] that returns, an
    EPSILON or MOMENTUM that had no shape, and whose descriptor is given
    neither as Y nor as a per-channel role, has the rank of X and 1 in every
    dimension. *)
Theorem scalar_shape_inferred generate_stride context
    (s s' : BatchNormNode.St) e px q :
  BatchNormNode.infer_properties_node generate_stride context s = Ok (e, s') →
  BatchNormNode.X (BatchNormNode.inputs (options s)) = Some px →
  BatchNormNode.EPSILON (BatchNormNode.inputs (options s)) = Some q ∨
  BatchNormNode.MOMENTUM (BatchNormNode.inputs (options s)) = Some q →
  BatchNormNode.Y (BatchNormNode.outputs (options s)) ≠ Some q →
  Some q ∉ batchnorm_per_channel_roles (options s) →
  dim (heap s q) = [] →
  dim (heap s' q) = replicate (length (dim (heap s px))) 1%Z.
Proof.
  intros H HX Hq HY Hpc Hd.
  apply batchnorm_infer_run in H as (s1 & px' & HX' & Hre & _ & _ & Hrun).
  rewrite HX in HX'. injection HX' as <-.
  pose proof (retyped_blocks_first _ _ _ _ _ _ q Hre Hrun Hd) as Hfb.
  unfold batchnorm_per_channel_roles in Hpc.
  rewrite !not_elem_of_cons in Hpc.
  destruct Hpc as (?&?&?&?&?&?&?&?&_).
  simpl in Hfb. rewrite !decide_False in Hfb by done.
  destruct Hq as [Hq|Hq]; rewrite Hq in Hfb.
  - by rewrite decide_True in Hfb.
  - case_decide; [done|]. by rewrite decide_True in Hfb.
Qed.

Lemma scalar_shape_inferred_witness :
  BatchNormNode.infer_properties_node packed_stride sample_context batchnorm_sample
    = Ok (mk_error OK "", batchnorm_sample_inferred) ∧
  dim (heap batchnorm_sample_inferred 7%positive) = [1; 1; 1; 1]%Z.
Proof.
  assert (BatchNormNode.infer_properties_node packed_stride sample_context
            batchnorm_sample = Ok (mk_error OK "", batchnorm_sample_inferred))
    as H by (vm_compute; reflexivity).
  split; [exact H|].
  assert (BatchNormNode.X (BatchNormNode.inputs (options batchnorm_sample))
            = Some 1%positive) as HX by (vm_compute; reflexivity).
  assert (BatchNormNode.MOMENTUM (BatchNormNode.inputs (options batchnorm_sample))
            = Some 7%positive) as HM by (vm_compute; reflexivity).
  assert (BatchNormNode.Y (BatchNormNode.outputs (options batchnorm_sample))
            ≠ Some 7%positive) as HY by (vm_compute; discriminate).
  assert (Some 7%positive ∉ batchnorm_per_channel_roles (options batchnorm_sample))
    as Hpc.
  { intros Hin%list_elem_of_In. vm_compute in Hin.
    repeat (destruct Hin as [Hin|Hin]; [discriminate Hin|]). exact Hin. }
  assert (dim (heap batchnorm_sample 7%positive) = []) as Hd
    by (vm_compute; reflexivity).
  rewrite (scalar_shape_inferred _ _ _ _ _ _ _ H HX (or_intror HM) HY Hpc Hd).
  vm_compute. reflexivity.
Defined.

(** X4: after a run of [infer_properties_node] that returns, a descriptor
    that one of the inference blocks points to and that had no stride has
    the stride [generate_stride] gives for its final shape. *)
Theorem inferred_stride_matches_shape :
  (∀ generate_stride context (s s' : BatchNormNode.St) e q,
     BatchNormNode.infer_properties_node generate_stride context s = Ok (e, s') →
     Some q ∈ (batchnorm_blocks (options s)).*2 →
     stride (heap s q) = [] →
     stride (heap s' q) = generate_stride (dim (heap s' q))) ∧
  (∀ generate_stride context (s s' : DBNNode.St) e q,
     DBNNode.infer_properties_node generate_stride context s = Ok (e, s') →
     Some q ∈ (dbn_blocks (options s)).*2 →
     stride (heap s q) = [] →
     stride (heap s' q) = generate_stride (dim (heap s' q))) ∧
  (∀ generate_stride context (s s' : DgradNode.St) e q,
     DgradNode.infer_properties_node generate_stride context s = Ok (e, s') →
     DgradNode.DX (DgradNode.outputs (options s)) = Some q →
     stride (heap s q) = [] →
     stride (heap s' q) = generate_stride (dim (heap s' q))).
Proof.
  split_and!.
  - intros generate_stride context s s' e q H Hq Hs.
    apply batchnorm_infer_run in H as (s1 & px & _ & (_&_&_&Hre) & _ & _ & Hrun).
    destruct (Hre q) as (_ & Hsq & _). rewrite Hs in Hsq.
    eapply blocks_run_stride; [done| |done]. by apply first_block_is_Some.
  - intros generate_stride context s s' e q H Hq Hs.
    apply dbn_infer_run in H as (s1 & px & _ & (_&_&_&Hre) & _ & _ & Hrun).
    destruct (Hre q) as (_ & Hsq & _). rewrite Hs in Hsq.
    eapply blocks_run_stride; [done| |done]. by apply first_block_is_Some.
  - intros generate_stride context s s' e q H HDX Hs.
    apply dgrad_infer_Ok in H
      as (s1 & pw & pdy & pdx & d & _ & _ & HDX' & _ & (_&_&_&Hre) & _ & _ & Hst & _).
    rewrite HDX in HDX'. injection HDX' as <-.
    destruct (Hre q) as (_ & Hsq & _). rewrite Hs in Hsq.
    destruct Hst as (_&_&_&_&->&_). by apply filled_stride.
Qed.

Lemma inferred_stride_matches_shape_witness :
  DgradNode.infer_properties_node packed_stride sample_context dgrad_sample
    = Ok (mk_error OK "", dgrad_sample_inferred) ∧
  stride (heap dgrad_sample_inferred 3%positive) = [196; 49; 7; 1]%Z.
Proof.
  assert (DgradNode.infer_properties_node packed_stride sample_context
            dgrad_sample = Ok (mk_error OK "", dgrad_sample_inferred))
    as H by (vm_compute; reflexivity).
  split; [exact H|].
  assert (DgradNode.DX (DgradNode.outputs (options dgrad_sample))
            = Some 3%positive) as HDX by (vm_compute; reflexivity).
  assert (stride (heap dgrad_sample 3%positive) = []) as Hs
    by (vm_compute; reflexivity).
  rewrite (proj2 (proj2 inferred_stride_matches_shape) _ _ _ _ _ _ H HDX Hs).
  vm_compute. reflexivity.
Defined.

(** ** A second inference, and what inference leaves alone *)

Lemma blocks_rerun {A} generate_stride x l (s1 s' s2 s'' : State A) :
  blocks_run generate_stride x l s1 s' → retyped s' s2 →
  blocks_run generate_stride x l s2 s'' →
  same_shapes s' s''.
Proof.
  intros Hrun1 (_&_&_&Hre) Hrun2.
  assert (same_shapes s2 s'') as Hsame.
  { eapply blocks_run_same; [exact Hrun2|]. intros q Hq.
    assert (settled generate_stride x (heap s' q)) as Hset
      by (eapply blocks_run_settled; [exact Hrun1|by left]).
    unfold settled in *. by destruct (Hre q) as (-> & -> & _). }
  intros q. destruct (Hsame q) as [-> ->]. by destruct (Hre q) as (-> & -> & _).
Qed.

Lemma retyped_same_shapes {A} (s s' : State A) : retyped s s' → same_shapes s s'.
Proof. intros (_&_&_&Hre) q. by destruct (Hre q) as (-> & -> & _). Qed.

(** X5: [infer_properties_node] is idempotent on shapes and strides: when a
    run has returned, a second run that returns, under any context, leaves
    every shape and stride as the first run left it. *)
Theorem infer_properties_idempotent :
  (∀ generate_stride context context' (s s' s'' : BatchNormNode.St) e e',
     BatchNormNode.infer_properties_node generate_stride context s = Ok (e, s') →
     BatchNormNode.infer_properties_node generate_stride context' s' = Ok (e', s'') →
     same_shapes s' s'') ∧
  (∀ generate_stride context context' (s s' s'' : DBNNode.St) e e',
     DBNNode.infer_properties_node generate_stride context s = Ok (e, s') →
     DBNNode.infer_properties_node generate_stride context' s' = Ok (e', s'') →
     same_shapes s' s'') ∧
  (∀ generate_stride context context' (s s' s'' : DgradNode.St) e e',
     DgradNode.infer_properties_node generate_stride context s = Ok (e, s') →
     DgradNode.infer_properties_node generate_stride context' s' = Ok (e', s'') →
     same_shapes s' s'').
Proof.
  split_and!.
  - intros generate_stride context context' s s' s'' e e' H1 H2.
    apply batchnorm_infer_run in H1 as (s1 & px & HX & Hre1 & Hin1 & Hout1 & Hrun1).
    apply batchnorm_infer_run in H2 as (s2 & px' & HX' & Hre2 & _ & _ & Hrun2).
    destruct (blocks_run_frame _ _ _ _ _ Hrun1) as (Ho1 & _).
    assert (dim (heap s' px) = dim (heap s px)) as Hx.
    { destruct Hre1 as (_&_&_&Hre1). destruct (Hre1 px) as (Hd & _).
      rewrite <- Hd in Hrun1 |- *. by eapply blocks_run_x_dim. }
    unfold batchnorm_blocks in Hrun2. rewrite Ho1, Hin1 in HX'.
    rewrite Ho1, Hin1, Hout1 in Hrun2. fold (batchnorm_blocks (options s)) in Hrun2.
    rewrite HX in HX'. injection HX' as <-. rewrite Hx in Hrun2.
    by eapply blocks_rerun.
  - intros generate_stride context context' s s' s'' e e' H1 H2.
    apply dbn_infer_run in H1 as (s1 & px & HX & Hre1 & Hin1 & Hout1 & Hrun1).
    apply dbn_infer_run in H2 as (s2 & px' & HX' & Hre2 & _ & _ & Hrun2).
    destruct (blocks_run_frame _ _ _ _ _ Hrun1) as (Ho1 & _).
    assert (dim (heap s' px) = dim (heap s px)) as Hx.
    { destruct Hre1 as (_&_&_&Hre1). destruct (Hre1 px) as (Hd & _).
      rewrite <- Hd in Hrun1 |- *. by eapply blocks_run_x_dim. }
    unfold dbn_blocks in Hrun2. rewrite Ho1, Hin1 in HX'.
    rewrite Ho1, Hin1, Hout1 in Hrun2. fold (dbn_blocks (options s)) in Hrun2.
    rewrite HX in HX'. injection HX' as <-. rewrite Hx in Hrun2.
    by eapply blocks_rerun.
  - intros generate_stride context context' s s' s'' e e' H1 H2.
    apply dgrad_infer_Ok in H1
      as (s1 & pw & pdy & pdx & d & _ & _ & HDX & _ & Hre1 & _ & Hout1 & Hst1 & Hd1).
    apply dgrad_infer_Ok in H2
      as (s2 & pw' & pdy' & pdx' & d' & _ & _ & HDX' & _ & Hre2 & _ & _ & Hst2 & _).
    destruct Hst1 as (Ho1 & _ & _ & _ & Hq1 & _).
    rewrite Ho1, Hout1, HDX in HDX'. injection HDX' as <-.
    destruct Hst2 as (_ & _ & _ & _ & Hq2 & Hother).
    destruct Hre1 as (_&_&_&Hre1). destruct (Hre1 pdx) as (Hd & _).
    rewrite <- Hd in Hd1.
    assert (settled generate_stride [1%Z] (heap s' pdx)) as [Hsd Hss].
    { rewrite Hq1. apply filled_settled. intros E1 E2. by destruct (Hd1 E1). }
    pose proof (retyped_same_shapes _ _ Hre2) as Hsame.
    intros q. destruct (decide (q = pdx)) as [->|Hne].
    + destruct (Hsame pdx) as [Hd2 Hs2]. rewrite Hq2.
      assert (dim (fill_stride generate_stride (fill_dim d' (heap s2 pdx)))
                = dim (heap s2 pdx)) as Hdim.
      { apply filled_same_dim. rewrite Hd2. intros E. by apply Hsd in E. }
      split; [by rewrite Hdim|].
      rewrite filled_same_stride; [done|done|]. rewrite Hd2, Hs2. exact Hss.
    + rewrite Hother by done. apply Hsame.
Qed.

Lemma infer_properties_idempotent_witness :
  BatchNormNode.infer_properties_node packed_stride sample_context batchnorm_sample
    = Ok (mk_error OK "", batchnorm_sample_inferred) ∧
  BatchNormNode.infer_properties_node packed_stride sample_context
    batchnorm_sample_inferred = Ok (mk_error OK "", batchnorm_sample_inferred_twice) ∧
  same_shapes batchnorm_sample_inferred batchnorm_sample_inferred_twice.
Proof.
  assert (BatchNormNode.infer_properties_node packed_stride sample_context
            batchnorm_sample = Ok (mk_error OK "", batchnorm_sample_inferred))
    as H1 by (vm_compute; reflexivity).
  assert (BatchNormNode.infer_properties_node packed_stride sample_context
            batchnorm_sample_inferred
            = Ok (mk_error OK "", batchnorm_sample_inferred_twice))
    as H2 by (vm_compute; reflexivity).
  split_and!; [exact H1|exact H2|].
  exact (proj1 infer_properties_idempotent _ _ _ _ _ _ _ _ H1 H2).
Defined.




(** X7: inference of a normalization node returns only if X and the role of
    every inference block are set, and it does return, with status OK, when
    they are all set and X has rank 2 or more. EPSILON of a DBN node is not
    among them. *)
Theorem norm_infer_returns :
  (∀ generate_stride context (s : BatchNormNode.St),
     (∀ e s',
        BatchNormNode.infer_properties_node generate_stride context s = Ok (e, s') →
        is_Some (BatchNormNode.X (BatchNormNode.inputs (options s))) ∧
        Forall (λ kT, is_Some kT.2) (batchnorm_blocks (options s))) ∧
     (∀ px,
        BatchNormNode.X (BatchNormNode.inputs (options s)) = Some px →
        Forall (λ kT, is_Some kT.2) (batchnorm_blocks (options s)) →
        2 <= length (dim (heap s px)) →
        ∃ s', BatchNormNode.infer_properties_node generate_stride context s
                = Ok (mk_error OK "", s'))) ∧
  (∀ generate_stride context (s : DBNNode.St),
     (∀ e s',
        DBNNode.infer_properties_node generate_stride context s = Ok (e, s') →
        is_Some (DBNNode.X (DBNNode.inputs (options s))) ∧
        Forall (λ kT, is_Some kT.2) (dbn_blocks (options s))) ∧
     (∀ px,
        DBNNode.X (DBNNode.inputs (options s)) = Some px →
        Forall (λ kT, is_Some kT.2) (dbn_blocks (options s)) →
        2 <= length (dim (heap s px)) →
        ∃ s', DBNNode.infer_properties_node generate_stride context s
                = Ok (mk_error OK "", s'))).
Proof.
  split; intros generate_stride context s; split.
  - intros e s' (s1 & px & _ & HX & Hrun & _)%batchnorm_infer_blocks.
    split; [by eexists|]. by eapply blocks_run_present.
  - intros px HX Hall Hrank.
    destruct (batchnorm_fill_from_context_total context s) as (s1 & Hfill).
    destruct (blocks_run_total generate_stride (dim (heap s px))
                (batchnorm_blocks (options s)) s1 Hall Hrank) as (s' & Hrun).
    exists s'. apply batchnorm_infer_blocks. by exists s1, px.
  - intros e s' (s1 & px & _ & HX & Hrun & _)%dbn_infer_blocks.
    split; [by eexists|]. by eapply blocks_run_present.
  - intros px HX Hall Hrank.
    destruct (dbn_fill_from_context_total context s) as (s1 & Hfill).
    destruct (blocks_run_total generate_stride (dim (heap s px))
                (dbn_blocks (options s)) s1 Hall Hrank) as (s' & Hrun).
    exists s'. apply dbn_infer_blocks. by exists s1, px.
Qed.

Lemma norm_infer_returns_witness :
  ∃ s', DBNNode.infer_properties_node packed_stride sample_context dbn_sample
          = Ok (mk_error OK "", s').
Proof.
  assert (DBNNode.X (DBNNode.inputs (options dbn_sample)) = Some 1%positive)
    as HX by (vm_compute; reflexivity).
  assert (Forall (λ kT : infer_kind * shared_ptr, is_Some kT.2)
            (dbn_blocks (options dbn_sample))) as Hall.
  { unfold dbn_blocks. simpl. repeat constructor; by eexists. }
  assert (2 <= length (dim (heap dbn_sample 1%positive))) as Hrank
    by (vm_compute; lia).
  exact (proj2 (proj2 norm_infer_returns packed_stride sample_context dbn_sample)
           _ HX Hall Hrank).
Defined.

(** ** Ranks below two *)

Lemma infer_per_channel_out_of_bounds {A} generate_stride x q (s : State A) :
  dim (heap s q) = [] → length x < 2 →
  infer_per_channel_tensors generate_stride x (Some q) s = Undefined OutOfBounds.
Proof.
  intros Hd Hx. unfold infer_per_channel_tensors.
  erewrite bind_eval by reflexivity. rewrite Hd. simpl.
  apply bind_Undefined. apply bind_Undefined.
  unfold vec_at. by rewrite (proj2 (lookup_ge_None x 1)) by lia.
Qed.

Lemma infer_like_x_other {A} generate_stride x T q (s s' : State A) u :
  infer_like_x generate_stride x T s = Ok (u, s') → T ≠ Some q →
  heap s' q = heap s q.
Proof.
  intros (p & -> & Hst)%infer_like_x_Ok Hne.
  destruct Hst as (_&_&_&_&_&Hother). apply Hother. congruence.
Qed.

(** X8: with an X of rank below 2, inference of a normalization node whose
    MEAN has no shape, and shares its descriptor with no role handled before
    it, reads [x_tensor_dim[1]] past the end of the vector. *)
Theorem norm_infer_rank_below_two :
  (∀ generate_stride context (s : BatchNormNode.St) px py pm,
     BatchNormNode.X (BatchNormNode.inputs (options s)) = Some px →
     BatchNormNode.Y (BatchNormNode.outputs (options s)) = Some py →
     BatchNormNode.MEAN (BatchNormNode.outputs (options s)) = Some pm →
     pm ≠ py → dim (heap s pm) = [] → length (dim (heap s px)) < 2 →
     BatchNormNode.infer_properties_node generate_stride context s
       = Undefined OutOfBounds) ∧
  (∀ generate_stride context (s : DBNNode.St) px pdy pdx pm,
     DBNNode.X (DBNNode.inputs (options s)) = Some px →
     DBNNode.DY (DBNNode.inputs (options s)) = Some pdy →
     DBNNode.DX (DBNNode.outputs (options s)) = Some pdx →
     DBNNode.MEAN (DBNNode.inputs (options s)) = Some pm →
     pm ≠ pdy → pm ≠ pdx → dim (heap s pm) = [] →
     length (dim (heap s px)) < 2 →
     DBNNode.infer_properties_node generate_stride context s
       = Undefined OutOfBounds).
Proof.
  split.
  - intros generate_stride context s px py pm HX HY HM Hne Hd Hrank.
    unfold BatchNormNode.infer_properties_node.
    destruct (batchnorm_fill_from_context_total context s) as (s1 & Hfill).
    destruct (batchnorm_fill_from_context_Ok _ _ _ _ Hfill)
      as (Hin & Hout & (_&_&_&Hre)).
    erewrite bind_eval by exact Hfill. erewrite bind_eval by reflexivity.
    rewrite Hin, Hout, HX, HY, HM. erewrite bind_eval by reflexivity.
    destruct (Hre px) as (Hdx & _), (Hre pm) as (Hdm & _). rewrite Hdx.
    destruct (infer_like_x_total generate_stride (dim (heap s px)) py s1)
      as (s2 & Hy & _).
    erewrite bind_eval by exact Hy. apply bind_Undefined.
    apply infer_per_channel_out_of_bounds; [|done].
    rewrite (infer_like_x_other _ _ _ pm _ _ _ Hy) by congruence. congruence.
  - intros generate_stride context s px pdy pdx pm HX HDY HDX HM Hne1 Hne2 Hd Hrank.
    unfold DBNNode.infer_properties_node.
    destruct (dbn_fill_from_context_total context s) as (s1 & Hfill).
    destruct (dbn_fill_from_context_Ok _ _ _ _ Hfill)
      as (Hin & Hout & (_&_&_&Hre)).
    erewrite bind_eval by exact Hfill. erewrite bind_eval by reflexivity.
    rewrite Hin, Hout, HX, HDY, HDX, HM. erewrite bind_eval by reflexivity.
    destruct (Hre px) as (Hdx & _), (Hre pm) as (Hdm & _). rewrite Hdx.
    destruct (infer_like_x_total generate_stride (dim (heap s px)) pdy s1)
      as (s2 & Hy & _).
    erewrite bind_eval by exact Hy.
    destruct (infer_like_x_total generate_stride (dim (heap s px)) pdx s2)
      as (s3 & Hy3 & _).
    erewrite bind_eval by exact Hy3. apply bind_Undefined.
    apply infer_per_channel_out_of_bounds; [|done].
    rewrite (infer_like_x_other _ _ _ pm _ _ _ Hy3) by congruence.
    rewrite (infer_like_x_other _ _ _ pm _ _ _ Hy) by congruence. congruence.
Qed.

Lemma norm_infer_rank_below_two_witness :
  BatchNormNode.infer_properties_node packed_stride sample_context batchnorm_flat
    = Undefined OutOfBounds.
Proof.
  assert (BatchNormNode.X (BatchNormNode.inputs (options batchnorm_flat))
            = Some 1%positive) as HX by (vm_compute; reflexivity).
  assert (BatchNormNode.Y (BatchNormNode.outputs (options batchnorm_flat))
            = Some 8%positive) as HY by (vm_compute; reflexivity).
  assert (BatchNormNode.MEAN (BatchNormNode.outputs (options batchnorm_flat))
            = Some 9%positive) as HM by (vm_compute; reflexivity).
  assert (dim (heap batchnorm_flat 9%positive) = []) as Hd
    by (vm_compute; reflexivity).
  assert (length (dim (heap batchnorm_flat 1%positive)) < 2) as Hrank
    by (vm_compute; lia).
  apply (proj1 norm_infer_rank_below_two packed_stride sample_context
           batchnorm_flat _ _ _ HX HY HM); [discriminate|exact Hd|exact Hrank].
Defined.

(** ** Dgrad inference at its edges *)

(** X9: when DX has no shape and W has rank below 2, [infer_properties_node]
    of a dgrad node indexes a vector past its end, whatever DY is. *)
Theorem dgrad_infer_rank_below_two generate_stride context (s : DgradNode.St)
    pw pdy pdx :
  DgradNode.W (DgradNode.inputs (options s)) = Some pw →
  DgradNode.DY (DgradNode.inputs (options s)) = Some pdy →
  DgradNode.DX (DgradNode.outputs (options s)) = Some pdx →
  dim (heap s pdx) = [] →
  length (dim (heap s pw)) < 2 →
  DgradNode.infer_properties_node generate_stride context s = Undefined OutOfBounds.
Proof.
  intros HW HDY HDX Hd Hrank. unfold DgradNode.infer_properties_node.
  destruct (dgrad_fill_from_context_total context s)
    as (s1 & Hfill & Hin & Hout & _ & _ & _ & (_&_&_&Hre)).
  erewrite bind_eval by exact Hfill. erewrite bind_eval by reflexivity.
  rewrite Hin, Hout, HW, HDY, HDX. cbv zeta.
  do 3 (erewrite bind_eval by reflexivity).
  destruct (Hre pw) as (-> & _), (Hre pdy) as (-> & _), (Hre pdx) as (-> & _).
  rewrite Hd. simpl. rewrite resize_nil.
  apply bind_Undefined.
  destruct (dim (heap s pdy) !! 0) as [dy0|] eqn:Hdy0;
    [|apply bind_Undefined; unfold vec_at; by rewrite Hdy0].
  erewrite bind_eval by (by apply vec_at_Ok).
  destruct (dim (heap s pw)) as [|w0 [|w1 w]]; simpl in Hrank; [| |lia].
  - by apply bind_Undefined.
  - erewrite bind_eval by (apply vec_assign_Ok; simpl; eauto with lia).
    by apply bind_Undefined.
Qed.

Lemma dgrad_infer_rank_below_two_witness :
  DgradNode.infer_properties_node packed_stride sample_context dgrad_flat
    = Undefined OutOfBounds.
Proof.
  assert (dim (heap dgrad_flat 3%positive) = []) as Hd by (vm_compute; reflexivity).
  assert (length (dim (heap dgrad_flat 1%positive)) < 2) as Hrank
    by (vm_compute; lia).
  exact (dgrad_infer_rank_below_two packed_stride sample_context dgrad_flat
           1%positive 2%positive 3%positive eq_refl eq_refl eq_refl Hd Hrank).
Defined.

(** X10: when DX comes with a shape, [infer_properties_node] of a dgrad node
    returns OK and keeps that shape whatever the shapes of W and DY and the
    padding, stride and dilation are: none of them is looked into. *)
Theorem dgrad_infer_supplied_dx generate_stride context (s : DgradNode.St)
    pw pdy pdx :
  DgradNode.W (DgradNode.inputs (options s)) = Some pw →
  DgradNode.DY (DgradNode.inputs (options s)) = Some pdy →
  DgradNode.DX (DgradNode.outputs (options s)) = Some pdx →
  dim (heap s pdx) ≠ [] →
  ∃ s', DgradNode.infer_properties_node generate_stride context s
          = Ok (mk_error OK "", s') ∧
        dim (heap s' pdx) = dim (heap s pdx).
Proof.
  intros HW HDY HDX Hd. unfold DgradNode.infer_properties_node.
  destruct (dgrad_fill_from_context_total context s)
    as (s1 & Hfill & Hin & Hout & _ & _ & _ & (_&_&_&Hre)).
  erewrite bind_eval by exact Hfill. erewrite bind_eval by reflexivity.
  rewrite Hin, Hout, HW, HDY, HDX. cbv zeta.
  do 3 (erewrite bind_eval by reflexivity).
  destruct (Hre pdx) as (Hdx & _).
  rewrite (proj2 (is_empty_false (dim (heap s1 pdx)))) by (by rewrite Hdx).
  erewrite bind_eval by reflexivity.
  destruct (infer_stride_total generate_stride pdx s1) as (s' & Hs & _).
  pose proof Hs as (? & [= <-] & (_&_&_&_&Hq&_))%infer_stride_Ok.
  unfold infer_stride in Hs. apply bind_Ok in Hs as (sd & ? & Hg & Hs).
  erewrite bind_eval by exact Hg. erewrite bind_eval by exact Hs.
  eexists. split; [reflexivity|].
  rewrite Hq, <- Hdx. unfold fill_stride.
  by destruct (is_empty (stride (heap s1 pdx))).
Qed.

Lemma dgrad_infer_supplied_dx_witness :
  ∃ s', DgradNode.infer_properties_node packed_stride sample_context dgrad_supplied
          = Ok (mk_error OK "", s') ∧
        dim (heap s' 3%positive) = dim (heap dgrad_supplied 3%positive).
Proof.
  assert (dim (heap dgrad_supplied 3%positive) ≠ []) as Hd
    by (vm_compute; discriminate).
  exact (dgrad_infer_supplied_dx packed_stride sample_context dgrad_supplied
           1%positive 2%positive 3%positive eq_refl eq_refl eq_refl Hd).
Defined.

(** ** Identifier assignment, node by node *)

(** X11: [assign_uids_node] dereferences a null pointer when one of the roles
    it uses without a test is not set; otherwise it returns OK, draws one
    identifier from the counter for each role that is set, and changes no
    shape, stride or virtual flag. For an RngNode only Y is used without a
    test, Seed and Offset may be left out. *)
Theorem assign_uids_node_roles n w :
  (all_present (Node_mandatory_roles n) = false →
   Node_assign_uids n w = Undefined NullDeref) ∧
  (all_present (Node_mandatory_roles n) = true →
   ∃ w', Node_assign_uids n w = Ok (mk_error OK "", w') ∧
         w_uid_counter w'
           = (w_uid_counter w + Z.of_nat (length (omap id (Node_uid_roles n))))%Z ∧
         ∀ p, dim (w_heap w' p) = dim (w_heap w p) ∧
              stride (w_heap w' p) = stride (w_heap w p) ∧
              is_virtual (w_heap w' p) = is_virtual (w_heap w p)).
Proof.
  rewrite Node_assign_uids_eq. split; intros ->; [done|].
  eexists. split; [reflexivity|].
  destruct (assign_list_spec (omap id (Node_uid_roles n)) w) as (Hc & Hsh & _).
  done.
Qed.

Lemma assign_uids_node_roles_witness :
  ∃ w', Node_assign_uids (RNG (options rng_static)) world0 = Ok (mk_error OK "", w') ∧
        w_uid_counter w' = 1%Z ∧
        ∀ p, dim (w_heap w' p) = dim (w_heap world0 p) ∧
             stride (w_heap w' p) = stride (w_heap world0 p) ∧
             is_virtual (w_heap w' p) = is_virtual (w_heap world0 p).
Proof.
  assert (all_present (Node_mandatory_roles (RNG (options rng_static))) = true)
    as H by (vm_compute; reflexivity).
  exact (proj2 (assign_uids_node_roles (RNG (options rng_static)) world0) H).
Defined.

(** ** Lowering: what [createOperations] needs, and how it fails *)

Lemma bind_Throw {S A B} (m : M S A) (k : A → M S B) s e :
  m s = Throw e → (m ≫= k) s = Throw e.
Proof. unfold mbind, M_bind. by intros ->. Qed.

Lemma try_rethrow_Throw {S B} (m : M S B) s e :
  m s = Throw e → try_rethrow m s = Throw e.
Proof. unfold try_rethrow. intros ->. by destruct e. Qed.

Lemma handle_missing {A} q (s : State A) :
  tensors s !! uid (heap s q) = None → handle (Some q) s = Throw out_of_range.
Proof.
  intros H. unfold handle. erewrite bind_eval by reflexivity.
  unfold tensors_at. by rewrite H.
Qed.

Lemma handle_eval {A} q (s : State A) t :
  tensors s !! uid (heap s q) = Some t → handle (Some q) s = Ok (t, s).
Proof. intros H. apply handle_Ok. eauto. Qed.

Lemma handle2_eval {A} b q1 q2 (s : State A) t1 t2 :
  tensors s !! uid (heap s q1) = Some t1 →
  tensors s !! uid (heap s q2) = Some t2 →
  handle2 b (Some q1) (Some q2) s = Ok ((t1, t2), s).
Proof. intros H1 H2. apply handle2_Ok. by eexists _, _, _, _. Qed.

(** Whichever argument is evaluated first, a missing backend tensor of two
    roles that are set ends the call with [std::out_of_range]. *)
Lemma handle2_missing {A} b q1 q2 (s : State A) :
  tensors s !! uid (heap s q1) = None ∨ tensors s !! uid (heap s q2) = None →
  handle2 b (Some q1) (Some q2) s = Throw out_of_range.
Proof.
  intros Hmiss. unfold handle2.
  destruct (tensors s !! uid (heap s q1)) as [t1|] eqn:E1,
           (tensors s !! uid (heap s q2)) as [t2|] eqn:E2, b;
    try (by destruct Hmiss);
    first [ apply bind_Throw; by apply handle_missing
          | erewrite bind_eval by (by apply handle_eval);
            apply bind_Throw; by apply handle_missing ].
Qed.

Lemma build_reject {A} build_error d (s : State A) what status :
  build_error d = Some (what, status) →
  build build_error d s = Throw (cudnnException what status).
Proof. unfold build. by intros ->. Qed.

(** X12: a run of [createOperations] of a BatchNorm, DBN or Dgrad node that
    returns has status OK, found every tensor involved set and with a backend
    tensor under its identifier, appended one record, and left the attributes,
    the descriptors, the uid counter and the backend tensors as they were. *)
Theorem createOperations_needs_tensors :
  (∀ build_error second_first (s s' : BatchNormNode.St) e,
     BatchNormNode.createOperations build_error second_first s = Ok (e, s') →
     e = mk_error OK "" ∧
     Forall (registered s) (BatchNormNode.tensors_involved_in_operation (options s)) ∧
     options s' = options s ∧ heap s' = heap s ∧ uid_counter s' = uid_counter s ∧
     tensors s' = tensors s ∧
     length (operations s') = S (length (operations s))) ∧
  (∀ build_error second_first (s s' : DBNNode.St) e,
     DBNNode.createOperations build_error second_first s = Ok (e, s') →
     e = mk_error OK "" ∧
     Forall (registered s) (DBNNode.tensors_involved_in_operation (options s)) ∧
     options s' = options s ∧ heap s' = heap s ∧ uid_counter s' = uid_counter s ∧
     tensors s' = tensors s ∧
     length (operations s') = S (length (operations s))) ∧
  (∀ build_error (s s' : DgradNode.St) e,
     DgradNode.createOperations build_error s = Ok (e, s') →
     e = mk_error OK "" ∧
     Forall (registered s) (DgradNode.tensors_involved_in_operation (options s)) ∧
     options s' = options s ∧ heap s' = heap s ∧ uid_counter s' = uid_counter s ∧
     tensors s' = tensors s ∧
     length (operations s') = S (length (operations s))).
Proof.
  split_and!.
  - intros build_error second_first s s' e H.
    unfold BatchNormNode.createOperations in H.
    invert_ops. split_and!; try done.
    + unfold BatchNormNode.tensors_involved_in_operation, registered.
      repeat constructor; eauto.
    + simpl. rewrite length_app. simpl. lia.
  - intros build_error second_first s s' e H.
    unfold DBNNode.createOperations in H.
    invert_ops. split_and!; try done.
    + unfold DBNNode.tensors_involved_in_operation, registered.
      repeat constructor; eauto.
    + simpl. rewrite length_app. simpl. lia.
  - intros build_error s s' e H. unfold DgradNode.createOperations in H.
    invert_ops. split_and!; try done.
    + unfold DgradNode.tensors_involved_in_operation, registered.
      repeat constructor; eauto.
    + simpl. rewrite length_app. simpl. lia.
Qed.

Lemma createOperations_needs_tensors_witness :
  BatchNormNode.createOperations accept_all left_to_right batchnorm_built
    = Ok (mk_error OK "", batchnorm_lowered) ∧
  tensors batchnorm_lowered = tensors batchnorm_built ∧
  length (operations batchnorm_lowered) = 1.
Proof.
  assert (BatchNormNode.createOperations accept_all left_to_right batchnorm_built
            = Ok (mk_error OK "", batchnorm_lowered)) as H
    by (vm_compute; reflexivity).
  split; [exact H|].
  destruct (proj1 createOperations_needs_tensors _ _ _ _ _ H)
    as (_ & _ & _ & _ & _ & Ht & Hl).
  split; [exact Ht|]. rewrite Hl. reflexivity.
Defined.

Ltac present_roles :=
  repeat match goal with
  | H : Forall _ (_ :: _) |- _ =>
      let H' := fresh "Hall" in
      let E := fresh "E" in
      destruct (Forall_cons_1 _ _ _ H) as [[? E] H']; clear H;
      rewrite E in *; clear E
  end.

Ltac lookup_handles :=
  repeat lazymatch goal with
  | |- (handle (Some ?p) ≫= _) ?s = _ =>
      let E := fresh "E" in
      destruct (tensors s !! uid (heap s p)) eqn:E;
        [erewrite bind_eval by (apply handle_eval; exact E)
        |apply bind_Throw; by apply handle_missing]
  | |- (handle2 _ (Some ?p1) (Some ?p2) ≫= _) ?s = _ =>
      let E1 := fresh "E" in
      let E2 := fresh "E" in
      destruct (tensors s !! uid (heap s p1)) eqn:E1;
        [destruct (tensors s !! uid (heap s p2)) eqn:E2;
           [erewrite bind_eval by (apply handle2_eval; [exact E1|exact E2])
           |apply bind_Throw, handle2_missing; by right]
        |apply bind_Throw, handle2_missing; by left]
  end.

(** X13: when every tensor involved in a BatchNorm or DBN node is set and one
    of them has no backend tensor under its identifier, [createOperations]
    leaves with the [std::out_of_range] of [tensors.at]: the catch clause lets
    it through, and no status is returned. *)
Theorem createOperations_missing_tensor :
  (∀ build_error second_first (s : BatchNormNode.St) q,
     Forall is_Some (BatchNormNode.tensors_involved_in_operation (options s)) →
     Some q ∈ BatchNormNode.tensors_involved_in_operation (options s) →
     tensors s !! uid (heap s q) = None →
     BatchNormNode.createOperations build_error second_first s = Throw out_of_range) ∧
  (∀ build_error second_first (s : DBNNode.St) q,
     Forall is_Some (DBNNode.tensors_involved_in_operation (options s)) →
     Some q ∈ DBNNode.tensors_involved_in_operation (options s) →
     tensors s !! uid (heap s q) = None →
     DBNNode.createOperations build_error second_first s = Throw out_of_range).
Proof.
  split.
  - intros build_error second_first s q Hall Hq Hmiss.
    unfold BatchNormNode.createOperations.
    apply bind_Throw, try_rethrow_Throw. erewrite bind_eval by reflexivity.
    unfold BatchNormNode.tensors_involved_in_operation in Hall, Hq.
    present_roles. lookup_handles.
    repeat (apply elem_of_cons in Hq as [[= ->]|Hq]; [congruence|]).
    by apply elem_of_nil in Hq.
  - intros build_error second_first s q Hall Hq Hmiss.
    unfold DBNNode.createOperations.
    apply bind_Throw, try_rethrow_Throw. erewrite bind_eval by reflexivity.
    unfold DBNNode.tensors_involved_in_operation in Hall, Hq.
    present_roles. lookup_handles.
    repeat (apply elem_of_cons in Hq as [[= ->]|Hq]; [congruence|]).
    by apply elem_of_nil in Hq.
Qed.

Lemma createOperations_missing_tensor_witness :
  BatchNormNode.createOperations accept_all left_to_right batchnorm_unregistered
    = Throw out_of_range.
Proof.
  assert (Forall is_Some
            (BatchNormNode.tensors_involved_in_operation
               (options batchnorm_unregistered))) as Hall.
  { vm_compute. repeat constructor; by eexists. }
  assert (Some 10%positive ∈
            BatchNormNode.tensors_involved_in_operation
              (options batchnorm_unregistered)) as Hq.
  { apply list_elem_of_In. vm_compute. tauto. }
  assert (tensors batchnorm_unregistered
            !! uid (heap batchnorm_unregistered 10%positive) = None) as Hmiss
    by (vm_compute; reflexivity).
  exact (proj1 createOperations_missing_tensor accept_all left_to_right
           batchnorm_unregistered 10%positive Hall Hq Hmiss).
Defined.

Ltac found_handles :=
  repeat lazymatch goal with
  | |- (handle (Some ?p) ≫= _) ?s = _ =>
      erewrite bind_eval by (apply handle_eval; eassumption)
  | |- (handle2 _ (Some ?p1) (Some ?p2) ≫= _) ?s = _ =>
      erewrite bind_eval by (apply handle2_eval; eassumption)
  end.

Ltac set_roles :=
  repeat match goal with
  | H : backend_tensor _ ?T = Some _ |- _ =>
      unfold backend_tensor in H; destruct T; [|discriminate H]
  end.

(** X14: when every role of a BatchNorm or DBN node has its backend tensor
    and the backend rejects the operation built from them, [createOperations]
    leaves with a [cudnnException] that carries the message and the status of
    the backend's, and no status is returned. The same holds when the backend
    rejects the Bernoulli descriptor of an RngNode. *)
Theorem createOperations_backend_rejection :
  (∀ build_error second_first (s : BatchNormNode.St)
     x mean inv_variance scale bias prev_running_mean prev_running_var
     next_running_mean next_running_var epsilon momentum y what status,
     backend_tensor s (BatchNormNode.X (BatchNormNode.inputs (options s)))
       = Some x →
     backend_tensor s (BatchNormNode.MEAN (BatchNormNode.outputs (options s)))
       = Some mean →
     backend_tensor s (BatchNormNode.INV_VARIANCE (BatchNormNode.outputs (options s)))
       = Some inv_variance →
     backend_tensor s (BatchNormNode.SCALE (BatchNormNode.inputs (options s)))
       = Some scale →
     backend_tensor s (BatchNormNode.BIAS (BatchNormNode.inputs (options s)))
       = Some bias →
     backend_tensor s
       (BatchNormNode.PREV_RUNNING_MEAN (BatchNormNode.inputs (options s)))
       = Some prev_running_mean →
     backend_tensor s
       (BatchNormNode.PREV_RUNNING_VAR (BatchNormNode.inputs (options s)))
       = Some prev_running_var →
     backend_tensor s
       (BatchNormNode.NEXT_RUNNING_MEAN (BatchNormNode.outputs (options s)))
       = Some next_running_mean →
     backend_tensor s
       (BatchNormNode.NEXT_RUNNING_VAR (BatchNormNode.outputs (options s)))
       = Some next_running_var →
     backend_tensor s (BatchNormNode.EPSILON (BatchNormNode.inputs (options s)))
       = Some epsilon →
     backend_tensor s (BatchNormNode.MOMENTUM (BatchNormNode.inputs (options s)))
       = Some momentum →
     backend_tensor s (BatchNormNode.Y (BatchNormNode.outputs (options s)))
       = Some y →
     build_error (OperationDescriptor
       (OPERATION_NORM_FORWARD (BatchNormNode.forward_phase (options s))
          x mean inv_variance scale bias prev_running_mean prev_running_var
          next_running_mean next_running_var epsilon momentum y))
       = Some (what, status) →
     BatchNormNode.createOperations build_error second_first s
       = Throw (cudnnException what status)) ∧
  (∀ build_error second_first (s : DBNNode.St)
     x dy scale mean inv_variance dscale dbias dx what status,
     backend_tensor s (DBNNode.X (DBNNode.inputs (options s))) = Some x →
     backend_tensor s (DBNNode.DY (DBNNode.inputs (options s))) = Some dy →
     backend_tensor s (DBNNode.SCALE (DBNNode.inputs (options s))) = Some scale →
     backend_tensor s (DBNNode.MEAN (DBNNode.inputs (options s))) = Some mean →
     backend_tensor s (DBNNode.INV_VARIANCE (DBNNode.inputs (options s)))
       = Some inv_variance →
     backend_tensor s (DBNNode.DSCALE (DBNNode.outputs (options s))) = Some dscale →
     backend_tensor s (DBNNode.DBIAS (DBNNode.outputs (options s))) = Some dbias →
     backend_tensor s (DBNNode.DX (DBNNode.outputs (options s))) = Some dx →
     build_error (OperationDescriptor
       (OPERATION_NORM_BACKWARD x dy scale mean inv_variance dscale dbias dx))
       = Some (what, status) →
     DBNNode.createOperations build_error second_first s
       = Throw (cudnnException what status)) ∧
  (∀ build_error (s : RngNode.St) pr what status,
     RngNode.distribution (options s) = BERNOULLI →
     RngNode.bernoulli_probability (options s) = Some pr →
     build_error (RngDescriptor (mk_RngDesc BERNOULLI pr)) = Some (what, status) →
     RngNode.createOperations build_error s
       = Throw (cudnnException what status)).
Proof.
  split_and!.
  - intros build_error second_first s x mean iv sc bi prm prv nrm nrv ep mo y
      what status Hx Hmean Hiv Hsc Hbi Hprm Hprv Hnrm Hnrv Hep Hmo Hy Hrej.
    unfold BatchNormNode.createOperations.
    apply bind_Throw, try_rethrow_Throw. erewrite bind_eval by reflexivity.
    set_roles. found_handles.
    apply bind_Throw. apply build_reject. exact Hrej.
  - intros build_error second_first s x dy sc mean iv ds db dx
      what status Hx Hdy Hsc Hmean Hiv Hds Hdb Hdx Hrej.
    unfold DBNNode.createOperations.
    apply bind_Throw, try_rethrow_Throw. erewrite bind_eval by reflexivity.
    set_roles. found_handles.
    apply bind_Throw. apply build_reject. exact Hrej.
  - intros build_error s pr what status Hd Hpr Hrej.
    unfold RngNode.createOperations.
    apply bind_Throw, try_rethrow_Throw. erewrite bind_eval by reflexivity.
    rewrite decide_True by done. rewrite Hpr, Hd.
    erewrite bind_eval by reflexivity.
    apply bind_Throw. by apply build_reject.
Qed.

Lemma createOperations_backend_rejection_witness :
  BatchNormNode.createOperations reject_operations right_to_left batchnorm_built
    = Throw (cudnnException "CUDNN_STATUS_BAD_PARAM" 3%Z).
Proof.
  apply (proj1 createOperations_backend_rejection reject_operations right_to_left
           batchnorm_built
           (BackendTensor (heap batchnorm_built 1%positive))
           (BackendTensor (heap batchnorm_built 9%positive))
           (BackendTensor (heap batchnorm_built 10%positive))
           (BackendTensor (heap batchnorm_built 2%positive))
           (BackendTensor (heap batchnorm_built 3%positive))
           (BackendTensor (heap batchnorm_built 4%positive))
           (BackendTensor (heap batchnorm_built 5%positive))
           (BackendTensor (heap batchnorm_built 11%positive))
           (BackendTensor (heap batchnorm_built 12%positive))
           (BackendTensor (heap batchnorm_built 6%positive))
           (BackendTensor (heap batchnorm_built 7%positive))
           (BackendTensor (heap batchnorm_built 8%positive))
           "CUDNN_STATUS_BAD_PARAM" 3%Z);
    vm_compute; reflexivity.
Defined.

(** ** Rng: the optionals, and the identifiers of static seeding *)

(** X15: [createOperations] of an RngNode leaves with
    [std::bad_optional_access] when the distribution is Bernoulli and no
    probability was set, whatever else the node holds, and when no Seed
    tensor and no seed value was set, once the backend tensor of Y is
    found. *)
Theorem rng_missing_optional :
  (∀ build_error (s : RngNode.St),
     RngNode.distribution (options s) = BERNOULLI →
     RngNode.bernoulli_probability (options s) = None →
     RngNode.createOperations build_error s = Throw bad_optional_access) ∧
  (∀ build_error (s : RngNode.St) pr py hy,
     RngNode.distribution (options s) = BERNOULLI →
     RngNode.bernoulli_probability (options s) = Some pr →
     build_error (RngDescriptor (mk_RngDesc BERNOULLI pr)) = None →
     RngNode.Seed (RngNode.inputs (options s)) = None →
     RngNode.Y (RngNode.outputs (options s)) = Some py →
     tensors s !! uid (heap s py) = Some hy →
     RngNode.seed (options s) = None →
     RngNode.createOperations build_error s = Throw bad_optional_access).
Proof.
  split.
  - intros build_error s Hd Hpr. unfold RngNode.createOperations.
    apply bind_Throw, try_rethrow_Throw. erewrite bind_eval by reflexivity.
    rewrite decide_True by done. rewrite Hpr. by apply bind_Throw.
  - intros build_error s pr py hy Hd Hpr Hacc HS HY Hhy Hsv.
    unfold RngNode.createOperations.
    apply bind_Throw, try_rethrow_Throw. erewrite bind_eval by reflexivity.
    rewrite decide_True by done. rewrite Hpr, Hd, HS, HY, Hsv.
    erewrite bind_eval by reflexivity.
    erewrite bind_eval by (by apply build_eval).
    rewrite bool_decide_eq_false_2 by (by intros []).
    erewrite bind_eval by (apply handle_eval; exact Hhy).
    by apply bind_Throw.
Qed.

Lemma rng_missing_optional_witness :
  RngNode.createOperations accept_all rng_without_probability
    = Throw bad_optional_access.
Proof.
  exact (proj1 rng_missing_optional accept_all rng_without_probability
           eq_refl eq_refl).
Defined.

(** X16: with the Bernoulli distribution, a seed value and no Seed tensor,
    an Offset tensor that is set and not virtual has its identifier in the
    record [createOperations] appends, although the operation is built from
    Y and the seed value alone and Offset needs no backend tensor. *)
Theorem rng_static_lists_offset build_error (s : RngNode.St) po py pr sv hy :
  RngNode.distribution (options s) = BERNOULLI →
  RngNode.bernoulli_probability (options s) = Some pr →
  RngNode.Seed (RngNode.inputs (options s)) = None →
  RngNode.Offset (RngNode.inputs (options s)) = Some po →
  is_virtual (heap s po) = false →
  RngNode.seed (options s) = Some sv →
  RngNode.Y (RngNode.outputs (options s)) = Some py →
  tensors s !! uid (heap s py) = Some hy →
  build_error (RngDescriptor (mk_RngDesc BERNOULLI pr)) = None →
  build_error (OperationDescriptor
     (OPERATION_RNG hy (mk_RngDesc BERNOULLI pr) (SeedValue sv))) = None →
  ∃ s' uids,
    RngNode.createOperations build_error s = Ok (mk_error OK "", s') ∧
    operations s' = operations s ++
      [(OPERATION_RNG hy (mk_RngDesc BERNOULLI pr) (SeedValue sv), uids)] ∧
    uid (heap s po) ∈ uids.
Proof.
  intros Hd Hpr HS HO Hv Hsv HY Hhy Hacc1 Hacc2.
  eexists _, _. split; [by eapply rng_createOperations_static|].
  split; [reflexivity|].
  apply elem_of_real_uids. exists po. split_and!; [|done..].
  unfold RngNode.tensors_involved_in_operation. rewrite HO.
  apply elem_of_cons. right. apply list_elem_of_here.
Qed.

Lemma rng_static_lists_offset_witness :
  ∃ s' uids,
    RngNode.createOperations accept_all rng_static_with_offset
      = Ok (mk_error OK "", s') ∧
    operations s' = operations rng_static_with_offset ++
      [(OPERATION_RNG (BackendTensor (rng_tensor 3%Z))
          (mk_RngDesc BERNOULLI one_half) (SeedValue 42%Z), uids)] ∧
    uid (heap rng_static_with_offset 2%positive) ∈ uids.
Proof.
  assert (tensors rng_static_with_offset
            !! uid (heap rng_static_with_offset 3%positive)
            = Some (BackendTensor (rng_tensor 3%Z))) as Hhy
    by (vm_compute; reflexivity).
  assert (is_virtual (heap rng_static_with_offset 2%positive) = false) as Hv
    by (vm_compute; reflexivity).
  exact (rng_static_lists_offset accept_all rng_static_with_offset
           2%positive 3%positive one_half 42%Z _
           eq_refl eq_refl eq_refl eq_refl Hv eq_refl eq_refl Hhy eq_refl eq_refl).
Defined.

(** ** Identifier assignment followed by lowering *)










(** ** Dgrad: the lengths of padding, stride and dilation *)

(** X18: [createOperations] of a dgrad node hands the convolution builder
    [padding.size()] elements of each of the stride, padding and dilation
    vectors; with a stride or a dilation shorter than the padding it reads
    past the end of that vector, before any tensor is looked up. *)
Theorem dgrad_createOperations_short_attributes build_error (s : DgradNode.St) :
  length (DgradNode.conv_stride (options s)) < length (DgradNode.padding (options s)) ∨
  length (DgradNode.dilation (options s)) < length (DgradNode.padding (options s)) →
  DgradNode.createOperations build_error s = Undefined OutOfBounds.
Proof.
  intros Hshort. unfold DgradNode.createOperations.
  apply bind_Undefined, try_rethrow_Undefined.
  erewrite bind_eval by reflexivity. cbv zeta.
  destruct (decide (length (DgradNode.padding (options s))
                      <= length (DgradNode.conv_stride (options s)))) as [Hst|Hst].
  - destruct Hshort as [Hshort|Hshort]; [lia|].
    erewrite bind_eval by (by apply vec_data_Ok).
    erewrite bind_eval by (by apply vec_data_Ok).
    erewrite bind_eval by (by apply vec_data_Ok).
    apply bind_Undefined. unfold vec_data. rewrite decide_False by lia. done.
  - apply bind_Undefined. unfold vec_data. rewrite decide_False by lia. done.
Qed.

Lemma dgrad_createOperations_short_attributes_witness :
  DgradNode.createOperations accept_all dgrad_short_stride = Undefined OutOfBounds.
Proof.
  apply dgrad_createOperations_short_attributes. left. vm_compute. lia.
Defined.
